(** * Camera-health digital twin: the result classifier and narrator

    A shallow embedding of [src/agent/analyze.py]: the shape classifier
    [detect_result_type], the percentage helper [pct], the per-category
    analyzers and the entry point [analyze_result], with the properties
    the specification states about them; and of its caller, the loop
    of [src/agent/agent.py] with [chat_with_llm] of [src/agent/llm.py].

    Conventions of the embedding.
    - A decoded JSON payload is a value of [json]; a Python [dict] is an
      association list in insertion order (the fallback render prints it
      in that order), looked up by first match.
    - A Python [str] is a [string] holding its UTF-8 bytes, so that
      concatenation, equality, emptiness, substring tests and the
      code-point order of Python are those of the bytes.
    - Python integers are [Z]; Python floats are binary64 [float]s, with
      the arithmetic of the IEEE standard. [round(x, 1)] and the
      conversion of an integer to a float are computed exactly.
    - A Python expression that can raise is a computation in [outcome];
      the class of the exception is not recorded.
    - The text the interpreter prints for a float or for a quoted string
      is a parameter of the analyzers ([text_builtins]), and so is the
      order in which it iterates a set ([set_order]).
    - Limits of the interpreter (recursion depth, the digit limit of
      integer-to-text conversion) are outside the model. *)

From Stdlib Require Import List String Ascii ZArith Bool Lia.
From Stdlib Require Import Floats DecimalString.
From Stdlib Require Import Permutation OrdersEx RelationClasses Sorted.
Import ListNotations.

#[local] Set Warnings "-register-all,-inexact-float".
Local Open Scope list_scope.
Local Open Scope string_scope.

(** ** Computations that may raise *)

Inductive outcome (A : Type) : Type :=
| Returns (a : A)
| Raises.

Arguments Returns {A} a.
Arguments Raises {A}.

Definition bind {A B : Type} (c : outcome A) (k : A -> outcome B) : outcome B :=
  match c with
  | Returns a => k a
  | Raises => Raises
  end.

Notation "x <- c ;; k" := (bind c (fun x => k))
  (at level 61, c at next level, right associativity).

Definition returns {A : Type} (c : outcome A) : Prop := exists a, c = Returns a.

(** ** JSON values as [json.loads] hands them to the analyzers *)

Inductive json : Type :=
| JNull
| JBool (b : bool)
| JInt (z : Z)
| JFloat (f : float)
| JStr (s : string)
| JList (items : list json)
| JDict (items : list (string * json)).

Definition dict : Type := list (string * json).

(** [keys d] is [d.keys()]. *)
Definition keys (d : dict) : list string := map fst d.

(** [has_key k d] is [k in d]. *)
Definition has_key (k : string) (d : dict) : bool :=
  existsb (String.eqb k) (keys d).

(** [issubset ks d] is [set(ks).issubset(d.keys())]. *)
Definition issubset (ks : list string) (d : dict) : bool :=
  forallb (fun k => has_key k d) ks.

(** [get k d] is the lookup behind [d.get(k, default)]. *)
Fixpoint get (k : string) (d : dict) : option json :=
  match d with
  | [] => None
  | (k', v) :: rest => if String.eqb k k' then Some v else get k rest
  end.

(** [get_or k default d] is [d.get(k, default)]. *)
Definition get_or (k : string) (default : json) (d : dict) : json :=
  match get k d with
  | Some v => v
  | None => default
  end.

(** ** The classifier *)

Definition detect_result_type (result : json) : string :=
  match result with
  | JDict d =>
      if has_key "error" d then "error"
      else if has_key "uniqueVehicles" d && has_key "site" d then "site_totals"
      else if has_key "uniqueVehicles" d && negb (has_key "site" d) then "city_totals"
      else if issubset ["detectionsTotal"; "detectionsGood"; "detectionsBad"] d
           then "site_day_status"
      else if has_key "plate" d && has_key "cumNFrames" d then "vehicle_degrade"
      else "unknown"
  | JList [] => "trips"
  | JList (JDict first :: _) =>
      if issubset ["plate"; "day"; "window30"] first then "trips" else "unknown"
  | _ => "unknown"
  end.

(** The seven labels of the docstring. *)
Definition result_types : list string :=
  ["error"; "city_totals"; "site_totals"; "site_day_status";
   "vehicle_degrade"; "trips"; "unknown"].

(** The shape signatures as the specification lists them, on the key
    sets alone. *)
Definition matches_signature (result : json) : Prop :=
  match result with
  | JDict d =>
      In "error" (keys d)
      \/ In "uniqueVehicles" (keys d)
      \/ (In "detectionsTotal" (keys d) /\ In "detectionsGood" (keys d)
          /\ In "detectionsBad" (keys d))
      \/ (In "plate" (keys d) /\ In "cumNFrames" (keys d))
  | JList [] => True
  | JList (JDict first :: _) =>
      In "plate" (keys first) /\ In "day" (keys first) /\ In "window30" (keys first)
  | _ => False
  end.

(** ** Python values: truth, [or], equality with a string *)

(** [truthy v] is [bool(v)]: the test behind [if v], [not v] and [v or d]. *)
Definition truthy (v : json) : bool :=
  match v with
  | JNull => false
  | JBool b => b
  | JInt z => negb (Z.eqb z 0)
  | JFloat f => negb (PrimFloat.eqb f 0%float)
  | JStr s => negb (String.eqb s "")
  | JList items => match items with [] => false | _ :: _ => true end
  | JDict items => match items with [] => false | _ :: _ => true end
  end.

(** [py_or v d] is [v or d]. *)
Definition py_or (v d : json) : json := if truthy v then v else d.

(** [is_none v] is [v is None]. *)
Definition is_none (v : json) : bool :=
  match v with JNull => true | _ => false end.

(** [eq_str v s] is [v == s] for a string literal [s]. *)
Definition eq_str (v : json) (s : string) : bool :=
  match v with JStr s' => String.eqb s' s | _ => false end.

(** [as_dict v] is what [v.get] needs: only a dict has the method. *)
Definition as_dict (v : json) : outcome dict :=
  match v with JDict d => Returns d | _ => Raises end.

(** ** Numbers *)

(** The numeric view of a value: [bool] is a subclass of [int]. *)
Inductive number : Type :=
| Int (z : Z)
| Float (f : float).

Definition as_number (v : json) : option number :=
  match v with
  | JBool b => Some (Int (Z.b2z b))
  | JInt z => Some (Int z)
  | JFloat f => Some (Float f)
  | _ => None
  end.

(** [int_to_float z] is [float(z)]: the nearest binary64 value, ties to
    even; an integer that rounds beyond the largest finite value raises
    OverflowError. *)
Definition int_to_float (z : Z) : outcome float :=
  let f := SF2Prim (binary_normalize prec emax z 0 false) in
  if PrimFloat.is_infinity f then Raises else Returns f.

Definition to_float (n : number) : outcome float :=
  match n with
  | Int z => int_to_float z
  | Float f => Returns f
  end.

(** Python compares an [int] with a [float] exactly, without converting
    the integer. [None] is the unordered answer a NaN gives. *)
Definition Z_compare_float (z : Z) (f : float) : option comparison :=
  match Prim2SF f with
  | S754_nan => None
  | S754_infinity s => Some (if s then Gt else Lt)
  | S754_zero _ => Some (Z.compare z 0)
  | S754_finite s m e =>
      let m' := if s then Zneg m else Zpos m in
      Some (if (0 <=? e)%Z then Z.compare z (m' * 2 ^ e)
            else Z.compare (z * 2 ^ (- e)) m')
  end.

Definition float_compare (x y : float) : option comparison :=
  match PrimFloat.compare x y with
  | FEq => Some Eq
  | FLt => Some Lt
  | FGt => Some Gt
  | FNotComparable => None
  end.

Definition number_compare (a b : number) : option comparison :=
  match a, b with
  | Int x, Int y => Some (Z.compare x y)
  | Float x, Float y => float_compare x y
  | Int x, Float y => Z_compare_float x y
  | Float x, Int y => option_map CompOpp (Z_compare_float y x)
  end.

(** [py_compare a b] orders two numbers or two strings. Every other
    pair raises TypeError in Python, except two lists, which Python
    compares element by element; the callers below go on to use the
    winner as a number, which raises for a list, so the model raises for
    that pair at once. *)
Definition py_compare (a b : json) : outcome (option comparison) :=
  match as_number a, as_number b with
  | Some x, Some y => Returns (number_compare x y)
  | _, _ =>
      match a, b with
      | JStr s, JStr t => Returns (Some (String.compare s t))
      | _, _ => Raises
      end
  end.

Definition is_lt (c : option comparison) : bool :=
  match c with Some Lt => true | _ => false end.
Definition is_gt (c : option comparison) : bool :=
  match c with Some Gt => true | _ => false end.
Definition is_ge (c : option comparison) : bool :=
  match c with Some Gt | Some Eq => true | _ => false end.
Definition is_le (c : option comparison) : bool :=
  match c with Some Lt | Some Eq => true | _ => false end.

(** [a < b], [a > b], [a >= b], [a <= b]. *)
Definition py_lt (a b : json) : outcome bool := c <- py_compare a b ;; Returns (is_lt c).
Definition py_gt (a b : json) : outcome bool := c <- py_compare a b ;; Returns (is_gt c).
Definition py_ge (a b : json) : outcome bool := c <- py_compare a b ;; Returns (is_ge c).
Definition py_le (a b : json) : outcome bool := c <- py_compare a b ;; Returns (is_le c).

(** [min(values)] and [max(values)] of a non-empty list: the first
    element wins until a later one is strictly smaller (larger). *)
Fixpoint min_from (best : json) (rest : list json) : outcome json :=
  match rest with
  | [] => Returns best
  | item :: rest' =>
      b <- py_lt item best ;;
      min_from (if b then item else best) rest'
  end.

Fixpoint max_from (best : json) (rest : list json) : outcome json :=
  match rest with
  | [] => Returns best
  | item :: rest' =>
      b <- py_gt item best ;;
      max_from (if b then item else best) rest'
  end.

Definition py_min (values : list json) : outcome json :=
  match values with
  | [] => Raises
  | first :: rest => min_from first rest
  end.

Definition py_max (values : list json) : outcome json :=
  match values with
  | [] => Raises
  | first :: rest => max_from first rest
  end.

(** ** [round(x, 1)] *)

(** The integer nearest to [n / d] for [d > 0], ties to the even one. *)
Definition div_half_even (n d : Z) : Z :=
  let q := (n / d)%Z in
  match Z.compare (2 * (n mod d)) d with
  | Lt => q
  | Gt => (q + 1)%Z
  | Eq => if Z.even q then q else (q + 1)%Z
  end.

(** The integer nearest to [10 * m * 2^e]. *)
Definition tenths (m : positive) (e : Z) : Z :=
  if (0 <=? e)%Z then (10 * Zpos m * 2 ^ e)%Z
  else div_half_even (10 * Zpos m) (2 ^ (- e)).

(** [py_round1 x] is [round(x, 1)] on a float: the exact binary value is
    rounded to one decimal, ties to even, and the decimal is read back
    as the nearest float; zeros keep their sign, infinities and NaN
    round to themselves. *)
Definition py_round1 (x : float) : float :=
  match Prim2SF x with
  | S754_finite s m e =>
      match tenths m e with
      | Zpos d => SF2Prim (SFdiv prec emax (S754_finite s d 0) (S754_finite false 10 0))
      | _ => SF2Prim (S754_zero s)
      end
  | _ => x
  end.

(** ** The percentage helper *)

(** [float_times c v] is [c * v] for a float [c]. *)
Definition float_times (c : float) (v : json) : outcome float :=
  match as_number v with
  | Some n => f <- to_float n ;; Returns (c * f)%float
  | None => Raises
  end.

(** [float_over x v] is [x / v] for a float [x]. *)
Definition float_over (x : float) (v : json) : outcome float :=
  match as_number v with
  | Some n =>
      f <- to_float n ;;
      if PrimFloat.eqb f 0%float then Raises else Returns (x / f)%float
  | None => Raises
  end.

Definition pct (part whole : json) : outcome float :=
  if negb (truthy whole) then Returns 0%float
  else
    scaled <- float_times 100%float part ;;
    ratio <- float_over scaled whole ;;
    Returns (py_round1 ratio).

(** ** Text *)

Definition nl : string := String (ascii_of_nat 10) EmptyString.
Definition dq : string := String (ascii_of_nat 34) EmptyString.

(** [join_lines lines] is the newline join of the analyzers' [lines]. *)
Definition join_lines (lines : list string) : string := String.concat nl lines.

(** [digits z] is [str(z)] for an integer. *)
Definition digits (z : Z) : string := NilZero.string_of_int (Z.to_int z).

(** A comma after every third digit, on the digits in reverse. *)
Fixpoint group3 (rev_digits : list ascii) : list ascii :=
  match rev_digits with
  | a :: b :: c :: ((_ :: _) as rest) => a :: b :: c :: ","%char :: group3 rest
  | _ => rev_digits
  end.

(** [with_commas z] is [format(z, ",")] for an integer. *)
Definition with_commas (z : Z) : string :=
  let body :=
    string_of_list_ascii
      (rev (group3 (rev (list_ascii_of_string (digits (Z.abs z)))))) in
  if (z <? 0)%Z then "-" ++ body else body.

(** [starts_with needle s] is [s.startswith(needle)]. *)
Fixpoint starts_with (needle s : string) : bool :=
  match needle, s with
  | EmptyString, _ => true
  | String a needle', String b s' => Ascii.eqb a b && starts_with needle' s'
  | String _ _, EmptyString => false
  end.

(** [contains needle s] is [needle in s] for two strings. *)
Fixpoint contains (needle s : string) : bool :=
  starts_with needle s
  || match s with
     | EmptyString => false
     | String _ s' => contains needle s'
     end.

(** The characters of a string, each still in UTF-8: a byte of the form
    10xxxxxx continues the character before it. *)
Definition is_continuation (c : ascii) : bool :=
  let n := N_of_ascii c in ((128 <=? n) && (n <? 192))%N.

Definition continues (rest : string) : bool :=
  match rest with
  | String c _ => is_continuation c
  | EmptyString => false
  end.

Fixpoint chars (s : string) : list string :=
  match s with
  | EmptyString => []
  | String c rest =>
      match chars rest with
      | chunk :: more =>
          if continues rest then String c chunk :: more
          else String c EmptyString :: chunk :: more
      | [] => [String c EmptyString]
      end
  end.

(** [py_iter v] is the sequence [for s in v] walks: the items of a list,
    the characters of a string, the keys of a dict; nothing else among
    JSON values is iterable. *)
Definition py_iter (v : json) : outcome (list json) :=
  match v with
  | JList items => Returns items
  | JStr s => Returns (map JStr (chars s))
  | JDict d => Returns (map JStr (keys d))
  | _ => Raises
  end.

(** [all_strings items] is what [sep.join(items)] demands of its items. *)
Fixpoint all_strings (items : list json) : outcome (list string) :=
  match items with
  | [] => Returns []
  | JStr s :: rest => strs <- all_strings rest ;; Returns (s :: strs)
  | _ :: _ => Raises
  end.

(** [py_join sep v] is [sep.join(v)]. *)
Definition py_join (sep : string) (v : json) : outcome string :=
  items <- py_iter v ;;
  strs <- all_strings items ;;
  Returns (String.concat sep strs).

(** [hashable v]: lists and dicts cannot enter a set. *)
Definition hashable (v : json) : bool :=
  match v with JList _ | JDict _ => false | _ => true end.

(** [set_add v seen] is [seen.add(v)]. The set is kept as the list of
    its members in insertion order; a string already present is not
    added again. Other hashable values are kept as they come: the only
    uses of the set, its length and its sorted join, sit in one f-string
    whose join raises on a member that is not a string. *)
Definition set_add (v : json) (seen : list json) : outcome (list json) :=
  if negb (hashable v) then Raises
  else
    match v with
    | JStr s => Returns (if existsb (fun m => eq_str m s) seen then seen else seen ++ [v])%list
    | _ => Returns (seen ++ [v])%list
    end.

Fixpoint add_all (items seen : list json) : outcome (list json) :=
  match items with
  | [] => Returns seen
  | v :: rest => seen' <- set_add v seen ;; add_all rest seen'
  end.

(** [sorted] on strings, as an insertion sort on the code-point order;
    equal strings are identical, so every sort returns this list. *)
Fixpoint insert (x : string) (sorted : list string) : list string :=
  match sorted with
  | [] => [x]
  | y :: rest => if String.leb x y then x :: sorted else y :: insert x rest
  end.

Fixpoint py_sorted (l : list string) : list string :=
  match l with
  | [] => []
  | x :: rest => insert x (py_sorted rest)
  end.

(** [contains_in needle v] is [needle in v] for a string literal
    [needle]: a substring test on a string, a membership test on a list
    or on the keys of a dict, TypeError on anything else. *)
Definition contains_in (needle : string) (v : json) : outcome bool :=
  match v with
  | JStr s => Returns (contains needle s)
  | JList items => Returns (existsb (fun m => eq_str m needle) items)
  | JDict d => Returns (has_key needle d)
  | _ => Raises
  end.

(** [any_contains needle flags] is [any(needle in lbl for lbl in flags)]:
    it stops at the first label that holds the needle. *)
Fixpoint any_contains (needle : string) (flags : list json) : outcome bool :=
  match flags with
  | [] => Returns false
  | lbl :: rest =>
      b <- contains_in needle lbl ;;
      if b then Returns true else any_contains needle rest
  end.

(** What the interpreter prints for a float and for a quoted string is
    left to the interpreter: [float_repr x] is [repr(x)], [float_fixed n
    x] is [format(x, ".nf")], [float_comma x] is [format(x, ",")] and
    [str_repr s] is [repr(s)]. None of the four can raise. *)
Record text_builtins : Type := {
  float_repr : float -> string;
  float_fixed : nat -> float -> string;
  float_comma : float -> string;
  str_repr : string -> string
}.

Section Interpreter.

(** The interpreter's text of floats and quoted strings. *)
Variable text : text_builtins.

(** The order in which a set of strings is iterated: it follows the
    hashes of the members, which change from one process to the next. *)
Variable set_order : list string -> list string.

(** [py_repr v] is [repr(v)] and [py_str v] is [str(v)], which is also
    what a bare [{v}] of an f-string prints. *)
Fixpoint py_repr (v : json) : string :=
  match v with
  | JNull => "None"
  | JBool b => if b then "True" else "False"
  | JInt z => digits z
  | JFloat f => float_repr text f
  | JStr s => str_repr text s
  | JList items => "[" ++ String.concat ", " (map py_repr items) ++ "]"
  | JDict items =>
      "{" ++ String.concat ", "
               (map (fun kv => str_repr text (fst kv) ++ ": " ++ py_repr (snd kv)) items)
          ++ "}"
  end.

Definition py_str (v : json) : string :=
  match v with
  | JStr s => s
  | _ => py_repr v
  end.

(** [format_comma v] is the [{v:,}] of an f-string. *)
Definition format_comma (v : json) : outcome string :=
  match v with
  | JInt z => Returns (with_commas z)
  | JBool b => Returns (with_commas (Z.b2z b))
  | JFloat f => Returns (float_comma text f)
  | _ => Raises
  end.

(** [format_fixed n v] is the [{v:.nf}] of an f-string: an integer is
    converted to a float first. *)
Definition format_fixed (n : nat) (v : json) : outcome string :=
  match as_number v with
  | Some x => f <- to_float x ;; Returns (float_fixed text n f)
  | None => Raises
  end.

(** ** Analyzers per result type *)

Definition analyze_error (question : string) (result : json) : outcome string :=
  d <- as_dict result ;;
  let msg := get_or "error" (JStr "Unknown backend error.") d in
  Returns
    ("I tried to answer your question:" ++ nl ++ nl
     ++ "  " ++ dq ++ question ++ dq ++ nl ++ nl
     ++ "but the backend returned an error:" ++ nl ++ nl
     ++ "  " ++ py_str msg ++ nl ++ nl
     ++ "This usually means there is no data for that day/site/plate combination or the identifiers don't exist in the twin.").

Definition analyze_city_totals (question : string) (result : json) : outcome string :=
  d <- as_dict result ;;
  let day := get_or "day" (JStr "?") d in
  let unique_veh := get_or "uniqueVehicles" (JInt 0) d in
  let always_deg := get_or "alwaysDegraded" (JInt 0) d in
  let not_always := get_or "notAlwaysDegraded" (JInt 0) d in
  always_pct <- pct always_deg unique_veh ;;
  not_always_pct <- pct not_always unique_veh ;;
  let health :=
    if (always_pct <? 2)%float then "excellent"
    else if (always_pct <? 5)%float then "good"
    else if (always_pct <? 10)%float then "borderline"
    else "concerning" in
  unique_veh_text <- format_comma unique_veh ;;
  always_deg_text <- format_comma always_deg ;;
  not_always_text <- format_comma not_always ;;
  Returns
    ("**City-wide vehicle degradation on " ++ py_str day ++ "**" ++ nl ++ nl
     ++ "- Unique vehicles: **" ++ unique_veh_text ++ "**" ++ nl
     ++ "- Always degraded: **" ++ always_deg_text ++ "** ("
     ++ float_repr text always_pct ++ "%)" ++ nl
     ++ "- Not always degraded: **" ++ not_always_text ++ "** ("
     ++ float_repr text not_always_pct ++ "%)" ++ nl ++ nl
     ++ "**Interpretation**" ++ nl
     ++ "- City health on this day is **" ++ health
     ++ "** based on the share of always-degraded vehicles." ++ nl
     ++ "- Always-degraded means the vehicle looked bad everywhere it appeared that day, which strongly suggests a **vehicle-side issue** rather than a site-only problem." ++ nl ++ nl
     ++ "If you want, you can drill into:" ++ nl
     ++ "- A specific site with: *“How many degraded vehicles were at RUHSMxxx on "
     ++ py_str day ++ "?”*" ++ nl
     ++ "- A specific plate with: *“Show the degradation history for plate ABC1234.”*").

Definition site_totals_lines (result : json) : outcome (list string) :=
  d <- as_dict result ;;
  let day := get_or "day" (JStr "?") d in
  let site := get_or "site" (JStr "?") d in
  let unique_veh := get_or "uniqueVehicles" (JInt 0) d in
  let always_deg := get_or "alwaysDegraded" (JInt 0) d in
  let not_always := get_or "notAlwaysDegraded" (JInt 0) d in
  always_pct <- pct always_deg unique_veh ;;
  not_always_pct <- pct not_always unique_veh ;;
  let site_health :=
    if (always_pct <? 2)%float then "very healthy"
    else if (always_pct <? 5)%float then "healthy"
    else if (always_pct <? 10)%float then "borderline"
    else "suspicious" in
  unique_veh_text <- format_comma unique_veh ;;
  always_deg_text <- format_comma always_deg ;;
  not_always_text <- format_comma not_always ;;
  let lines :=
    [ "**Site-level degraded vehicles — " ++ py_str site ++ " on " ++ py_str day ++ "**";
      "";
      "- Unique vehicles seen: **" ++ unique_veh_text ++ "**";
      "- Always degraded: **" ++ always_deg_text ++ "** ("
        ++ float_repr text always_pct ++ "%)";
      "- Not always degraded: **" ++ not_always_text ++ "** ("
        ++ float_repr text not_always_pct ++ "%)";
      "";
      "**Interpretation**";
      "- This site on that day looks **" ++ site_health
        ++ "** from a vehicle degradation perspective." ] in
  Returns
    (if String.eqb site_health "borderline" || String.eqb site_health "suspicious"
     then lines
          ++ [ "- A high share of always-degraded vehicles suggests something systematic at this site: alignment, illumination, or configuration.";
               "- Cross-check this with trip patterns: do many of these vehicles look fine at other sites the same day?" ]
     else lines
          ++ [ "- Most vehicles either look fine or only occasionally degraded here, which is consistent with normal traffic and environment." ])%list.

Definition analyze_site_totals (question : string) (result : json) : outcome string :=
  lines <- site_totals_lines result ;;
  Returns (join_lines lines).

(** The label [analyze_site_day_status] derives from the good rate when
    the status reads ["unknown"]. *)
Definition derived_label (good_rate_pct : json) : outcome json :=
  if is_none good_rate_pct then Returns (JStr "no data")
  else
    ge90 <- py_ge good_rate_pct (JInt 90) ;;
    if ge90 then Returns (JStr "healthy")
    else
      ge80 <- py_ge good_rate_pct (JInt 80) ;;
      if ge80 then Returns (JStr "slightly degraded")
      else
        ge60 <- py_ge good_rate_pct (JInt 60) ;;
        if ge60 then Returns (JStr "borderline")
        else Returns (JStr "heavily degraded").

(** [between lo v hi] is the chained comparison [lo <= v < hi]. *)
Definition between (lo : Z) (v : json) (hi : Z) : outcome bool :=
  above <- py_le (JInt lo) v ;;
  if above then py_lt v (JInt hi) else Returns false.

(** The paragraph the good rate selects, when there is a good rate. *)
Definition rate_paragraph (good_rate_pct : json) : outcome (list string) :=
  if negb (is_none good_rate_pct) then
    ge90 <- py_ge good_rate_pct (JInt 90) ;;
    if ge90 then
      Returns [ "- This looks like a strong, clean day. Any vehicle issues here are more likely to be vehicle-specific rather than a site fault." ]
    else
      in80 <- between 80 good_rate_pct 90 ;;
      if in80 then
        Returns [ "- Slight degradation: some conditions (e.g., lighting at specific hours or certain lanes) may be reducing quality, but the site is broadly OK." ]
      else
        in60 <- between 60 good_rate_pct 80 ;;
        if in60 then
          Returns [ "- Borderline performance: you should inspect **per-lane / per-hour** breakdowns to see if issues cluster at specific times or directions." ]
        else
          Returns [ "- Heavy degradation: this likely indicates a **site-level problem** (alignment, focus, camera cleanliness, or configuration). This site should be prioritized for maintenance." ]
  else Returns [].

Definition site_day_status_lines (result : json) : outcome (list string) :=
  d <- as_dict result ;;
  let day := get_or "day" (JStr "?") d in
  let site := get_or "site" (JStr "?") d in
  let total := get_or "detectionsTotal" (JInt 0) d in
  let good := get_or "detectionsGood" (JInt 0) d in
  let bad := get_or "detectionsBad" (JInt 0) d in
  let good_rate_pct := get_or "goodRatePct" JNull d in
  let status := py_or (get_or "status" (JStr "") d) (JStr "unknown") in
  let color := py_or (get_or "color" (JStr "") d) (JStr "none") in
  good_rate_pct <-
    (if is_none good_rate_pct && truthy total
     then rate <- pct good total ;; Returns (JFloat rate)
     else Returns good_rate_pct) ;;
  qualitative <-
    (if eq_str status "unknown" then derived_label good_rate_pct
     else Returns status) ;;
  total_text <- format_comma total ;;
  good_text <- format_comma good ;;
  bad_text <- format_comma bad ;;
  rate_text <- format_fixed 1 (if negb (is_none good_rate_pct) then good_rate_pct else JInt 0) ;;
  let lines :=
    [ "**Daily site health — " ++ py_str site ++ " on " ++ py_str day ++ "**";
      "";
      "- Total detections: **" ++ total_text ++ "**";
      "- Good detections: **" ++ good_text ++ "**";
      "- Bad detections: **" ++ bad_text ++ "**";
      "- Good rate: **" ++ rate_text ++ "%**";
      "- Status flag: **" ++ py_str status ++ "** (color: `" ++ py_str color ++ "`)";
      "";
      "**Interpretation**";
      "- Overall this site is **" ++ py_str qualitative
        ++ "** on that day based on the good-rate percentage." ] in
  paragraph <- rate_paragraph good_rate_pct ;;
  Returns (lines ++ paragraph)%list.

Definition analyze_site_day_status (question : string) (result : json) : outcome string :=
  lines <- site_day_status_lines result ;;
  Returns (join_lines lines).

Definition analyze_vehicle_degrade (question : string) (result : json) : outcome string :=
  d <- as_dict result ;;
  let plate := get_or "plate" (JStr "?") d in
  let day := py_or (get_or "day" JNull d) (JStr "latest day in index") in
  let vehicle_type := get_or "vehicleType" JNull d in
  let vehicle_label := py_or (get_or "vehicleLabel" (JStr "") d) (JStr "unknown type") in
  let first_day := py_or (get_or "firstDay" JNull d) (JStr "unknown") in
  let cum_min_q := get_or "cumMinQ" (JFloat 0) d in
  let cum_max_q := get_or "cumMaxQ" (JFloat 0) d in
  let frames := get_or "cumNFrames" (JInt 0) d in
  let always := get_or "alwaysDegraded" (JBool false) d in
  let health_desc := if truthy always then "always degraded" else "not always degraded" in
  frames_text <- format_comma frames ;;
  min_text <- format_fixed 3 cum_min_q ;;
  max_text <- format_fixed 3 cum_max_q ;;
  let lines :=
    [ "**Vehicle degradation profile — plate " ++ py_str plate ++ "**";
      "";
      "- Vehicle type: **" ++ py_str vehicle_label ++ "** (code: "
        ++ py_str vehicle_type ++ ")";
      "- First seen in degraded stats: **" ++ py_str first_day ++ "**";
      "- Latest record day: **" ++ py_str day ++ "**";
      "- Frames considered: **" ++ frames_text ++ "**";
      "- Cumulative quality range: **" ++ min_text ++ " – " ++ max_text ++ "**";
      "- Classification: **" ++ health_desc ++ "**";
      "";
      "**Interpretation**" ] in
  let lines :=
    if truthy always then
      (lines ++ [ "- This vehicle is consistently degraded wherever it appears. That strongly suggests a **vehicle-side issue** (dirty plate, mounting angle, damage) rather than a site-only problem." ])%list
    else
      (lines ++ [ "- This vehicle is sometimes good and sometimes bad. That typically means it's useful for **site diagnostics**: compare which sites see it with good quality versus poor quality." ])%list in
  let closing :=
    "If you want, you can ask next: " ++ dq ++ "Show all trips for this plate"
    ++ dq ++ " or " ++ dq ++ "Which sites does this vehicle look worst at?" ++ dq in
  let lines := (lines ++ [closing])%list in
  Returns (join_lines lines).

(** *** Trips *)

(** What the first loop of [analyze_trips] accumulates. *)
Record trip_stats : Type := {
  sites_seen : list json;
  min_q_values : list json;
  max_q_values : list json;
  issues_flags : list json
}.

Definition no_stats : trip_stats :=
  {| sites_seen := []; min_q_values := []; max_q_values := []; issues_flags := [] |}.

(** One turn of the first loop. *)
Definition collect_trip (stats : trip_stats) (trip : json) : outcome trip_stats :=
  t <- as_dict trip ;;
  sites <- py_iter (py_or (get_or "siteList" (JList []) t) (JList [])) ;;
  seen <- add_all sites (sites_seen stats) ;;
  let label := get_or "issueLabel" JNull t in
  Returns
    {| sites_seen := seen;
       min_q_values := (min_q_values stats ++ [get_or "minQuality" (JFloat 0) t])%list;
       max_q_values := (max_q_values stats ++ [get_or "maxQuality" (JFloat 0) t])%list;
       issues_flags :=
         if truthy label then (issues_flags stats ++ [label])%list
         else issues_flags stats |}.

Fixpoint collect_trips (stats : trip_stats) (trips : list json) : outcome trip_stats :=
  match trips with
  | [] => Returns stats
  | trip :: rest => stats' <- collect_trip stats trip ;; collect_trips stats' rest
  end.

(** [sites_text seen] is [', '.join(sorted(sites_seen))]: [sorted]
    walks the set in the interpreter's order, and either [sorted] or
    [join] raises TypeError when a member is not a string. *)
Definition sites_text (seen : list json) : outcome string :=
  strs <- all_strings seen ;;
  Returns (String.concat ", " (py_sorted (set_order strs))).

(** The line of the second loop for trip number [idx]. *)
Definition trip_line (idx : nat) (trip : json) : outcome string :=
  t <- as_dict trip ;;
  let day := get_or "day" (JStr "?") t in
  let window := get_or "window30" (JStr "") t in
  let hour := get_or "hour" JNull t in
  let sites := py_or (get_or "siteList" (JList []) t) (JList []) in
  let min_q := get_or "minQuality" (JFloat 0) t in
  let max_q := get_or "maxQuality" (JFloat 0) t in
  let route := py_or (get_or "routeSig" (JStr "") t) (JStr "unknown route") in
  let issue_label := py_or (get_or "issueLabel" JNull t) (JStr "none") in
  min_text <- format_fixed 3 min_q ;;
  max_text <- format_fixed 3 max_q ;;
  sites_joined <- py_join "," sites ;;
  Returns
    ("- Trip " ++ digits (Z.of_nat idx) ++ ": day " ++ py_str day
     ++ ", window " ++ py_str window ++ " (hour " ++ py_str hour
     ++ "), route **" ++ py_str route ++ "**, minQ=" ++ min_text
     ++ ", maxQ=" ++ max_text ++ ", sites=" ++ sites_joined
     ++ ", issue=" ++ py_str issue_label).

(** The second loop: [enumerate(result, start=idx)]. *)
Fixpoint trip_lines (idx : nat) (trips : list json) : outcome (list string) :=
  match trips with
  | [] => Returns []
  | trip :: rest =>
      line <- trip_line idx trip ;;
      lines <- trip_lines (S idx) rest ;;
      Returns (line :: lines)
  end.

Definition car_issue_sentence : string :=
  "- Trips flagged with `car_issue_singleton` or similar usually point to **vehicle-specific problems** rather than a general site fault.".

Definition site_sentence : string :=
  "- Any trips with `siteIssueStrict` suggest that particular sites are dragging quality down for many vehicles, not just this one.".

Definition mixed_sentence : string :=
  "- `mixed_quality` means some frames in the trip are good and others are bad, often due to partial occlusion or transient lighting effects.".

(** The closing section on issue labels. *)
Definition issue_section (flags : list json) : outcome (list string) :=
  match flags with
  | [] => Returns []
  | _ :: _ =>
      car <- any_contains "car_issue" flags ;;
      site <- any_contains "site" flags ;;
      mixed <- any_contains "mixed" flags ;;
      Returns
        ([ ""; "**Issue label interpretation**" ]
         ++ (if car then [car_issue_sentence] else [])
         ++ (if site then [site_sentence] else [])
         ++ (if mixed then [mixed_sentence] else []))%list
  end.

Definition no_trips_message : string :=
  "There are no trips matching that query." ++ nl ++ nl
  ++ "That usually means the plate did not appear in the 30-minute trip index for that day, or it was filtered out during preprocessing.".

(** The lines of [analyze_trips] before the trip-by-trip view. *)
Definition trips_summary (trips : list json) (stats : trip_stats) : outcome (list string) :=
  first <- match trips with
           | first :: _ => as_dict first
           | [] => Raises
           end ;;
  let n_trips := List.length trips in
  let plate := get_or "plate" (JStr "unknown plate") first in
  global_min_q <- py_min (min_q_values stats) ;;
  global_max_q <- py_max (max_q_values stats) ;;
  ge7 <- py_ge global_min_q (JFloat 0.7) ;;
  qual_summary <-
    (if ge7 then Returns "consistently good quality across trips"
     else
       ge5 <- py_ge global_min_q (JFloat 0.5) ;;
       if ge5 then Returns "mostly acceptable, with some weaker segments"
       else
         ge3 <- py_ge global_min_q (JFloat 0.3) ;;
         if ge3 then Returns "mixed and often weak quality"
         else Returns "frequently very poor quality") ;;
  sites <- sites_text (sites_seen stats) ;;
  min_text <- format_fixed 3 global_min_q ;;
  max_text <- format_fixed 3 global_max_q ;;
  Returns
    [ "**Trip summary for plate " ++ py_str plate ++ "**";
      "";
      "- Number of trips: **" ++ digits (Z.of_nat n_trips) ++ "**";
      "- Distinct sites visited: **"
        ++ digits (Z.of_nat (List.length (sites_seen stats)))
        ++ "** (" ++ sites ++ ")";
      "- Overall min quality across trips: **" ++ min_text ++ "**";
      "- Overall max quality across trips: **" ++ max_text ++ "**";
      "- Quality summary: **" ++ qual_summary ++ "**";
      "";
      "**Trip-by-trip view**" ].

Definition trips_report_lines (trips : list json) : outcome (list string) :=
  stats <- collect_trips no_stats trips ;;
  summary <- trips_summary trips stats ;;
  rows <- trip_lines 1 trips ;;
  section <- issue_section (issues_flags stats) ;;
  Returns (summary ++ rows ++ section)%list.

Definition analyze_trips (question : string) (result : json) : outcome string :=
  if negb (truthy result) then Returns no_trips_message
  else
    match result with
    | JList trips => lines <- trips_report_lines trips ;; Returns (join_lines lines)
    | _ => Raises
    end.

(** ** Public entrypoint *)

Definition fallback (question : string) (result : json) : string :=
  "I received data from the backend, but I don't recognize its structure." ++ nl ++ nl
  ++ "Question was:" ++ nl ++ "  " ++ dq ++ question ++ dq ++ nl ++ nl
  ++ "Raw result:" ++ nl ++ py_str result.

Definition analyze_result (question : string) (result : json) : outcome string :=
  let rtype := detect_result_type result in
  if String.eqb rtype "error" then analyze_error question result
  else if String.eqb rtype "city_totals" then analyze_city_totals question result
  else if String.eqb rtype "site_totals" then analyze_site_totals question result
  else if String.eqb rtype "site_day_status" then analyze_site_day_status question result
  else if String.eqb rtype "vehicle_degrade" then analyze_vehicle_degrade question result
  else if String.eqb rtype "trips" then analyze_trips question result
  else Returns (fallback question result).

End Interpreter.

(** ** Reference definitions for the statements *)

(** The report of [analyze_error] around a question and a message. *)
Definition error_report (question msg : string) : string :=
  "I tried to answer your question:" ++ nl ++ nl
  ++ "  " ++ dq ++ question ++ dq ++ nl ++ nl
  ++ "but the backend returned an error:" ++ nl ++ nl
  ++ "  " ++ msg ++ nl ++ nl
  ++ "This usually means there is no data for that day/site/plate combination or the identifiers don't exist in the twin.".

(** The line of [analyze_site_day_status] that carries the qualitative
    label. *)
Definition overall_line (label : string) : string :=
  "- Overall this site is **" ++ label
  ++ "** on that day based on the good-rate percentage.".

(** *** Payloads with the field types of the data model *)

Definition is_string (v : json) : bool :=
  match v with JStr _ => true | _ => false end.

Definition is_number (v : json) : bool :=
  match as_number v with Some _ => true | None => false end.

(** A number that can stand where a float is needed: a bool, a float,
    or an integer that [float] converts without overflow, as it does
    every integer below [2^1023] in magnitude. *)
Definition float_like (v : json) : bool :=
  match as_number v with
  | Some n =>
      match to_float n with
      | Returns _ => true
      | Raises => false
      end
  | None => false
  end.

Definition string_list (v : json) : bool :=
  match v with JList items => forallb is_string items | _ => false end.

Definition null_or (test : json -> bool) (v : json) : bool := is_none v || test v.

(** [field_ok test k d]: the field [k] of [d] is missing or passes. *)
Definition field_ok (test : json -> bool) (k : string) (d : dict) : bool :=
  match get k d with
  | Some v => test v
  | None => true
  end.

Definition totals_ok (d : dict) : bool :=
  field_ok float_like "uniqueVehicles" d
  && field_ok float_like "alwaysDegraded" d
  && field_ok float_like "notAlwaysDegraded" d.

Definition site_day_ok (d : dict) : bool :=
  field_ok float_like "detectionsTotal" d
  && field_ok float_like "detectionsGood" d
  && field_ok is_number "detectionsBad" d
  && field_ok (null_or float_like) "goodRatePct" d.

Definition vehicle_ok (d : dict) : bool :=
  field_ok is_number "cumNFrames" d
  && field_ok float_like "cumMinQ" d
  && field_ok float_like "cumMaxQ" d.

Definition trip_ok (trip : json) : bool :=
  match trip with
  | JDict t =>
      field_ok (null_or string_list) "siteList" t
      && field_ok float_like "minQuality" t
      && field_ok float_like "maxQuality" t
      && field_ok (null_or is_string) "issueLabel" t
  | _ => false
  end.

(** [payload_ok result]: the fields the analyzer of the payload's
    category formats or computes with hold values of the types the data
    model gives them. The error and unknown categories ask nothing. *)
Definition payload_ok (result : json) : bool :=
  let rtype := detect_result_type result in
  match result with
  | JDict d =>
      if String.eqb rtype "city_totals" || String.eqb rtype "site_totals" then totals_ok d
      else if String.eqb rtype "site_day_status" then site_day_ok d
      else if String.eqb rtype "vehicle_degrade" then vehicle_ok d
      else true
  | JList trips =>
      if String.eqb rtype "trips" then forallb trip_ok trips else true
  | _ => true
  end.

(** *** Issue labels, as the specification words them *)

(** [occurs_in needle s]: [needle] is a substring of [s]. *)
Definition occurs_in (needle s : string) : Prop :=
  exists before after, s = before ++ needle ++ after.

(** [labelled trips lbl]: some trip carries the non-empty issue label
    [lbl]. *)
Definition labelled (trips : list json) (lbl : string) : Prop :=
  lbl <> "" /\ exists t, In (JDict t) trips /\ get "issueLabel" t = Some (JStr lbl).

(** [flagged trips needle]: some trip's non-empty issue label contains
    [needle]. *)
Definition flagged (trips : list json) (needle : string) : Prop :=
  exists lbl, labelled trips lbl /\ occurs_in needle lbl.

(** [sentence_when P sentence part]: [part] is the sentence when [P]
    holds and nothing otherwise. *)
Definition sentence_when (P : Prop) (sentence : string) (part : list string) : Prop :=
  (P /\ part = [sentence]) \/ (~ P /\ part = []).

(** The closing section the specification describes for [trips]. *)
Definition issue_section_spec (trips : list json) (section : list string) : Prop :=
  ((forall lbl, ~ labelled trips lbl) /\ section = [])
  \/ ((exists lbl, labelled trips lbl)
      /\ exists car site mixed,
           section = ([ ""; "**Issue label interpretation**" ] ++ car ++ site ++ mixed)%list
           /\ sentence_when (flagged trips "car_issue") car_issue_sentence car
           /\ sentence_when (flagged trips "site") site_sentence site
           /\ sentence_when (flagged trips "mixed") mixed_sentence mixed).

(** The non-empty string labels of the trips, in order. *)
Definition trip_label (trip : json) : list string :=
  match trip with
  | JDict t =>
      match get "issueLabel" t with
      | Some (JStr lbl) => if String.eqb lbl "" then [] else [lbl]
      | _ => []
      end
  | _ => []
  end.

Definition trip_labels (trips : list json) : list string := flat_map trip_label trips.

(** What the first loop of [analyze_trips] keeps true of its lists on
    typed trips. *)
Definition stats_ok (stats : trip_stats) : Prop :=
  forallb is_string (sites_seen stats) = true
  /\ forallb float_like (min_q_values stats) = true
  /\ forallb float_like (max_q_values stats) = true.

(** [run H]: a computation known to return is replaced by its value. *)
Ltac run H :=
  let x := fresh "x" in
  let Hx := fresh "Hx" in
  destruct H as [x Hx]; rewrite Hx; cbn [bind].

(** *** Reference definitions for further properties *)


(** The good rate [analyze_site_day_status] works with: the field
    [goodRatePct], or the computed percentage when the field is missing
    or null and there are detections. *)
Definition effective_rate (d : dict) : outcome json :=
  let total := get_or "detectionsTotal" (JInt 0) d in
  let good := get_or "detectionsGood" (JInt 0) d in
  let good_rate_pct := get_or "goodRatePct" JNull d in
  if is_none good_rate_pct && truthy total
  then rate <- pct good total ;; Returns (JFloat rate)
  else Returns good_rate_pct.

(** [visits trips s]: the first loop of [analyze_trips] meets the site
    [s] when it walks the site list of some trip. *)
Definition visits (trips : list json) (s : string) : Prop :=
  exists t items,
    In (JDict t) trips
    /\ py_iter (py_or (get_or "siteList" (JList []) t) (JList [])) = Returns items
    /\ In (JStr s) items.

(** Strictly ascending in the code-point order of [sorted]. *)
Definition ascending (names : list string) : Prop :=
  StronglySorted (fun a b => String.ltb a b = true) names.

(** The line of the trips summary that counts and lists the sites. *)
Definition distinct_sites_line (names : list string) : string :=
  "- Distinct sites visited: **" ++ digits (Z.of_nat (List.length names))
  ++ "** (" ++ String.concat ", " names ++ ")".

(** The report of [analyze_city_totals] around its seven holes: the
    day, the three counts as the f-string prints them, the two shares
    and the health label. *)
Definition city_totals_report (text : text_builtins)
    (day unique_veh always_deg not_always : string)
    (always_pct not_always_pct : float) (health : string) : string :=
  "**City-wide vehicle degradation on " ++ day ++ "**" ++ nl ++ nl
  ++ "- Unique vehicles: **" ++ unique_veh ++ "**" ++ nl
  ++ "- Always degraded: **" ++ always_deg ++ "** ("
  ++ float_repr text always_pct ++ "%)" ++ nl
  ++ "- Not always degraded: **" ++ not_always ++ "** ("
  ++ float_repr text not_always_pct ++ "%)" ++ nl ++ nl
  ++ "**Interpretation**" ++ nl
  ++ "- City health on this day is **" ++ health
  ++ "** based on the share of always-degraded vehicles." ++ nl
  ++ "- Always-degraded means the vehicle looked bad everywhere it appeared that day, which strongly suggests a **vehicle-side issue** rather than a site-only problem." ++ nl ++ nl
  ++ "If you want, you can drill into:" ++ nl
  ++ "- A specific site with: *“How many degraded vehicles were at RUHSMxxx on "
  ++ day ++ "?”*" ++ nl
  ++ "- A specific plate with: *“Show the degradation history for plate ABC1234.”*".

(** The line of [analyze_site_totals] that carries the site's label. *)
Definition site_health_line (site_health : string) : string :=
  "- This site on that day looks **" ++ site_health
  ++ "** from a vehicle degradation perspective.".

(** The closing lines of [analyze_site_totals]: the two warnings, or
    the single reassurance. *)
Definition site_warning : list string :=
  [ "- A high share of always-degraded vehicles suggests something systematic at this site: alignment, illumination, or configuration.";
    "- Cross-check this with trip patterns: do many of these vehicles look fine at other sites the same day?" ].

Definition site_reassurance : list string :=
  [ "- Most vehicles either look fine or only occasionally degraded here, which is consistent with normal traffic and environment." ].

(** The quality a trip is counted with in the first loop of
    [analyze_trips]: the field, or [0.0] when the trip has none. *)
Definition trip_quality (key : string) (trip : json) : json :=
  match trip with
  | JDict t => get_or key (JFloat 0) t
  | _ => JNull
  end.

(** A float that is not NaN. *)
Definition ordered_float (v : json) : bool :=
  match v with
  | JFloat f => negb (PrimFloat.is_nan f)
  | _ => false
  end.

(** [ordered_qualities trips]: both qualities of every trip are floats
    that are not NaN. *)
Definition ordered_qualities (trips : list json) : bool :=
  forallb (fun trip => ordered_float (trip_quality "minQuality" trip)
                       && ordered_float (trip_quality "maxQuality" trip)) trips.

(** * The agent loop

    A shallow embedding of [src/agent/agent.py] and of [chat_with_llm]
    of [src/agent/llm.py]. What the program does to the outside world
    is kept as a log of events, in order; what the outside world
    answers is a parameter ([world]). A call of [print] is logged with
    its text, without the newline that ends it; the standard output is
    taken to accept every text. *)

Inductive event : Type :=
| Ask (prompt : string)
| Call (prompt : string)
| Get (url : string)
| Print (line : string).

(** What [client.messages.create(...)] followed by
    [resp.content[0].text] gives: the text, or an exception with its
    message. *)
Inductive api_reply : Type :=
| Reply (output : string)
| Failure (message : string).

(** The outside world. [lower] is [str.lower]; [messages_create n p] is
    the answer of the model to the prompt [p] during turn [n] of the
    loop; [loads s] is [json.loads(s)], [None] when it raises;
    [requests_get n url] is [requests.get(url).json()] during turn [n],
    [None] when the request or the decoding raises; [dumps v] is
    [json.dumps(v, indent=2)]. *)
Record world : Type := {
  lower : string -> string;
  messages_create : nat -> string -> api_reply;
  loads : string -> option json;
  requests_get : nat -> string -> option json;
  dumps : json -> string
}.

(** A computation that logs events and may raise: the log holds what
    happened up to the exception. *)
Definition io (A : Type) : Type := (list event * outcome A)%type.

Definition io_ret {A : Type} (a : A) : io A := ([], Returns a).

Definition io_bind {A B : Type} (c : io A) (k : A -> io B) : io B :=
  match c with
  | (log, Returns a) => let (log', r) := k a in ((log ++ log')%list, r)
  | (log, Raises) => (log, Raises)
  end.

Notation "x <~ c ;; k" := (io_bind c (fun x => k))
  (at level 61, c at next level, right associativity).
Notation "c >> k" := (io_bind c (fun _ => k))
  (at level 61, right associativity).

Definition lift {A : Type} (c : outcome A) : io A := ([], c).

Definition emit (e : event) : io unit := ([e], Returns tt).

Definition print (line : string) : io unit := emit (Print line).

Definition log_of {A : Type} (c : io A) : list event := fst c.
Definition result_of {A : Type} (c : io A) : outcome A := snd c.

Definition BACKEND : string := "http://localhost:8080".

(** [py_getitem v k] is [v[k]] for a string [k]: KeyError on a dict
    without the key, TypeError on every other JSON value. *)
Definition py_getitem (v : json) (k : string) : outcome json :=
  match v with
  | JDict d =>
      match get k d with
      | Some x => Returns x
      | None => Raises
      end
  | _ => Raises
  end.

Definition assoc {A : Type} (k : string) (l : list (string * A)) : option A :=
  option_map snd (find (fun kv => String.eqb k (fst kv)) l).

Definition TOOL_SCHEMA : string :=
  nl ++ "VALID TOOLS (choose exactly one):" ++ nl ++ nl ++ "1. getCityTotals"
  ++ nl ++ "   params: { " ++ dq ++ "day" ++ dq ++ ": " ++ dq ++ "YYYY-MM-DD"
  ++ dq ++ " }" ++ nl ++ nl ++ "2. getSiteTotals" ++ nl ++ "   params: { "
  ++ dq ++ "day" ++ dq ++ ": " ++ dq ++ "YYYY-MM-DD" ++ dq ++ ", " ++ dq
  ++ "site" ++ dq ++ ": " ++ dq ++ "RUHSMxxx" ++ dq ++ " }" ++ nl ++ nl
  ++ "3. getSiteDayStatus" ++ nl ++ "   params: { " ++ dq ++ "day" ++ dq
  ++ ": " ++ dq ++ "YYYY-MM-DD" ++ dq ++ ", " ++ dq ++ "site" ++ dq ++ ": "
  ++ dq ++ "RUHSMxxx" ++ dq ++ " }" ++ nl ++ nl
  ++ "4. getVehicleDegradeStatus" ++ nl ++ "   params: { " ++ dq ++ "plate"
  ++ dq ++ ": " ++ dq ++ "PLATENUMBER" ++ dq ++ " }" ++ nl ++ nl
  ++ "5. getTripsForDay" ++ nl ++ "   params: { " ++ dq ++ "plate" ++ dq
  ++ ": " ++ dq ++ "PLATENUMBER" ++ dq ++ ", " ++ dq ++ "day" ++ dq ++ ": "
  ++ dq ++ "YYYY-MM-DD" ++ dq ++ " }" ++ nl ++ nl ++ "6. getTripsAllDays"
  ++ nl ++ "   params: { " ++ dq ++ "plate" ++ dq ++ ": " ++ dq
  ++ "PLATENUMBER" ++ dq ++ " }" ++ nl ++ nl
  ++ "THE ONLY VALID JSON FORMAT YOU ARE ALLOWED TO OUTPUT IS:" ++ nl ++ nl
  ++ "{" ++ nl ++ "  " ++ dq ++ "tool" ++ dq ++ ": " ++ dq ++ "<tool_name>"
  ++ dq ++ "," ++ nl ++ "  " ++ dq ++ "params" ++ dq ++ ": { ... }" ++ nl
  ++ "}" ++ nl ++ nl ++ "NEVER invent new keys like:" ++ nl ++ "- vehicle_id"
  ++ nl ++ "- date" ++ nl ++ "- parameters" ++ nl ++ nl
  ++ "NEVER output markdown ```json" ++ nl ++ "NEVER output explanation."
  ++ nl ++ "ONLY output the raw JSON object." ++ nl.

Definition full_prompt (prompt : string) : string :=
  nl ++ "You are the Digital Twin Tool Router." ++ nl
  ++ "Your ONLY job is to choose the correct backend tool." ++ nl ++ nl
  ++ TOOL_SCHEMA ++ nl ++ nl ++ "User request:" ++ nl ++ prompt ++ nl ++ nl
  ++ "OUTPUT RULES (IMPORTANT):" ++ nl ++ "- Respond ONLY with raw JSON."
  ++ nl ++ "- NO markdown fences." ++ nl ++ "- NO natural language." ++ nl
  ++ "- NO comments." ++ nl.

Inductive flow : Type :=
| Break
| Continue.

(** [exit_word w question]: the test [question.lower() in ["exit", "quit"]]. *)
Definition exit_word (w : world) (question : string) : bool :=
  existsb (String.eqb (lower w question)) ["exit"; "quit"].

Section Agent.

Variable text : text_builtins.
Variable set_order : list string -> list string.
Variable w : world.

Definition request (turn : nat) (url : string) : io json :=
  ([Get url],
   match requests_get w turn url with
   | Some v => Returns v
   | None => Raises
   end).

(** ** Backend tool callers *)

Definition getCityTotals (turn : nat) (params : json) : io json :=
  day <~ lift (py_getitem params "day") ;;
  request turn (BACKEND ++ "/getCityTotals?day=" ++ py_str text day).

Definition getSiteTotals (turn : nat) (params : json) : io json :=
  day <~ lift (py_getitem params "day") ;;
  site <~ lift (py_getitem params "site") ;;
  request turn (BACKEND ++ "/getSiteTotals?day=" ++ py_str text day
                ++ "&site=" ++ py_str text site).

Definition getSiteDayStatus (turn : nat) (params : json) : io json :=
  day <~ lift (py_getitem params "day") ;;
  site <~ lift (py_getitem params "site") ;;
  request turn (BACKEND ++ "/getSiteDayStatus?day=" ++ py_str text day
                ++ "&site=" ++ py_str text site).

Definition getVehicleDegradeStatus (turn : nat) (params : json) : io json :=
  plate <~ lift (py_getitem params "plate") ;;
  request turn (BACKEND ++ "/getVehicleDegradeStatus?plate=" ++ py_str text plate).

Definition getTripsForDay (turn : nat) (params : json) : io json :=
  plate <~ lift (py_getitem params "plate") ;;
  day <~ lift (py_getitem params "day") ;;
  request turn (BACKEND ++ "/getTripsForDay?plate=" ++ py_str text plate
                ++ "&day=" ++ py_str text day).

Definition getTripsAllDays (turn : nat) (params : json) : io json :=
  plate <~ lift (py_getitem params "plate") ;;
  request turn (BACKEND ++ "/getTripsAllDays?plate=" ++ py_str text plate).

Definition TOOL_MAP : list (string * (nat -> json -> io json)) :=
  [ ("getCityTotals", getCityTotals);
    ("getSiteTotals", getSiteTotals);
    ("getSiteDayStatus", getSiteDayStatus);
    ("getVehicleDegradeStatus", getVehicleDegradeStatus);
    ("getTripsForDay", getTripsForDay);
    ("getTripsAllDays", getTripsAllDays) ].

(** [lookup_tool tool] is the test [tool not in TOOL_MAP] and the
    lookup [TOOL_MAP[tool]] that follows it: TypeError on a key that
    cannot be hashed, nothing on a key that is not one of the names. *)
Definition lookup_tool (tool : json) : outcome (option (nat -> json -> io json)) :=
  if negb (hashable tool) then Raises
  else
    Returns
      match tool with
      | JStr name => assoc name TOOL_MAP
      | _ => None
      end.

(** ** The model call *)

Definition chat_with_llm (turn : nat) (prompt : string) : io (option string) :=
  emit (Call (full_prompt prompt)) >>
  match messages_create w turn (full_prompt prompt) with
  | Reply output => io_ret (Some output)
  | Failure message => print ("⚠️ LLM ERROR: " ++ message) >> io_ret None
  end.

(** ** Main agent loop *)

(** One turn of the loop of [run_agent], from the test of the exit
    words on. *)
Definition agent_turn (turn : nat) (question : string) : io flow :=
  if exit_word w question then io_ret Break
  else
    llm_output <~ chat_with_llm turn question ;;
    print (nl ++ "LLM OUTPUT: "
           ++ match llm_output with Some output => output | None => "None" end) >>
    match llm_output with
    | None => print "❌ LLM returned nothing." >> io_ret Continue
    | Some output =>
        match loads w output with
        | None => print ("❌ Invalid JSON: " ++ output) >> io_ret Continue
        | Some tool_call =>
            call <~ lift (as_dict tool_call) ;;
            let tool := get_or "tool" JNull call in
            let params := get_or "params" (JDict []) call in
            if eq_str tool "none"
            then print "🤖 LLM says: can't answer with tools." >> io_ret Continue
            else
              found <~ lift (lookup_tool tool) ;;
              match found with
              | None => print ("❌ Unknown tool: " ++ py_str text tool) >> io_ret Continue
              | Some tool_function =>
                  result <~ tool_function turn params ;;
                  print (nl ++ "🔍 RAW RESULT:") >>
                  print (dumps w result) >>
                  final <~ lift (analyze_result text set_order question result) ;;
                  print (nl ++ "🤖 FINAL ANSWER:") >>
                  print final >>
                  io_ret Continue
              end
        end
    end.

(** [run_agent_from turn questions] is the loop when the lines typed
    at the prompt are [questions]: [input] raises EOFError once they
    are used up. *)
Fixpoint run_agent_from (turn : nat) (questions : list string) : io unit :=
  match questions with
  | [] => ([Ask (nl ++ "Ask me anything: ")], Raises)
  | question :: rest =>
      emit (Ask (nl ++ "Ask me anything: ")) >>
      next <~ agent_turn turn question ;;
      match next with
      | Break => io_ret tt
      | Continue => run_agent_from (S turn) rest
      end
  end.

Definition run_agent (questions : list string) : io unit :=
  run_agent_from 0 questions.

(** *** The paths through a turn *)

(** What every turn that gets a reply logs first. *)
Definition turn_head (question output : string) : list event :=
  [ Call (full_prompt question); Print (nl ++ "LLM OUTPUT: " ++ output) ].

(** The ten ways through the body of the loop, each with what it logs
    and how it ends. *)
Inductive turn_path (turn : nat) (question : string) : io flow -> Prop :=
| path_exit :
    exit_word w question = true ->
    turn_path turn question ([], Returns Break)
| path_llm_failure (message : string) :
    exit_word w question = false ->
    messages_create w turn (full_prompt question) = Failure message ->
    turn_path turn question
      ([ Call (full_prompt question); Print ("⚠️ LLM ERROR: " ++ message);
         Print (nl ++ "LLM OUTPUT: None"); Print "❌ LLM returned nothing." ],
       Returns Continue)
| path_invalid_json (output : string) :
    exit_word w question = false ->
    messages_create w turn (full_prompt question) = Reply output ->
    loads w output = None ->
    turn_path turn question
      ((turn_head question output ++ [ Print ("❌ Invalid JSON: " ++ output) ])%list,
       Returns Continue)
| path_not_an_object (output : string) (tool_call : json) :
    exit_word w question = false ->
    messages_create w turn (full_prompt question) = Reply output ->
    loads w output = Some tool_call ->
    as_dict tool_call = Raises ->
    turn_path turn question (turn_head question output, Raises)
| path_tool_none (output : string) (call : dict) :
    exit_word w question = false ->
    messages_create w turn (full_prompt question) = Reply output ->
    loads w output = Some (JDict call) ->
    get "tool" call = Some (JStr "none") ->
    turn_path turn question
      ((turn_head question output
        ++ [ Print "🤖 LLM says: can't answer with tools." ])%list,
       Returns Continue)
| path_unhashable_tool (output : string) (call : dict) (tool : json) :
    exit_word w question = false ->
    messages_create w turn (full_prompt question) = Reply output ->
    loads w output = Some (JDict call) ->
    get "tool" call = Some tool ->
    hashable tool = false ->
    turn_path turn question (turn_head question output, Raises)
| path_unknown_tool (output : string) (call : dict) (tool : json) :
    exit_word w question = false ->
    messages_create w turn (full_prompt question) = Reply output ->
    loads w output = Some (JDict call) ->
    get_or "tool" JNull call = tool ->
    eq_str tool "none" = false ->
    lookup_tool tool = Returns None ->
    turn_path turn question
      ((turn_head question output
        ++ [ Print ("❌ Unknown tool: " ++ py_str text tool) ])%list,
       Returns Continue)
| path_tool_raises (output : string) (call : dict) (name : string)
    (tool_function : nat -> json -> io json) (tool_log : list event) :
    exit_word w question = false ->
    messages_create w turn (full_prompt question) = Reply output ->
    loads w output = Some (JDict call) ->
    get "tool" call = Some (JStr name) ->
    assoc name TOOL_MAP = Some tool_function ->
    tool_function turn (get_or "params" (JDict []) call) = (tool_log, Raises) ->
    turn_path turn question ((turn_head question output ++ tool_log)%list, Raises)
| path_analysis_raises (output : string) (call : dict) (name : string)
    (tool_function : nat -> json -> io json) (tool_log : list event) (result : json) :
    exit_word w question = false ->
    messages_create w turn (full_prompt question) = Reply output ->
    loads w output = Some (JDict call) ->
    get "tool" call = Some (JStr name) ->
    assoc name TOOL_MAP = Some tool_function ->
    tool_function turn (get_or "params" (JDict []) call) = (tool_log, Returns result) ->
    analyze_result text set_order question result = Raises ->
    turn_path turn question
      ((turn_head question output ++ tool_log
        ++ [ Print (nl ++ "🔍 RAW RESULT:"); Print (dumps w result) ])%list,
       Raises)
| path_answer (output : string) (call : dict) (name : string)
    (tool_function : nat -> json -> io json) (tool_log : list event)
    (result : json) (final : string) :
    exit_word w question = false ->
    messages_create w turn (full_prompt question) = Reply output ->
    loads w output = Some (JDict call) ->
    get "tool" call = Some (JStr name) ->
    assoc name TOOL_MAP = Some tool_function ->
    tool_function turn (get_or "params" (JDict []) call) = (tool_log, Returns result) ->
    analyze_result text set_order question result = Returns final ->
    turn_path turn question
      ((turn_head question output ++ tool_log
        ++ [ Print (nl ++ "🔍 RAW RESULT:"); Print (dumps w result);
             Print (nl ++ "🤖 FINAL ANSWER:"); Print final ])%list,
       Returns Continue).

End Agent.

(** *** Reference definitions for the statements on the loop *)

(** The names of the tools, and the parameters each caller reads. *)
Definition tool_parameters : list (string * list string) :=
  [ ("getCityTotals", ["day"]);
    ("getSiteTotals", ["day"; "site"]);
    ("getSiteDayStatus", ["day"; "site"]);
    ("getVehicleDegradeStatus", ["plate"]);
    ("getTripsForDay", ["plate"; "day"]);
    ("getTripsAllDays", ["plate"]) ].

Definition is_get (e : event) : bool :=
  match e with Get _ => true | _ => false end.
Definition is_call (e : event) : bool :=
  match e with Call _ => true | _ => false end.
Definition is_ask (e : event) : bool :=
  match e with Ask _ => true | _ => false end.

(** [count test log]: how many events of the log pass the test. *)
Definition count (test : event -> bool) (log : list event) : nat :=
  List.length (filter test log).

(** *** A world for the examples *)

(** [str.lower] on a text of ASCII letters. *)
Definition ascii_lower (s : string) : string :=
  string_of_list_ascii
    (map (fun c =>
            let n := nat_of_ascii c in
            if ((65 <=? n) && (n <=? 90))%nat then ascii_of_nat (n + 32) else c)
         (list_ascii_of_string s)).

(** A world in which the model always gives the same reply, the reply
    always decodes to the same value and the backend always gives the
    same answer. *)
Definition scripted_world
    (reply : api_reply) (decoded answer : option json) : world :=
  {| lower := ascii_lower;
     messages_create := fun _ _ => reply;
     loads := fun _ => decoded;
     requests_get := fun _ _ => answer;
     dumps := fun _ => "{}" |}.
(** ** Facts about dictionaries *)

Lemma has_key_In (k : string) (d : dict) : has_key k d = true <-> In k (keys d).
Proof.
  unfold has_key. rewrite existsb_exists. split.
  - intros [x [Hin Heq]]. apply String.eqb_eq in Heq. now subst.
  - intros Hin. exists k. split; [assumption | apply String.eqb_refl].
Qed.

Lemma has_key_not_In (k : string) (d : dict) : has_key k d = false <-> ~ In k (keys d).
Proof.
  rewrite <- has_key_In. destruct (has_key k d).
  - split; [discriminate | intros H; exfalso; now apply H].
  - split; [intros _; discriminate | reflexivity].
Qed.

Lemma has_key_same_keys (d1 d2 : dict) :
  (forall k, In k (keys d1) <-> In k (keys d2)) ->
  forall k, has_key k d1 = has_key k d2.
Proof.
  intros Hkeys k.
  destruct (has_key k d2) eqn:H2.
  - apply has_key_In, Hkeys, has_key_In, H2.
  - apply has_key_not_In. intros Hin. apply Hkeys in Hin.
    apply has_key_In in Hin. congruence.
Qed.

Lemma get_has_key (k : string) (d : dict) :
  has_key k d = true <-> exists v, get k d = Some v.
Proof.
  induction d as [| [k' v'] rest IH]; simpl.
  - split; [discriminate | intros [v Hv]; discriminate].
  - unfold has_key in *. simpl. destruct (String.eqb k k'); simpl.
    + split; [intros _; now exists v' | reflexivity].
    + exact IH.
Qed.

Lemma get_None_has_key (k : string) (d : dict) :
  get k d = None <-> has_key k d = false.
Proof.
  destruct (has_key k d) eqn:Hk.
  - apply get_has_key in Hk as [v Hv]. rewrite Hv. split; discriminate.
  - destruct (get k d) eqn:Hg; [| tauto].
    assert (has_key k d = true) by (apply get_has_key; eauto). congruence.
Qed.

(** ** Properties of the classifier *)

(** C1. Classification is total: every JSON value gets one of the seven
    labels, and the label is ["unknown"] exactly when no shape signature
    of the specification matches.  The classifier only tests types and
    key membership, none of which can raise, so it is a plain function. *)
Theorem detect_result_type_total (result : json) :
  In (detect_result_type result) result_types
  /\ NoDup result_types
  /\ (detect_result_type result = "unknown" <-> ~ matches_signature result).
Proof.
  split; [| split].
  - unfold detect_result_type.
    repeat match goal with
           | |- context [match ?x with _ => _ end] => destruct x
           end; simpl; auto 10.
  - unfold result_types.
    repeat constructor; simpl; intros H;
      repeat (destruct H as [H | H]; [discriminate H |]); exact H.
  - destruct result as [| b | z | f | s | [| first rest] | d]; simpl;
      try (split; [intros _ H; exact H | reflexivity]).
    + split; [discriminate | intros H; exfalso; now apply H].
    + destruct first as [| b | z | f | s | l | fd]; simpl;
        try (split; [intros _ H; exact H | reflexivity]).
      unfold issubset; simpl. rewrite !andb_true_r.
      rewrite <- !has_key_In.
      destruct (has_key "plate" fd), (has_key "day" fd),
        (has_key "window30" fd); simpl;
        (split; [ try discriminate; intros _ [H1 [H2 H3]]; discriminate
                | try reflexivity; intros H; exfalso; apply H; auto ]).
    + unfold issubset; simpl. rewrite !andb_true_r.
      rewrite <- !has_key_In.
      destruct (has_key "error" d), (has_key "uniqueVehicles" d),
        (has_key "site" d), (has_key "detectionsTotal" d),
        (has_key "detectionsGood" d), (has_key "detectionsBad" d),
        (has_key "plate" d), (has_key "cumNFrames" d); simpl;
        (split; [ try discriminate; intros _ H; intuition discriminate
                | try reflexivity; intros H; exfalso; apply H; auto 10 ]).
Qed.

(** C4. Error-key precedence: a mapping that holds the key ["error"] is
    classified ["error"], whatever other keys it holds. *)
Theorem error_key_precedence (d : dict) :
  In "error" (keys d) -> detect_result_type (JDict d) = "error".
Proof.
  intros Herr. apply has_key_In in Herr. simpl. now rewrite Herr.
Qed.

Lemma error_key_precedence_witness :
  let d := [ ("uniqueVehicles", JInt 3); ("site", JStr "RUHSM173");
             ("plate", JStr "ABC1234"); ("detectionsTotal", JInt 7);
             ("error", JStr "no data") ] in
  In "error" (keys d) /\ detect_result_type (JDict d) = "error".
Proof.
  assert (Hin : In "error"
                  (keys [ ("uniqueVehicles", JInt 3); ("site", JStr "RUHSM173");
                          ("plate", JStr "ABC1234"); ("detectionsTotal", JInt 7);
                          ("error", JStr "no data") ])).
  { simpl. tauto. }
  split; [exact Hin | exact (error_key_precedence _ Hin)].
Defined.

(** C5. Dispatch on ["uniqueVehicles"]: a mapping that holds the key
    ["uniqueVehicles"] and not the key ["error"] is classified
    ["site_totals"] if and only if it also holds the key ["site"], and
    ["city_totals"] otherwise. *)
Theorem unique_vehicles_dispatch (d : dict) :
  In "uniqueVehicles" (keys d) ->
  ~ In "error" (keys d) ->
  (detect_result_type (JDict d) = "site_totals" <-> In "site" (keys d))
  /\ (~ In "site" (keys d) -> detect_result_type (JDict d) = "city_totals").
Proof.
  intros Huv Herr.
  apply has_key_In in Huv. apply has_key_not_In in Herr.
  rewrite <- has_key_not_In, <- has_key_In.
  simpl. rewrite Huv, Herr. simpl.
  destruct (has_key "site" d); simpl.
  - split; [split; reflexivity | discriminate].
  - split; [split; discriminate | reflexivity].
Qed.

Lemma unique_vehicles_dispatch_witness :
  let d := [ ("day", JStr "2025-08-16"); ("uniqueVehicles", JInt 1000);
             ("alwaysDegraded", JInt 15) ] in
  detect_result_type (JDict d) = "city_totals".
Proof.
  refine (proj2 (unique_vehicles_dispatch
                   [ ("day", JStr "2025-08-16"); ("uniqueVehicles", JInt 1000);
                     ("alwaysDegraded", JInt 15) ] _ _) _);
    simpl; intuition discriminate.
Defined.

(** C10. The classifier is blind to values: two mappings with the same
    set of keys get the same category. *)
Theorem classification_value_blind (d1 d2 : dict) :
  (forall k, In k (keys d1) <-> In k (keys d2)) ->
  detect_result_type (JDict d1) = detect_result_type (JDict d2).
Proof.
  intros Hkeys. pose proof (has_key_same_keys d1 d2 Hkeys) as Hsame.
  unfold detect_result_type, issubset. simpl. now rewrite !Hsame.
Qed.

Lemma classification_value_blind_witness :
  detect_result_type (JDict [ ("plate", JStr "ABC1234"); ("cumNFrames", JInt 40) ])
  = detect_result_type (JDict [ ("cumNFrames", JNull); ("plate", JList []);
                                ("plate", JInt 0) ]).
Proof.
  apply classification_value_blind.
  intros k. simpl. tauto.
Defined.

(** ** The percentage helper *)

(** C6. [pct(0, 0)] is [0.0], [pct(5, 10)] is [50.0], [pct(1, 3)] is
    [33.3], and for every numerator a falsy denominator gives exactly
    [0.0]: no exception, no NaN and no infinity. *)
Theorem pct_values :
  pct (JInt 0) (JInt 0) = Returns 0%float
  /\ pct (JInt 5) (JInt 10) = Returns 50%float
  /\ pct (JInt 1) (JInt 3) = Returns 33.3%float
  /\ (forall part whole : json, truthy whole = false -> pct part whole = Returns 0%float).
Proof.
  repeat split; try (vm_compute; reflexivity).
  intros part whole Hfalsy. unfold pct. now rewrite Hfalsy.
Qed.

Lemma pct_values_witness :
  pct (JStr "fifteen") (JFloat (-0)%float) = Returns 0%float.
Proof.
  apply (proj2 (proj2 (proj2 pct_values))). vm_compute. reflexivity.
Defined.

(** ** The error analyzer *)

Lemma append_inv_head (p a b : string) : p ++ a = p ++ b -> a = b.
Proof.
  induction p as [| c p IH]; simpl; intros H; [exact H |].
  injection H as H. now apply IH.
Qed.

(** C8, as the code has it. For a mapping classified ["error"] the
    message in the report is [str] of the value stored under ["error"]:
    a string is embedded verbatim, the empty string included. The
    default ["Unknown backend error."] is what [analyze_error] embeds
    for a mapping without the key, and no such mapping is classified
    ["error"]. *)
Theorem error_message_embedded
    (text : text_builtins) (set_order : list string -> list string)
    (question : string) (d : dict) :
  (forall v, get "error" d = Some v ->
     analyze_result text set_order question (JDict d)
     = Returns (error_report question (py_str text v)))
  /\ (forall s, py_str text (JStr s) = s)
  /\ (get "error" d = None ->
        analyze_error text question (JDict d)
        = Returns (error_report question "Unknown backend error.")
        /\ detect_result_type (JDict d) <> "error").
Proof.
  split; [| split].
  - intros v Hget.
    assert (Hkey : has_key "error" d = true) by (apply get_has_key; eauto).
    unfold analyze_result. simpl detect_result_type. rewrite Hkey. simpl String.eqb.
    cbv iota. unfold analyze_error, error_report, get_or. simpl. now rewrite Hget.
  - reflexivity.
  - intros Hget. split.
    + unfold analyze_error, error_report, get_or. simpl. now rewrite Hget.
    + apply get_None_has_key in Hget. simpl. rewrite Hget.
      repeat match goal with
             | |- context [if ?c then _ else _] => destruct c
             end; discriminate.
Qed.

(** C8, as the specification has it, fails on an empty message: the
    report embeds the empty string, not the default. *)
Lemma empty_error_message_not_defaulted :
  (forall text set_order question,
     analyze_result text set_order question (JDict [("error", JStr "")])
     = Returns (error_report question ""))
  /\ (forall question,
        error_report question "" <> error_report question "Unknown backend error.").
Proof.
  split.
  - intros text set_order question. reflexivity.
  - intros question H. unfold error_report in H.
    repeat (apply append_inv_head in H). discriminate H.
Qed.


(** ** Integers as floats

    [float(z)] of a non-zero integer is never zero: the conversion
    rounds to 53 significant bits and cannot underflow. The proof
    follows the rounding of [binary_normalize] step by step. *)

Section Binary64.

Local Open Scope Z_scope.

Lemma digits2_pos_bounds (p : positive) :
  2 ^ (Zpos (digits2_pos p) - 1) <= Zpos p < 2 ^ Zpos (digits2_pos p).
Proof.
  induction p as [p IH | p IH |]; simpl digits2_pos.
  - rewrite Pos2Z.inj_succ. change (Zpos p~1) with (2 * Zpos p + 1).
    replace (Z.succ (Zpos (digits2_pos p)) - 1) with (Z.succ (Zpos (digits2_pos p) - 1)) by lia.
    rewrite !Z.pow_succ_r by lia.
    assert (H : forall a b x, a <= x < b -> 2 * a <= 2 * x + 1 < 2 * b) by (intros; lia).
    apply H, IH.
  - rewrite Pos2Z.inj_succ. change (Zpos p~0) with (2 * Zpos p).
    replace (Z.succ (Zpos (digits2_pos p)) - 1) with (Z.succ (Zpos (digits2_pos p) - 1)) by lia.
    rewrite !Z.pow_succ_r by lia.
    assert (H : forall a b x, a <= x < b -> 2 * a <= 2 * x < 2 * b) by (intros; lia).
    apply H, IH.
  - simpl. lia.
Qed.

Lemma digits2_pos_unique (p : positive) (n : Z) :
  2 ^ (n - 1) <= Zpos p < 2 ^ n -> Zpos (digits2_pos p) = n.
Proof.
  intros [Hlo Hhi]. pose proof (digits2_pos_bounds p) as [Dlo Dhi].
  set (d := Zpos (digits2_pos p)) in *.
  destruct (Z.lt_trichotomy d n) as [Hlt | [Heq | Hgt]]; [| exact Heq |].
  - assert (2 ^ d <= 2 ^ (n - 1)) by (apply Z.pow_le_mono_r; lia). lia.
  - destruct (Z.le_gt_cases 0 n) as [Hn | Hn].
    + assert (2 ^ n <= 2 ^ (d - 1)) by (apply Z.pow_le_mono_r; lia). lia.
    + rewrite (Z.pow_neg_r 2 n) in Hhi by lia. lia.
Qed.

Lemma shr_1_half (r : shr_record) :
  0 <= shr_m r -> shr_m (shr_1 r) = shr_m r / 2.
Proof.
  destruct r as [m r s]. simpl shr_m at 1 2. 
  destruct m as [| p | p]; [reflexivity | | lia].
  intros _. destruct p as [p | p |]; simpl shr_1; simpl shr_m.
  - change (Zpos p~1) with (2 * Zpos p + 1).
    apply Z.div_unique with (r := 1); lia.
  - change (Zpos p~0) with (2 * Zpos p).
    apply Z.div_unique with (r := 0); lia.
  - reflexivity.
Qed.

Lemma div_pow2_nonneg (m k : Z) : 0 <= m -> 0 <= m / 2 ^ k.
Proof.
  intros Hm. destruct (Z.le_gt_cases 0 k) as [Hk | Hk].
  - apply Z.div_pos; [exact Hm | apply Z.pow_pos_nonneg; lia].
  - rewrite Z.pow_neg_r by lia. rewrite Z.div_0_r. lia.
Qed.

Lemma iter_shr_1 (p : positive) :
  forall r, 0 <= shr_m r -> shr_m (iter_pos shr_1 p r) = shr_m r / 2 ^ Zpos p.
Proof.
  assert (Hpow : forall k, 0 < 2 ^ Zpos k) by (intros k; apply Z.pow_pos_nonneg; lia).
  induction p as [p IH | p IH |]; intros r Hr; simpl iter_pos.
  - assert (H1 : 0 <= shr_m (shr_1 r)) by (rewrite shr_1_half by exact Hr; apply Z.div_pos; lia).
    assert (H2 : 0 <= shr_m (iter_pos shr_1 p (shr_1 r)))
      by (rewrite IH by exact H1; now apply div_pow2_nonneg).
    rewrite (IH _ H2), (IH _ H1), shr_1_half by exact Hr.
    rewrite !Z.div_div by (try apply Hpow; lia).
    f_equal. change (Zpos p~1) with (2 * Zpos p + 1).
    rewrite Z.pow_add_r, Z.pow_mul_r by lia.
    change (2 ^ 2) with 4. change (2 ^ 1) with 2.
    replace (4 ^ Zpos p) with (2 ^ Zpos p * 2 ^ Zpos p).
    + ring.
    + rewrite <- Z.pow_mul_l. reflexivity.
  - assert (H2 : 0 <= shr_m (iter_pos shr_1 p r))
      by (rewrite IH by exact Hr; now apply div_pow2_nonneg).
    rewrite (IH _ H2), (IH _ Hr).
    rewrite !Z.div_div by (try apply Hpow; lia).
    f_equal. change (Zpos p~0) with (2 * Zpos p). rewrite Z.pow_mul_r by lia.
    change (2 ^ 2) with 4. rewrite <- Z.pow_mul_l. reflexivity.
  - rewrite shr_1_half by exact Hr. reflexivity.
Qed.

Lemma shr_fexp_exact (mx : positive) (ex : Z) :
  let n := fexp prec emax (Zpos (digits2_pos mx) + ex) - ex in
  0 <= n ->
  forall mrs e, shr_fexp prec emax (Zpos mx) ex loc_Exact = (mrs, e) ->
  shr_m mrs = Zpos mx / 2 ^ n /\ e = ex + n.
Proof.
  intros n Hn mrs e. unfold shr_fexp, shr. simpl Zdigits2. fold n.
  destruct n as [| k | k] eqn:Hk; [| | lia]; intros H; injection H as <- <-.
  - simpl shr_m. rewrite Z.div_1_r. lia.
  - rewrite iter_shr_1 by (simpl; lia). simpl shr_m. split; reflexivity.
Qed.

Lemma round_nearest_even_bounds (m : Z) (l : location) :
  m <= round_nearest_even m l <= m + 1.
Proof.
  unfold round_nearest_even. destruct l as [| []]; try lia.
  destruct (Z.even m); lia.
Qed.

Lemma fexp_normal (e : Z) : -1074 <= e - 53 -> fexp prec emax e = e - 53.
Proof.
  unfold fexp, SpecFloat.emin, prec, emax. lia.
Qed.

Lemma binary_round_aux_valid (sx : bool) (mx : positive) (ex : Z) :
  53 <= Zpos (digits2_pos mx) ->
  -1074 <= Zpos (digits2_pos mx) + ex - 53 ->
  let sf := binary_round_aux prec emax sx (Zpos mx) ex loc_Exact in
  SpecFloat.valid_binary prec emax sf = true
  /\ ((exists m e, sf = S754_finite sx m e) \/ sf = S754_infinity sx)
  /\ (Zpos (digits2_pos mx) + ex <= 1023 -> exists m e, sf = S754_finite sx m e).
Proof.
  intros Hdigits Hexp. unfold binary_round_aux.
  pose proof (digits2_pos_bounds mx) as [Hlo Hhi].
  set (D := Zpos (digits2_pos mx)) in *.
  destruct (shr_fexp prec emax (Zpos mx) ex loc_Exact) as [mrs1 e1] eqn:H1.
  pose proof (shr_fexp_exact mx ex) as Hs. cbv zeta in Hs. fold D in Hs.
  rewrite fexp_normal in Hs by lia.
  replace (D + ex - 53 - ex) with (D - 53) in Hs by lia.
  destruct (Hs ltac:(lia) _ _ H1) as [Hm1 He1]. clear Hs.
  assert (Hm1_bounds : 2 ^ 52 <= shr_m mrs1 < 2 ^ 53).
  { rewrite Hm1. split.
    - apply Z.div_le_lower_bound; [apply Z.pow_pos_nonneg; lia |].
      rewrite <- Z.pow_add_r by lia. replace (D - 53 + 52) with (D - 1) by lia. exact Hlo.
    - apply Z.div_lt_upper_bound; [apply Z.pow_pos_nonneg; lia |].
      rewrite <- Z.pow_add_r by lia. replace (D - 53 + 53) with D by lia. exact Hhi. }
  pose proof (round_nearest_even_bounds (shr_m mrs1) (loc_of_shr_record mrs1)) as Hrne.
  set (m2 := round_nearest_even (shr_m mrs1) (loc_of_shr_record mrs1)) in *.
  assert (Hm2 : 2 ^ 52 <= m2 <= 2 ^ 53) by lia.
  destruct m2 as [| p2 | p2] eqn:Hp2; try (exfalso; lia).
  destruct (shr_fexp prec emax (Zpos p2) e1 loc_Exact) as [mrs3 e3] eqn:H3.
  assert (Hcases : Zpos p2 < 2 ^ 53 \/ Zpos p2 = 2 ^ 53) by lia.
  assert (Hfinal : 2 ^ 52 <= shr_m mrs3 < 2 ^ 53 /\ -1074 <= e3 <= e1 + 1).
  { destruct Hcases as [Hlt | Heq].
    - assert (Hd2 : Zpos (digits2_pos p2) = 53) by (apply digits2_pos_unique; simpl; lia).
      pose proof (shr_fexp_exact p2 e1) as Hs. cbv zeta in Hs.
      rewrite Hd2, fexp_normal in Hs by lia.
      replace (53 + e1 - 53 - e1) with 0 in Hs by lia.
      destruct (Hs ltac:(lia) _ _ H3) as [-> ->]. rewrite Z.div_1_r. lia.
    - assert (Hd2 : Zpos (digits2_pos p2) = 54) by (apply digits2_pos_unique; simpl; lia).
      pose proof (shr_fexp_exact p2 e1) as Hs. cbv zeta in Hs.
      rewrite Hd2, fexp_normal in Hs by lia.
      replace (54 + e1 - 53 - e1) with 1 in Hs by lia.
      destruct (Hs ltac:(lia) _ _ H3) as [-> ->]. rewrite Heq.
      change (2 ^ 53 / 2 ^ 1) with (2 ^ 52). lia. }
  destruct Hfinal as [Hm3 He3].
  destruct (shr_m mrs3) as [| p3 | p3] eqn:Hp3; try (exfalso; lia).
  destruct (e3 <=? emax - prec) eqn:Hbound.
  - split; [| split; [left |]; eauto].
    unfold SpecFloat.valid_binary, bounded, canonical_mantissa. rewrite Hbound, andb_true_r.
    assert (Hd3 : Zpos (digits2_pos p3) = 53) by (apply digits2_pos_unique; simpl; lia).
    rewrite Hd3, fexp_normal by lia. apply Z.eqb_eq. lia.
  - split; [reflexivity | split; [now right |]].
    intros Hsmall. apply Z.leb_gt in Hbound. unfold emax, prec in Hbound. lia.
Qed.

Lemma digits2_pos_shift (p k : positive) :
  Zpos (digits2_pos (Pos.iter xO p k)) = Zpos (digits2_pos p) + Zpos k.
Proof.
  induction k as [| k IH] using Pos.peano_ind.
  - simpl. lia.
  - rewrite Pos.iter_succ. simpl digits2_pos. lia.
Qed.

Lemma binary_normalize_int (z : Z) :
  z <> 0 ->
  let sf := binary_normalize prec emax z 0 false in
  SpecFloat.valid_binary prec emax sf = true
  /\ ((exists s m e, sf = S754_finite s m e) \/ exists s, sf = S754_infinity s)
  /\ (Z.abs z < 2 ^ 1023 -> exists s m e, sf = S754_finite s m e).
Proof.
  assert (Hround : forall s p,
             let sf := binary_round prec emax s p 0 in
             SpecFloat.valid_binary prec emax sf = true
             /\ ((exists m e, sf = S754_finite s m e) \/ sf = S754_infinity s)
             /\ (Zpos p < 2 ^ 1023 -> exists m e, sf = S754_finite s m e)).
  { intros s p. unfold binary_round, shl_align.
    pose proof (digits2_pos_bounds p) as [Hlo _].
    assert (Hd : 1 <= Zpos (digits2_pos p)) by lia.
    assert (Hsmall : Zpos p < 2 ^ 1023 -> Zpos (digits2_pos p) <= 1023).
    { intros Hp. destruct (Z.le_gt_cases (Zpos (digits2_pos p)) 1023) as [H | H];
        [exact H | exfalso].
      assert (2 ^ 1023 <= 2 ^ (Zpos (digits2_pos p) - 1))
        by (apply Z.pow_le_mono_r; lia).
      lia. }
    rewrite Z.add_0_r, fexp_normal by lia.
    destruct (Zpos (digits2_pos p) - 53 - 0) as [| k | k] eqn:Hk.
    - destruct (binary_round_aux_valid s p 0) as (Hv & Hs & Hf); try lia.
      split; [exact Hv | split; [exact Hs |]].
      intros Hp. apply Hf. apply Hsmall in Hp. lia.
    - destruct (binary_round_aux_valid s p 0) as (Hv & Hs & Hf); try lia.
      split; [exact Hv | split; [exact Hs |]].
      intros Hp. apply Hf. apply Hsmall in Hp. lia.
    - destruct (binary_round_aux_valid s (Pos.iter xO p k) (Zpos (digits2_pos p) - 53))
        as (Hv & Hs & Hf); try (rewrite digits2_pos_shift; lia).
      split; [exact Hv | split; [exact Hs |]].
      intros _. apply Hf. rewrite digits2_pos_shift. lia. }
  intros Hz. destruct z as [| p | p]; [congruence | |]; simpl.
  - destruct (Hround false p) as (Hv & Hs & Hf). split; [exact Hv | split].
    + destruct Hs as [(m & e & H) | H]; eauto.
    + intros Hp. destruct (Hf Hp) as (m & e & H). eauto.
  - destruct (Hround true p) as (Hv & Hs & Hf). split; [exact Hv | split].
    + destruct Hs as [(m & e & H) | H]; eauto.
    + intros Hp. destruct (Hf Hp) as (m & e & H). eauto.
Qed.

Lemma int_float_nonzero (z : Z) :
  z <> 0 ->
  PrimFloat.eqb (SF2Prim (binary_normalize prec emax z 0 false)) 0%float = false.
Proof.
  intros Hz. destruct (binary_normalize_int z Hz) as (Hvalid & Hshape & _).
  rewrite FloatAxioms.eqb_spec, Prim2SF_SF2Prim by exact Hvalid.
  destruct Hshape as [(s & m & e & ->) | (s & ->)]; destruct s; reflexivity.
Qed.

Lemma int_float_finite (z : Z) :
  Z.abs z < 2 ^ 1023 ->
  PrimFloat.is_infinity (SF2Prim (binary_normalize prec emax z 0 false)) = false.
Proof.
  intros Hsmall. destruct (Z.eq_dec z 0) as [-> | Hz]; [reflexivity |].
  destruct (binary_normalize_int z Hz) as (Hvalid & _ & Hfinite).
  destruct (Hfinite Hsmall) as (s & m & e & Hsf).
  unfold PrimFloat.is_infinity.
  rewrite FloatAxioms.eqb_spec, abs_spec, Prim2SF_SF2Prim by exact Hvalid.
  rewrite Hsf. reflexivity.
Qed.

End Binary64.

(** ** Typed payloads render *)

Lemma returns_Returns {A : Type} (a : A) : returns (Returns a).
Proof. now exists a. Qed.

Lemma field_ok_get_or (test : json -> bool) (k : string) (default : json) (d : dict) :
  field_ok test k d = true -> test default = true -> test (get_or k default d) = true.
Proof.
  unfold field_ok, get_or. destruct (get k d); auto.
Qed.

Lemma int_to_float_zero (z : Z) (f : float) :
  int_to_float z = Returns f -> PrimFloat.eqb f 0%float = Z.eqb z 0.
Proof.
  unfold int_to_float.
  destruct (PrimFloat.is_infinity _); [discriminate |].
  intros H. injection H as <-.
  destruct (Z.eqb_spec z 0) as [-> | Hz]; [reflexivity |].
  now apply int_float_nonzero.
Qed.

Lemma float_like_inv (v : json) :
  float_like v = true ->
  exists n f, as_number v = Some n /\ to_float n = Returns f
              /\ truthy v = negb (PrimFloat.eqb f 0%float).
Proof.
  unfold float_like. destruct (as_number v) as [n |] eqn:Hn; [| discriminate].
  destruct (to_float n) as [f |] eqn:Hf; [| discriminate].
  intros _. exists n, f. repeat split; try assumption.
  destruct v; try discriminate Hn; simpl in Hn; injection Hn as <-; simpl in Hf.
  - rewrite (int_to_float_zero _ _ Hf). now destruct b.
  - now rewrite (int_to_float_zero _ _ Hf).
  - injection Hf as <-. reflexivity.
Qed.

Lemma float_like_is_number (v : json) : float_like v = true -> is_number v = true.
Proof.
  intros H. apply float_like_inv in H as (n & f & Hn & _). unfold is_number. now rewrite Hn.
Qed.

Lemma float_like_JFloat (f : float) : float_like (JFloat f) = true.
Proof. reflexivity. Qed.

Lemma float_like_JBool (b : bool) : float_like (JBool b) = true.
Proof. now destruct b. Qed.

(** Every integer below [2^1023] in magnitude converts to a float. *)
Lemma float_like_JInt (z : Z) : (Z.abs z < 2 ^ 1023)%Z -> float_like (JInt z) = true.
Proof.
  intros Hsmall. unfold float_like. simpl. unfold int_to_float.
  now rewrite (int_float_finite z Hsmall).
Qed.

Lemma pct_returns (part whole : json) :
  float_like part = true -> float_like whole = true -> returns (pct part whole).
Proof.
  intros Hp Hw. unfold pct.
  destruct (truthy whole) eqn:Ht; simpl; [| apply returns_Returns].
  apply float_like_inv in Hp as (np & fp & Hnp & Hfp & _).
  apply float_like_inv in Hw as (nw & fw & Hnw & Hfw & Hzero).
  unfold float_times, float_over. rewrite Hnp, Hnw, Hfp, Hfw. simpl.
  rewrite Ht in Hzero. symmetry in Hzero. apply negb_true_iff in Hzero.
  rewrite Hzero. apply returns_Returns.
Qed.

Lemma py_compare_numbers (a b : json) :
  is_number a = true -> is_number b = true ->
  exists c, py_compare a b = Returns c.
Proof.
  unfold is_number, py_compare.
  destruct (as_number a), (as_number b); try discriminate. eauto.
Qed.

Lemma py_ge_returns (a b : json) :
  is_number a = true -> is_number b = true -> returns (py_ge a b).
Proof.
  intros Ha Hb. destruct (py_compare_numbers a b Ha Hb) as [c Hc].
  unfold py_ge. rewrite Hc. apply returns_Returns.
Qed.

Lemma py_le_returns (a b : json) :
  is_number a = true -> is_number b = true -> returns (py_le a b).
Proof.
  intros Ha Hb. destruct (py_compare_numbers a b Ha Hb) as [c Hc].
  unfold py_le. rewrite Hc. apply returns_Returns.
Qed.

Lemma py_lt_returns (a b : json) :
  is_number a = true -> is_number b = true -> returns (py_lt a b).
Proof.
  intros Ha Hb. destruct (py_compare_numbers a b Ha Hb) as [c Hc].
  unfold py_lt. rewrite Hc. apply returns_Returns.
Qed.

Lemma py_gt_returns (a b : json) :
  is_number a = true -> is_number b = true -> returns (py_gt a b).
Proof.
  intros Ha Hb. destruct (py_compare_numbers a b Ha Hb) as [c Hc].
  unfold py_gt. rewrite Hc. apply returns_Returns.
Qed.

Lemma derived_label_returns (rate : json) :
  null_or is_number rate = true -> returns (derived_label rate).
Proof.
  unfold null_or, derived_label. destruct (is_none rate); simpl.
  - intros _. apply returns_Returns.
  - intros Hn.
    run (py_ge_returns rate (JInt 90) Hn eq_refl). destruct x; [apply returns_Returns |].
    run (py_ge_returns rate (JInt 80) Hn eq_refl). destruct x; [apply returns_Returns |].
    run (py_ge_returns rate (JInt 60) Hn eq_refl). destruct x; apply returns_Returns.
Qed.

Lemma between_returns (lo hi : Z) (v : json) :
  is_number v = true -> returns (between lo v hi).
Proof.
  intros Hn. unfold between.
  run (py_le_returns (JInt lo) v eq_refl Hn).
  destruct x; [apply py_lt_returns; auto | apply returns_Returns].
Qed.

Lemma rate_paragraph_returns (rate : json) :
  null_or is_number rate = true ->
  exists paragraph, rate_paragraph rate = Returns paragraph.
Proof.
  unfold null_or, rate_paragraph. destruct (is_none rate); simpl.
  - intros _. eauto.
  - intros Hn.
    run (py_ge_returns rate (JInt 90) Hn eq_refl). destruct x; [eauto |].
    run (between_returns 80 90 rate Hn). destruct x; [eauto |].
    run (between_returns 60 80 rate Hn). destruct x; eauto.
Qed.

Section Rendering.

Variable text : text_builtins.
Variable set_order : list string -> list string.

Lemma format_comma_returns (v : json) :
  is_number v = true -> returns (format_comma text v).
Proof.
  destruct v; try discriminate; intros _; apply returns_Returns.
Qed.

Lemma format_fixed_returns (n : nat) (v : json) :
  float_like v = true -> returns (format_fixed text n v).
Proof.
  intros H. apply float_like_inv in H as (x & f & Hx & Hf & _).
  unfold format_fixed. rewrite Hx, Hf. apply returns_Returns.
Qed.

Lemma analyze_error_returns (question : string) (d : dict) :
  returns (analyze_error text question (JDict d)).
Proof. apply returns_Returns. Qed.

Lemma totals_ok_fields (d : dict) :
  totals_ok d = true ->
  float_like (get_or "uniqueVehicles" (JInt 0) d) = true
  /\ float_like (get_or "alwaysDegraded" (JInt 0) d) = true
  /\ float_like (get_or "notAlwaysDegraded" (JInt 0) d) = true.
Proof.
  unfold totals_ok. rewrite !andb_true_iff. intros [[H1 H2] H3].
  repeat split; apply field_ok_get_or; auto.
Qed.

Lemma analyze_city_totals_returns (question : string) (d : dict) :
  totals_ok d = true -> returns (analyze_city_totals text question (JDict d)).
Proof.
  intros Hok. apply totals_ok_fields in Hok as (Hu & Ha & Hn).
  unfold analyze_city_totals. cbn [as_dict bind].
  run (pct_returns _ _ Ha Hu). run (pct_returns _ _ Hn Hu).
  run (format_comma_returns _ (float_like_is_number _ Hu)).
  run (format_comma_returns _ (float_like_is_number _ Ha)).
  run (format_comma_returns _ (float_like_is_number _ Hn)).
  apply returns_Returns.
Qed.

Lemma analyze_site_totals_returns (question : string) (d : dict) :
  totals_ok d = true -> returns (analyze_site_totals text question (JDict d)).
Proof.
  intros Hok. apply totals_ok_fields in Hok as (Hu & Ha & Hn).
  unfold analyze_site_totals, site_totals_lines. cbn [as_dict bind].
  run (pct_returns _ _ Ha Hu). run (pct_returns _ _ Hn Hu).
  run (format_comma_returns _ (float_like_is_number _ Hu)).
  run (format_comma_returns _ (float_like_is_number _ Ha)).
  run (format_comma_returns _ (float_like_is_number _ Hn)).
  apply returns_Returns.
Qed.

Lemma null_or_float_like_number (v : json) :
  null_or float_like v = true -> null_or is_number v = true.
Proof.
  unfold null_or. destruct (is_none v); simpl; auto using float_like_is_number.
Qed.

(** On a typed site-day payload the report is rendered, and its tenth
    line carries the label: the status itself unless the status reads
    ["unknown"], in which case the label is derived from the rate. *)
Lemma site_day_status_lines_typed (d : dict) :
  site_day_ok d = true ->
  exists label lines,
    site_day_status_lines text (JDict d) = Returns lines
    /\ nth_error lines 9 = Some (overall_line (py_str text label))
    /\ (let status := py_or (get_or "status" (JStr "") d) (JStr "unknown") in
        if eq_str status "unknown"
        then exists rate, derived_label rate = Returns label
        else label = status).
Proof.
  unfold site_day_ok. rewrite !andb_true_iff. intros [[[Ht Hg] Hb] Hr].
  apply field_ok_get_or with (default := JInt 0) in Ht; [| reflexivity].
  apply field_ok_get_or with (default := JInt 0) in Hg; [| reflexivity].
  apply field_ok_get_or with (default := JInt 0) in Hb; [| reflexivity].
  apply field_ok_get_or with (default := JNull) in Hr; [| reflexivity].
  unfold site_day_status_lines. cbn [as_dict bind].
  set (total := get_or "detectionsTotal" (JInt 0) d) in *.
  set (good := get_or "detectionsGood" (JInt 0) d) in *.
  set (bad := get_or "detectionsBad" (JInt 0) d) in *.
  set (rate0 := get_or "goodRatePct" JNull d) in *.
  set (status := py_or (get_or "status" (JStr "") d) (JStr "unknown")).
  assert (Hrate : exists rate,
             (if is_none rate0 && truthy total
              then r <- pct good total ;; Returns (JFloat r)
              else Returns rate0) = Returns rate
             /\ null_or float_like rate = true).
  { destruct (is_none rate0 && truthy total).
    - destruct (pct_returns good total Hg Ht) as [r Hr']. rewrite Hr'. cbn [bind].
      exists (JFloat r). split; reflexivity.
    - exists rate0. split; [reflexivity | exact Hr]. }
  destruct Hrate as (rate & Hrate & Hrate_ok). rewrite Hrate. cbn [bind].
  assert (Hlabel : exists label,
             (if eq_str status "unknown" then derived_label rate else Returns status)
             = Returns label
             /\ (if eq_str status "unknown"
                 then exists rate', derived_label rate' = Returns label
                 else label = status)).
  { destruct (eq_str status "unknown").
    - destruct (derived_label_returns rate (null_or_float_like_number _ Hrate_ok))
        as [label Hl].
      exists label. split; [exact Hl | now exists rate].
    - exists status. split; reflexivity. }
  destruct Hlabel as (label & Hlabel & Hwhich). rewrite Hlabel. cbn [bind].
  run (format_comma_returns _ (float_like_is_number _ Ht)).
  run (format_comma_returns _ (float_like_is_number _ Hg)).
  run (format_comma_returns _ Hb).
  assert (Hfixed : float_like (if negb (is_none rate) then rate else JInt 0) = true).
  { unfold null_or in Hrate_ok. destruct (is_none rate); simpl in *; auto. }
  run (format_fixed_returns 1 _ Hfixed).
  destruct (rate_paragraph_returns rate (null_or_float_like_number _ Hrate_ok))
    as [paragraph Hp].
  rewrite Hp. cbn [bind].
  exists label. eexists. split; [reflexivity |]. split; [reflexivity | exact Hwhich].
Qed.

Lemma site_day_status_lines_returns (d : dict) :
  site_day_ok d = true -> returns (site_day_status_lines text (JDict d)).
Proof.
  intros Hok. destruct (site_day_status_lines_typed d Hok) as (label & lines & H & _).
  now exists lines.
Qed.

Lemma analyze_vehicle_degrade_returns (question : string) (d : dict) :
  vehicle_ok d = true -> returns (analyze_vehicle_degrade text question (JDict d)).
Proof.
  unfold vehicle_ok. rewrite !andb_true_iff. intros [[Hf Hmin] Hmax].
  apply field_ok_get_or with (default := JInt 0) in Hf; [| reflexivity].
  apply field_ok_get_or with (default := JFloat 0) in Hmin; [| reflexivity].
  apply field_ok_get_or with (default := JFloat 0) in Hmax; [| reflexivity].
  unfold analyze_vehicle_degrade. cbn [as_dict bind].
  run (format_comma_returns _ Hf).
  run (format_fixed_returns 3 _ Hmin).
  run (format_fixed_returns 3 _ Hmax).
  apply returns_Returns.
Qed.

End Rendering.

(** ** Trips *)

Lemma all_strings_map_JStr (l : list string) : all_strings (map JStr l) = Returns l.
Proof.
  induction l as [| s l IH]; simpl; [reflexivity |]. now rewrite IH.
Qed.

Lemma string_items (items : list json) :
  forallb is_string items = true -> exists strs, items = map JStr strs.
Proof.
  induction items as [| v items IH]; simpl.
  - intros _. now exists [].
  - rewrite andb_true_iff. intros [Hv Hrest].
    destruct v; try discriminate. destruct (IH Hrest) as [strs ->].
    now exists (s :: strs).
Qed.

Lemma forallb_is_string_map (l : list string) : forallb is_string (map JStr l) = true.
Proof. induction l; simpl; auto. Qed.

Lemma set_add_string (s : string) (seen : list json) :
  forallb is_string seen = true ->
  exists seen', set_add (JStr s) seen = Returns seen'
                /\ forallb is_string seen' = true.
Proof.
  intros Hseen. unfold set_add. simpl.
  destruct (existsb (fun m => eq_str m s) seen).
  - eauto.
  - eexists. split; [reflexivity |]. rewrite forallb_app, Hseen. reflexivity.
Qed.

Lemma add_all_strings (strs : list string) :
  forall seen, forallb is_string seen = true ->
  exists seen', add_all (map JStr strs) seen = Returns seen'
                /\ forallb is_string seen' = true.
Proof.
  induction strs as [| s strs IH]; intros seen Hseen; cbn [map add_all].
  - eauto.
  - destruct (set_add_string s seen Hseen) as (seen1 & Hadd & Hseen1).
    rewrite Hadd. cbn [bind]. now apply IH.
Qed.

Lemma min_from_float_like (rest : list json) :
  forall best, float_like best = true -> forallb float_like rest = true ->
  exists m, min_from best rest = Returns m /\ float_like m = true.
Proof.
  induction rest as [| item rest IH]; intros best Hbest Hrest; simpl.
  - eauto.
  - simpl in Hrest. apply andb_true_iff in Hrest as [Hitem Hrest].
    run (py_lt_returns item best (float_like_is_number _ Hitem)
           (float_like_is_number _ Hbest)).
    apply IH; [destruct x |]; assumption.
Qed.

Lemma max_from_float_like (rest : list json) :
  forall best, float_like best = true -> forallb float_like rest = true ->
  exists m, max_from best rest = Returns m /\ float_like m = true.
Proof.
  induction rest as [| item rest IH]; intros best Hbest Hrest; simpl.
  - eauto.
  - simpl in Hrest. apply andb_true_iff in Hrest as [Hitem Hrest].
    run (py_gt_returns item best (float_like_is_number _ Hitem)
           (float_like_is_number _ Hbest)).
    apply IH; [destruct x |]; assumption.
Qed.

(** The site list of a typed trip, after [or []], is a list of strings. *)
Lemma typed_site_list (t : dict) :
  field_ok (null_or string_list) "siteList" t = true ->
  exists strs,
    py_or (get_or "siteList" (JList []) t) (JList []) = JList (map JStr strs).
Proof.
  intros Hok. apply field_ok_get_or with (default := JList []) in Hok; [| reflexivity].
  destruct (get_or "siteList" (JList []) t) as [| b | z | f | s | items | items];
    try discriminate Hok.
  - now exists [].
  - unfold null_or in Hok. simpl in Hok. destruct (string_items items Hok) as [strs ->].
    exists strs. unfold py_or. simpl. destruct strs; reflexivity.
Qed.

(** The issue label of a typed trip joins the flags exactly when it is
    a non-empty string. *)
Lemma typed_issue_label (t : dict) (flags : list json) :
  field_ok (null_or is_string) "issueLabel" t = true ->
  (if truthy (get_or "issueLabel" JNull t)
   then (flags ++ [get_or "issueLabel" JNull t])%list else flags)
  = (flags ++ map JStr (trip_label (JDict t)))%list.
Proof.
  unfold field_ok, get_or, trip_label.
  destruct (get "issueLabel" t) as [v |]; simpl; [| now rewrite app_nil_r].
  destruct v; try discriminate; simpl; intros _; try now rewrite app_nil_r.
  destruct (String.eqb s ""); simpl; [now rewrite app_nil_r | reflexivity].
Qed.

Lemma collect_trip_typed (stats : trip_stats) (trip : json) :
  stats_ok stats -> trip_ok trip = true ->
  exists stats',
    collect_trip stats trip = Returns stats'
    /\ stats_ok stats'
    /\ List.length (min_q_values stats') = S (List.length (min_q_values stats))
    /\ List.length (max_q_values stats') = S (List.length (max_q_values stats))
    /\ issues_flags stats'
       = (issues_flags stats ++ map JStr (trip_label trip))%list.
Proof.
  intros (Hseen & Hmin & Hmax) Htrip.
  destruct trip as [| b | z | f | s | items | t]; try discriminate Htrip.
  simpl in Htrip. rewrite !andb_true_iff in Htrip.
  destruct Htrip as [[[Hsites Hminq] Hmaxq] Hlabel].
  unfold collect_trip. cbn [as_dict bind].
  destruct (typed_site_list t Hsites) as [strs ->]. cbn [py_iter bind].
  destruct (add_all_strings strs _ Hseen) as (seen' & -> & Hseen'). cbn [bind].
  eexists. split; [reflexivity |]. cbn [sites_seen min_q_values max_q_values issues_flags].
  apply field_ok_get_or with (default := JFloat 0) in Hminq; [| reflexivity].
  apply field_ok_get_or with (default := JFloat 0) in Hmaxq; [| reflexivity].
  repeat split; cbn [sites_seen min_q_values max_q_values issues_flags].
  - exact Hseen'.
  - rewrite forallb_app, Hmin. simpl. now rewrite Hminq.
  - rewrite forallb_app, Hmax. simpl. now rewrite Hmaxq.
  - rewrite length_app. simpl. lia.
  - rewrite length_app. simpl. lia.
  - now apply typed_issue_label.
Qed.

Lemma collect_trips_typed (trips : list json) :
  forall stats, stats_ok stats -> forallb trip_ok trips = true ->
  exists stats',
    collect_trips stats trips = Returns stats'
    /\ stats_ok stats'
    /\ List.length (min_q_values stats')
       = (List.length (min_q_values stats) + List.length trips)%nat
    /\ List.length (max_q_values stats')
       = (List.length (max_q_values stats) + List.length trips)%nat
    /\ issues_flags stats'
       = (issues_flags stats ++ map JStr (trip_labels trips))%list.
Proof.
  induction trips as [| trip trips IH]; intros stats Hstats Htrips; simpl.
  - exists stats. rewrite app_nil_r. repeat split; try apply Hstats; lia.
  - simpl in Htrips. apply andb_true_iff in Htrips as [Htrip Htrips].
    destruct (collect_trip_typed stats trip Hstats Htrip)
      as (stats1 & -> & Hstats1 & Hlen_min & Hlen_max & Hflags1).
    cbn [bind].
    destruct (IH stats1 Hstats1 Htrips)
      as (stats' & -> & Hstats' & Hlen_min' & Hlen_max' & Hflags').
    exists stats'. repeat split; try apply Hstats'.
    + lia.
    + lia.
    + rewrite Hflags', Hflags1, map_app, app_assoc. reflexivity.
Qed.

Lemma py_min_float_like (values : list json) :
  values <> [] -> forallb float_like values = true ->
  exists m, py_min values = Returns m /\ float_like m = true.
Proof.
  destruct values as [| first rest]; [congruence |]. simpl.
  rewrite andb_true_iff. intros _ [Hfirst Hrest]. now apply min_from_float_like.
Qed.

Lemma py_max_float_like (values : list json) :
  values <> [] -> forallb float_like values = true ->
  exists m, py_max values = Returns m /\ float_like m = true.
Proof.
  destruct values as [| first rest]; [congruence |]. simpl.
  rewrite andb_true_iff. intros _ [Hfirst Hrest]. now apply max_from_float_like.
Qed.

Section TripRendering.

Variable text : text_builtins.
Variable set_order : list string -> list string.

Lemma sites_text_returns (seen : list json) :
  forallb is_string seen = true -> returns (sites_text set_order seen).
Proof.
  intros Hseen. destruct (string_items seen Hseen) as [strs ->].
  unfold sites_text. rewrite all_strings_map_JStr. apply returns_Returns.
Qed.

Lemma trips_summary_typed (trips : list json) (stats : trip_stats) :
  trips <> [] -> forallb trip_ok trips = true ->
  stats_ok stats ->
  min_q_values stats <> [] -> max_q_values stats <> [] ->
  exists summary,
    trips_summary text set_order trips stats = Returns summary
    /\ List.length summary = 9%nat.
Proof.
  intros Hne Htrips (Hseen & Hmin & Hmax) Hmin_ne Hmax_ne.
  destruct trips as [| first rest]; [congruence |].
  simpl in Htrips. apply andb_true_iff in Htrips as [Hfirst _].
  destruct first as [| b | z | f | s | items | t]; try discriminate Hfirst.
  unfold trips_summary. cbn [as_dict bind].
  destruct (py_min_float_like _ Hmin_ne Hmin) as (gmin & -> & Hgmin). cbn [bind].
  destruct (py_max_float_like _ Hmax_ne Hmax) as (gmax & -> & Hgmax). cbn [bind].
  pose proof (float_like_is_number _ Hgmin) as Hnum.
  run (py_ge_returns gmin (JFloat 0.7) Hnum eq_refl).
  assert (Hsummary : returns
            (if x then Returns "consistently good quality across trips"
             else
               ge5 <- py_ge gmin (JFloat 0.5) ;;
               if ge5 then Returns "mostly acceptable, with some weaker segments"
               else
                 ge3 <- py_ge gmin (JFloat 0.3) ;;
                 if ge3 then Returns "mixed and often weak quality"
                 else Returns "frequently very poor quality")).
  { destruct x; [apply returns_Returns |].
    run (py_ge_returns gmin (JFloat 0.5) Hnum eq_refl).
    destruct x; [apply returns_Returns |].
    run (py_ge_returns gmin (JFloat 0.3) Hnum eq_refl).
    destruct x; apply returns_Returns. }
  run Hsummary.
  run (sites_text_returns _ Hseen).
  run (format_fixed_returns text 3 _ Hgmin).
  run (format_fixed_returns text 3 _ Hgmax).
  eexists. split; reflexivity.
Qed.

Lemma trip_line_typed (idx : nat) (trip : json) :
  trip_ok trip = true -> returns (trip_line text idx trip).
Proof.
  intros Htrip.
  destruct trip as [| b | z | f | s | items | t]; try discriminate Htrip.
  simpl in Htrip. rewrite !andb_true_iff in Htrip.
  destruct Htrip as [[[Hsites Hminq] Hmaxq] Hlabel].
  apply field_ok_get_or with (default := JFloat 0) in Hminq; [| reflexivity].
  apply field_ok_get_or with (default := JFloat 0) in Hmaxq; [| reflexivity].
  unfold trip_line. cbn [as_dict bind].
  run (format_fixed_returns text 3 _ Hminq).
  run (format_fixed_returns text 3 _ Hmaxq).
  destruct (typed_site_list t Hsites) as [strs ->].
  unfold py_join. cbn [py_iter bind]. rewrite all_strings_map_JStr. cbn [bind].
  apply returns_Returns.
Qed.

Lemma trip_lines_typed (trips : list json) :
  forall idx, forallb trip_ok trips = true ->
  exists rows,
    trip_lines text idx trips = Returns rows
    /\ List.length rows = List.length trips.
Proof.
  induction trips as [| trip trips IH]; intros idx Htrips; simpl.
  - now exists [].
  - simpl in Htrips. apply andb_true_iff in Htrips as [Htrip Htrips].
    run (trip_line_typed idx trip Htrip).
    destruct (IH (S idx) Htrips) as (rows & -> & Hlen). cbn [bind].
    eexists. split; [reflexivity |]. simpl. now rewrite Hlen.
Qed.

End TripRendering.

(** *** Issue labels *)

Lemma starts_with_append (needle s : string) :
  starts_with needle s = true <-> exists after, s = needle ++ after.
Proof.
  revert s. induction needle as [| a needle IH]; intros s; simpl.
  - split; [intros _; now exists s | reflexivity].
  - destruct s as [| b s].
    + split; [discriminate | intros [after H]; discriminate].
    + rewrite andb_true_iff, IH. split.
      * intros [Hab [after ->]]. apply Ascii.eqb_eq in Hab. subst. now exists after.
      * intros [after H]. injection H as -> ->. split; [apply Ascii.eqb_refl | eauto].
Qed.

Lemma contains_step (needle : string) (c : ascii) (s : string) :
  contains needle (String c s) = starts_with needle (String c s) || contains needle s.
Proof. reflexivity. Qed.

Lemma contains_occurs_in (needle s : string) :
  contains needle s = true <-> occurs_in needle s.
Proof.
  unfold occurs_in. split.
  - induction s as [| c s IH].
    + simpl. rewrite orb_false_r. intros H. apply starts_with_append in H as [after ->].
      now exists "", after.
    + rewrite contains_step, orb_true_iff. intros [H | H].
      * apply starts_with_append in H as [after ->]. now exists "", after.
      * destruct (IH H) as (before & after & ->). now exists (String c before), after.
  - intros (before & after & ->).
    induction before as [| c before IH].
    + assert (H : starts_with needle (needle ++ after) = true)
        by (apply starts_with_append; eauto).
      simpl. destruct (needle ++ after); simpl in *; rewrite H; reflexivity.
    + simpl String.append. rewrite contains_step, IH. apply orb_true_r.
Qed.

Lemma any_contains_labels (needle : string) (labels : list string) :
  any_contains needle (map JStr labels) = Returns (existsb (contains needle) labels).
Proof.
  induction labels as [| lbl labels IH]; simpl; [reflexivity |].
  destruct (contains needle lbl); simpl; [reflexivity | exact IH].
Qed.

Lemma trip_labels_labelled (trips : list json) (lbl : string) :
  In lbl (trip_labels trips) <-> labelled trips lbl.
Proof.
  unfold trip_labels, labelled. rewrite in_flat_map. split.
  - intros (trip & Hin & Hlbl).
    destruct trip as [| b | z | f | s | items | t]; try contradiction.
    unfold trip_label in Hlbl.
    destruct (get "issueLabel" t) as [[| b | z | f | s | items | items] |] eqn:Hget;
      try contradiction.
    destruct (String.eqb s "") eqn:Hs; [contradiction |].
    destruct Hlbl as [<- | []].
    split; [now apply String.eqb_neq | eauto].
  - intros (Hne & t & Hin & Hget). exists (JDict t). split; [exact Hin |].
    unfold trip_label. rewrite Hget.
    apply String.eqb_neq in Hne. rewrite Hne. now left.
Qed.

Lemma existsb_contains_flagged (trips : list json) (needle : string) :
  existsb (contains needle) (trip_labels trips) = true <-> flagged trips needle.
Proof.
  unfold flagged. rewrite existsb_exists. split.
  - intros (lbl & Hin & Hc). exists lbl. split.
    + now apply trip_labels_labelled.
    + now apply contains_occurs_in.
  - intros (lbl & Hl & Ho). exists lbl. split.
    + now apply trip_labels_labelled.
    + now apply contains_occurs_in.
Qed.

Lemma sentence_when_existsb (trips : list json) (needle sentence : string) :
  sentence_when (flagged trips needle) sentence
    (if existsb (contains needle) (trip_labels trips) then [sentence] else []).
Proof.
  unfold sentence_when.
  destruct (existsb (contains needle) (trip_labels trips)) eqn:He.
  - left. split; [now apply existsb_contains_flagged | reflexivity].
  - right. split; [| reflexivity].
    intros Hf. apply existsb_contains_flagged in Hf. congruence.
Qed.

Lemma issue_section_typed (trips : list json) :
  exists section,
    issue_section (map JStr (trip_labels trips)) = Returns section
    /\ issue_section_spec trips section.
Proof.
  unfold issue_section, issue_section_spec.
  destruct (trip_labels trips) as [| lbl labels] eqn:Hlabels.
  - exists []. split; [reflexivity |]. left. split; [| reflexivity].
    intros lbl Hl. apply trip_labels_labelled in Hl. rewrite Hlabels in Hl. exact Hl.
  - cbn [map]. rewrite <- !(map_cons JStr lbl labels), !any_contains_labels.
    cbn [bind]. eexists. split; [reflexivity |]. right. split.
    + exists lbl. apply trip_labels_labelled. rewrite Hlabels. now left.
    + do 3 eexists. split; [reflexivity |]. rewrite <- Hlabels.
      repeat split; apply sentence_when_existsb.
Qed.

Lemma trips_report_lines_typed
    (text : text_builtins) (set_order : list string -> list string)
    (trips : list json) :
  trips <> [] -> forallb trip_ok trips = true ->
  exists summary rows section,
    trips_report_lines text set_order trips = Returns (summary ++ rows ++ section)%list
    /\ List.length summary = 9%nat
    /\ List.length rows = List.length trips
    /\ issue_section_spec trips section.
Proof.
  intros Hne Htrips. unfold trips_report_lines.
  assert (Hstart : stats_ok no_stats) by (repeat split).
  destruct (collect_trips_typed trips no_stats Hstart Htrips)
    as (stats & -> & Hstats & Hlen_min & Hlen_max & Hflags).
  cbn [bind].
  assert (Hlen : List.length trips <> 0%nat) by (destruct trips; simpl; congruence).
  assert (Hmin_ne : min_q_values stats <> []).
  { intros H. rewrite H in Hlen_min. simpl in Hlen_min. lia. }
  assert (Hmax_ne : max_q_values stats <> []).
  { intros H. rewrite H in Hlen_max. simpl in Hlen_max. lia. }
  destruct (trips_summary_typed text set_order trips stats Hne Htrips Hstats
              Hmin_ne Hmax_ne) as (summary & -> & Hsummary).
  cbn [bind].
  destruct (trip_lines_typed text trips 1 Htrips) as (rows & -> & Hrows).
  cbn [bind].
  rewrite Hflags. cbn [no_stats issues_flags app].
  destruct (issue_section_typed trips) as (section & -> & Hsection).
  cbn [bind]. now exists summary, rows, section.
Qed.

(** C9. For a non-empty list of typed trips the lines of the report
    are nine summary lines, one row per trip, and then the issue-label
    section the specification describes: nothing when no trip has a
    non-empty issue label; otherwise the heading, followed by the
    car-issue, site and mixed sentences, each present exactly when some
    non-empty label contains ["car_issue"], ["site"], ["mixed"] as a
    substring. The report is the newline join of these lines. *)
Theorem trips_issue_interpretation
    (text : text_builtins) (set_order : list string -> list string)
    (question : string) (trips : list json) :
  trips <> [] -> forallb trip_ok trips = true ->
  exists summary rows section,
    trips_report_lines text set_order trips
    = Returns (summary ++ rows ++ section)%list
    /\ analyze_trips text set_order question (JList trips)
       = Returns (join_lines (summary ++ rows ++ section)%list)
    /\ List.length summary = 9%nat
    /\ List.length rows = List.length trips
    /\ issue_section_spec trips section.
Proof.
  intros Hne Htrips.
  destruct (trips_report_lines_typed text set_order trips Hne Htrips)
    as (summary & rows & section & Hlines & Hrest).
  exists summary, rows, section. split; [exact Hlines | split; [| exact Hrest]].
  unfold analyze_trips. destruct trips as [| trip trips]; [congruence |].
  cbn [truthy negb]. now rewrite Hlines.
Qed.

Lemma trips_issue_interpretation_witness :
  let trips :=
    [ JDict [ ("plate", JStr "ABC1234"); ("day", JStr "2025-08-16");
              ("window30", JStr "08:00"); ("siteList", JList [JStr "RUHSM173"]);
              ("minQuality", JFloat 0.4); ("maxQuality", JFloat 0.9);
              ("issueLabel", JStr "onsite") ] ] in
  forallb trip_ok trips = true
  /\ forall text set_order question,
       exists summary rows section,
         trips_report_lines text set_order trips
         = Returns (summary ++ rows ++ section)%list
         /\ analyze_trips text set_order question (JList trips)
            = Returns (join_lines (summary ++ rows ++ section)%list)
         /\ List.length summary = 9%nat
         /\ List.length rows = List.length trips
         /\ issue_section_spec trips section.
Proof.
  split; [vm_compute; reflexivity |].
  intros text set_order question.
  apply trips_issue_interpretation; [discriminate | vm_compute; reflexivity].
Defined.

(** ** The site-day analyzer *)

(** C7 at the status ["unknown"]. A site-day payload whose status field
    holds the non-empty string ["unknown"] is not given that status as
    its label: the label is derived from the good rate, here
    ["healthy"]. *)
Theorem status_unknown_is_rederived
    (text : text_builtins) (set_order : list string -> list string)
    (question : string) :
  analyze_result text set_order question
    (JDict [ ("day", JStr "2025-08-16"); ("site", JStr "RUHSM173");
             ("detectionsTotal", JInt 1000); ("detectionsGood", JInt 950);
             ("detectionsBad", JInt 50); ("status", JStr "unknown");
             ("color", JStr "green") ])
  = Returns
      (join_lines
         [ "**Daily site health — RUHSM173 on 2025-08-16**";
           "";
           "- Total detections: **1,000**";
           "- Good detections: **950**";
           "- Bad detections: **50**";
           "- Good rate: **" ++ float_fixed text 1 95%float ++ "%**";
           "- Status flag: **unknown** (color: `green`)";
           "";
           "**Interpretation**";
           overall_line "healthy";
           "- This looks like a strong, clean day. Any vehicle issues here are more likely to be vehicle-specific rather than a site fault." ]).
Proof.
  vm_compute. reflexivity.
Qed.

(** An explicit status other than ["unknown"] is the label, verbatim:
    for a typed site-day payload whose status field holds a non-empty
    string [s] that is not ["unknown"], the tenth line of the report
    carries [s]. *)
Theorem explicit_status_verbatim
    (text : text_builtins) (set_order : list string -> list string)
    (question : string) (d : dict) (s : string) :
  detect_result_type (JDict d) = "site_day_status" ->
  site_day_ok d = true ->
  get "status" d = Some (JStr s) ->
  s <> "" -> s <> "unknown" ->
  exists lines,
    site_day_status_lines text (JDict d) = Returns lines
    /\ analyze_result text set_order question (JDict d) = Returns (join_lines lines)
    /\ nth_error lines 9 = Some (overall_line s).
Proof.
  intros Htype Hok Hstatus Hne Hunk.
  unfold analyze_result. rewrite Htype. simpl String.eqb. cbv iota.
  unfold analyze_site_day_status.
  destruct (site_day_status_lines_typed text d Hok) as (label & lines & -> & Hline & Hwhich).
  cbn [bind]. exists lines. split; [reflexivity | split; [reflexivity |]].
  unfold get_or in Hwhich. rewrite Hstatus in Hwhich. cbv zeta in Hwhich.
  apply String.eqb_neq in Hne, Hunk.
  unfold py_or in Hwhich. cbn [truthy] in Hwhich. rewrite Hne in Hwhich.
  cbn [negb eq_str] in Hwhich. rewrite Hunk in Hwhich. subst label. exact Hline.
Qed.

Lemma explicit_status_verbatim_witness :
  let d := [ ("day", JStr "2025-08-16"); ("site", JStr "RUHSM173");
             ("detectionsTotal", JInt 1000); ("detectionsGood", JInt 950);
             ("detectionsBad", JInt 50); ("status", JStr "degraded");
             ("color", JStr "amber") ] in
  site_day_ok d = true
  /\ forall text set_order question,
       exists lines,
         site_day_status_lines text (JDict d) = Returns lines
         /\ analyze_result text set_order question (JDict d)
            = Returns (join_lines lines)
         /\ nth_error lines 9 = Some (overall_line "degraded").
Proof.
  split; [vm_compute; reflexivity |].
  intros text set_order question.
  apply explicit_status_verbatim;
    try (vm_compute; reflexivity); discriminate.
Defined.

(** ** The entry point *)

(** C2, as the code has it. For every question and every payload whose
    fields hold values of the types of the data model, [analyze_result]
    returns a string; payloads of the error and unknown categories
    always do. *)
Theorem analyze_result_returns
    (text : text_builtins) (set_order : list string -> list string)
    (question : string) (result : json) :
  payload_ok result = true ->
  returns (analyze_result text set_order question result).
Proof.
  intros Hok. unfold analyze_result.
  destruct result as [| b | z | f | s | trips | d];
    try (cbn; apply returns_Returns).
  - (* a list *)
    unfold payload_ok in Hok.
    destruct trips as [| first rest].
    + cbn. apply returns_Returns.
    + assert (Hcases : detect_result_type (JList (first :: rest)) = "trips"
                       \/ detect_result_type (JList (first :: rest)) = "unknown").
      { cbn. destruct first; auto.
        match goal with |- context [if ?c then _ else _] => destruct c end; auto. }
      destruct Hcases as [Htype | Htype]; rewrite Htype in *; cbn in Hok |- *.
      * destruct (trips_report_lines_typed text set_order (first :: rest))
          as (summary & rows & section & -> & _); [discriminate | exact Hok |].
        apply returns_Returns.
      * apply returns_Returns.
  - (* a mapping *)
    unfold payload_ok in Hok. cbn [detect_result_type] in *.
    destruct (has_key "error" d); [cbn; apply returns_Returns |].
    destruct (has_key "uniqueVehicles" d && has_key "site" d).
    { simpl String.eqb in *. cbv iota in *. cbn [orb] in Hok.
      now apply analyze_site_totals_returns. }
    destruct (has_key "uniqueVehicles" d && negb (has_key "site" d)).
    { simpl String.eqb in *. cbv iota in *. cbn [orb] in Hok.
      now apply analyze_city_totals_returns. }
    match goal with |- context [issubset ?ks d] => destruct (issubset ks d) end.
    { simpl String.eqb in *. cbv iota in *. cbn [orb] in Hok.
      unfold analyze_site_day_status.
      run (site_day_status_lines_returns text d Hok). apply returns_Returns. }
    destruct (has_key "plate" d && has_key "cumNFrames" d).
    { simpl String.eqb in *. cbv iota in *. cbn [orb] in Hok.
      now apply analyze_vehicle_degrade_returns. }
    cbn. apply returns_Returns.
Qed.

Lemma analyze_result_returns_witness :
  let result :=
    JDict [ ("day", JStr "2025-08-16"); ("uniqueVehicles", JInt 1000);
            ("alwaysDegraded", JInt 15); ("notAlwaysDegraded", JInt 985) ] in
  payload_ok result = true
  /\ forall text set_order question,
       returns (analyze_result text set_order question result).
Proof.
  split; [vm_compute; reflexivity |].
  intros text set_order question.
  apply analyze_result_returns. vm_compute. reflexivity.
Defined.

(** C2, as the specification has it, fails: a payload whose
    [uniqueVehicles] or [detectionsTotal] is a non-empty string makes
    [pct] divide by a string, and the exception leaves
    [analyze_result]. *)
Lemma non_numeric_field_raises :
  (forall text set_order question,
     analyze_result text set_order question
       (JDict [ ("uniqueVehicles", JStr "many") ]) = Raises)
  /\ (forall text set_order question,
        analyze_result text set_order question
          (JDict [ ("detectionsTotal", JStr "n/a"); ("detectionsGood", JInt 1);
                   ("detectionsBad", JInt 0) ]) = Raises).
Proof.
  split; intros text set_order question; vm_compute; reflexivity.
Qed.

(** ** Determinism *)

Lemma compare_as_OT (s t : string) : String.compare s t = String_as_OT.compare s t.
Proof.
  revert t. induction s as [| a s IH]; destruct t as [| b t]; simpl; try reflexivity.
Qed.

Lemma compare_Lt_trans (a b c : string) :
  String.compare a b = Lt -> String.compare b c = Lt -> String.compare a c = Lt.
Proof.
  rewrite !compare_as_OT. intros Hab Hbc.
  exact (StrictOrder_Transitive (R := String_as_OT.lt) a b c Hab Hbc).
Qed.

Lemma leb_trans (a b c : string) :
  String.leb a b = true -> String.leb b c = true -> String.leb a c = true.
Proof.
  unfold String.leb. intros Hab Hbc.
  destruct (String.compare a b) eqn:Cab; try discriminate.
  - apply String.compare_eq_iff in Cab. now subst.
  - destruct (String.compare b c) eqn:Cbc; try discriminate.
    + apply String.compare_eq_iff in Cbc. subst. now rewrite Cab.
    + now rewrite (compare_Lt_trans a b c Cab Cbc).
Qed.

Lemma leb_false_flip (a b : string) : String.leb a b = false -> String.leb b a = true.
Proof.
  intros H. destruct (String.leb_total a b) as [H' | H']; congruence.
Qed.

Lemma insert_comm (x y : string) (l : list string) :
  insert x (insert y l) = insert y (insert x l).
Proof.
  induction l as [| z l IH]; simpl.
  - destruct (String.leb x y) eqn:Hxy, (String.leb y x) eqn:Hyx; try reflexivity.
    + now rewrite (String.leb_antisym x y Hxy Hyx).
    + apply leb_false_flip in Hxy. congruence.
  - destruct (String.leb y z) eqn:Hyz, (String.leb x z) eqn:Hxz; simpl;
      rewrite ?Hyz, ?Hxz;
      destruct (String.leb x y) eqn:Hxy, (String.leb y x) eqn:Hyx;
      try reflexivity;
      try (apply leb_false_flip in Hxy; congruence);
      try (rewrite (leb_trans x y z Hxy Hyz) in Hxz; discriminate);
      try (rewrite (leb_trans y x z Hyx Hxz) in Hyz; discriminate);
      try (now rewrite IH);
      try (now rewrite (String.leb_antisym x y Hxy Hyx)).
Qed.

Lemma py_sorted_Permutation (l l' : list string) :
  Permutation l l' -> py_sorted l = py_sorted l'.
Proof.
  induction 1 as [| x l l' _ IH | x y l | l l' l'' _ IH1 _ IH2]; simpl.
  - reflexivity.
  - now rewrite IH.
  - apply insert_comm.
  - now rewrite IH1.
Qed.

Section TwoRuns.

Variable text : text_builtins.

(** The set orders of two runs of the interpreter: each lists the
    members of the set it is given. *)
Variables order1 order2 : list string -> list string.
Hypothesis order1_lists : forall members, Permutation (order1 members) members.
Hypothesis order2_lists : forall members, Permutation (order2 members) members.

Lemma sites_text_two_runs (seen : list json) :
  sites_text order1 seen = sites_text order2 seen.
Proof.
  unfold sites_text. destruct (all_strings seen) as [strs |]; [| reflexivity].
  cbn [bind]. f_equal. f_equal. apply py_sorted_Permutation.
  rewrite order1_lists. symmetry. apply order2_lists.
Qed.

Lemma analyze_trips_two_runs (question : string) (result : json) :
  analyze_trips text order1 question result = analyze_trips text order2 question result.
Proof.
  unfold analyze_trips, trips_report_lines, trips_summary.
  destruct (negb (truthy result)); [reflexivity |].
  destruct result; try reflexivity.
  destruct (collect_trips no_stats items) as [stats |]; [| reflexivity].
  cbn [bind]. now rewrite sites_text_two_runs.
Qed.

End TwoRuns.

(** C3. Two runs on the same question and payload give the same
    outcome, string for string: the result of [analyze_result] does not
    depend on the order in which the interpreter of the run happens to
    iterate the set of sites, because the set is rendered sorted. *)
Theorem analyze_result_deterministic
    (text : text_builtins) (order1 order2 : list string -> list string)
    (question : string) (result : json) :
  (forall members, Permutation (order1 members) members) ->
  (forall members, Permutation (order2 members) members) ->
  analyze_result text order1 question result
  = analyze_result text order2 question result.
Proof.
  intros H1 H2. unfold analyze_result.
  now rewrite (analyze_trips_two_runs text order1 order2 H1 H2).
Qed.

Lemma analyze_result_deterministic_witness :
  let result :=
    JList [ JDict [ ("plate", JStr "ABC1234"); ("day", JStr "2025-08-16");
                    ("window30", JStr "08:00");
                    ("siteList", JList [JStr "RUHSM201"; JStr "RUHSM173"]) ];
            JDict [ ("siteList", JList [JStr "RUHSM009"; JStr "RUHSM201"]) ] ] in
  (forall members : list string, Permutation (rev members) members)
  /\ forall text question,
       analyze_result text (fun members => members) question result
       = analyze_result text (@rev string) question result.
Proof.
  assert (Hrev : forall members : list string, Permutation (rev members) members).
  { intros members. apply Permutation_sym, Permutation_rev. }
  split; [exact Hrev |].
  intros text question.
  apply analyze_result_deterministic; [| exact Hrev].
  intros members. apply Permutation_refl.
Defined.

(** ** The other shape signatures *)

(** A mapping with the three detection counters, without ["error"] and
    without ["uniqueVehicles"], is a site-day status. *)
Theorem site_day_status_signature (d : dict) :
  In "detectionsTotal" (keys d) -> In "detectionsGood" (keys d) ->
  In "detectionsBad" (keys d) ->
  ~ In "error" (keys d) -> ~ In "uniqueVehicles" (keys d) ->
  detect_result_type (JDict d) = "site_day_status".
Proof.
  intros Ht Hg Hb Herr Huv.
  apply has_key_In in Ht, Hg, Hb. apply has_key_not_In in Herr, Huv.
  unfold detect_result_type, issubset. simpl forallb.
  now rewrite Herr, Huv, Ht, Hg, Hb.
Qed.

Lemma site_day_status_signature_witness :
  detect_result_type
    (JDict [ ("detectionsBad", JInt 50); ("plate", JStr "ABC1234");
             ("detectionsGood", JInt 950); ("cumNFrames", JInt 4);
             ("detectionsTotal", JInt 1000) ])
  = "site_day_status".
Proof.
  apply site_day_status_signature; simpl; intuition discriminate.
Defined.

(** A mapping with ["plate"] and ["cumNFrames"] that matches none of the
    earlier signatures is a vehicle degradation profile. *)
Theorem vehicle_degrade_signature (d : dict) :
  In "plate" (keys d) -> In "cumNFrames" (keys d) ->
  ~ In "error" (keys d) -> ~ In "uniqueVehicles" (keys d) ->
  ~ (In "detectionsTotal" (keys d) /\ In "detectionsGood" (keys d)
     /\ In "detectionsBad" (keys d)) ->
  detect_result_type (JDict d) = "vehicle_degrade".
Proof.
  intros Hp Hc Herr Huv Hdet.
  apply has_key_In in Hp, Hc. apply has_key_not_In in Herr, Huv.
  rewrite <- !has_key_In in Hdet.
  unfold detect_result_type, issubset. simpl forallb.
  rewrite Herr, Huv, Hp, Hc. simpl.
  destruct (has_key "detectionsTotal" d), (has_key "detectionsGood" d),
    (has_key "detectionsBad" d); simpl; try reflexivity.
  exfalso. apply Hdet. auto.
Qed.

Lemma vehicle_degrade_signature_witness :
  detect_result_type
    (JDict [ ("plate", JStr "ABC123"); ("cumNFrames", JInt 40);
             ("detectionsTotal", JInt 3); ("alwaysDegraded", JBool true) ])
  = "vehicle_degrade".
Proof.
  apply vehicle_degrade_signature; simpl; intuition discriminate.
Defined.

(** The empty sequence is trips, and so is a sequence whose first
    element is a mapping with ["plate"], ["day"] and ["window30"]. *)
Theorem trips_signature (first : dict) (rest : list json) :
  detect_result_type (JList []) = "trips"
  /\ (In "plate" (keys first) /\ In "day" (keys first) /\ In "window30" (keys first)
      <-> detect_result_type (JList (JDict first :: rest)) = "trips").
Proof.
  split; [reflexivity |].
  rewrite <- !has_key_In. unfold detect_result_type, issubset. simpl forallb.
  destruct (has_key "plate" first), (has_key "day" first), (has_key "window30" first);
    simpl; intuition discriminate.
Qed.

(** ** Scenarios of the specification *)

(** City totals with 1.5% always-degraded vehicles read "excellent",
    with the counts grouped by thousands. *)
Example city_totals_scenario (text : text_builtins)
    (set_order : list string -> list string) (question : string) :
  analyze_result text set_order question
    (JDict [ ("day", JStr "2025-08-16"); ("uniqueVehicles", JInt 1000);
             ("alwaysDegraded", JInt 15); ("notAlwaysDegraded", JInt 985) ])
  = Returns
      ("**City-wide vehicle degradation on 2025-08-16**" ++ nl ++ nl
       ++ "- Unique vehicles: **1,000**" ++ nl
       ++ "- Always degraded: **15** (" ++ float_repr text 1.5%float ++ "%)" ++ nl
       ++ "- Not always degraded: **985** (" ++ float_repr text 98.5%float ++ "%)"
       ++ nl ++ nl
       ++ "**Interpretation**" ++ nl
       ++ "- City health on this day is **excellent** based on the share of always-degraded vehicles." ++ nl
       ++ "- Always-degraded means the vehicle looked bad everywhere it appeared that day, which strongly suggests a **vehicle-side issue** rather than a site-only problem." ++ nl ++ nl
       ++ "If you want, you can drill into:" ++ nl
       ++ "- A specific site with: *“How many degraded vehicles were at RUHSMxxx on 2025-08-16?”*" ++ nl
       ++ "- A specific plate with: *“Show the degradation history for plate ABC1234.”*").
Proof. vm_compute. reflexivity. Qed.

(** The empty list is answered with the fixed no-trips message, not
    with the fallback. *)
Example empty_trips_scenario (text : text_builtins)
    (set_order : list string -> list string) (question : string) :
  detect_result_type (JList []) = "trips"
  /\ analyze_result text set_order question (JList []) = Returns no_trips_message.
Proof. split; reflexivity. Qed.

(** An unrecognized mapping is answered with the fallback, which quotes
    the question and dumps the payload. *)
Example unknown_shape_scenario (text : text_builtins)
    (set_order : list string -> list string) (question : string) :
  detect_result_type (JDict [ ("foo", JStr "bar") ]) = "unknown"
  /\ analyze_result text set_order question (JDict [ ("foo", JStr "bar") ])
     = Returns
         ("I received data from the backend, but I don't recognize its structure."
          ++ nl ++ nl ++ "Question was:" ++ nl ++ "  " ++ dq ++ question ++ dq
          ++ nl ++ nl ++ "Raw result:" ++ nl
          ++ "{" ++ (str_repr text "foo" ++ ": " ++ str_repr text "bar") ++ "}").
Proof. split; reflexivity. Qed.

(** A vehicle that is always degraded gets the vehicle-side paragraph. *)
Example always_degraded_scenario (text : text_builtins)
    (set_order : list string -> list string) (question : string) :
  analyze_result text set_order question
    (JDict [ ("plate", JStr "ABC123"); ("cumNFrames", JInt 40);
             ("alwaysDegraded", JBool true); ("cumMinQ", JFloat 0.1);
             ("cumMaxQ", JFloat 0.3) ])
  = Returns
      (join_lines
         [ "**Vehicle degradation profile — plate ABC123**";
           "";
           "- Vehicle type: **unknown type** (code: None)";
           "- First seen in degraded stats: **unknown**";
           "- Latest record day: **latest day in index**";
           "- Frames considered: **40**";
           "- Cumulative quality range: **" ++ float_fixed text 3 0.1%float
             ++ " – " ++ float_fixed text 3 0.3%float ++ "**";
           "- Classification: **always degraded**";
           "";
           "**Interpretation**";
           "- This vehicle is consistently degraded wherever it appears. That strongly suggests a **vehicle-side issue** (dirty plate, mounting angle, damage) rather than a site-only problem.";
           "If you want, you can ask next: " ++ dq ++ "Show all trips for this plate"
             ++ dq ++ " or " ++ dq ++ "Which sites does this vehicle look worst at?"
             ++ dq ]).
Proof. vm_compute. reflexivity. Qed.

(** A label that merely contains ["site"], such as ["onsite"], brings
    the site sentence and no other. *)
Example onsite_label_scenario :
  issue_section [JStr "onsite"]
  = Returns [ ""; "**Issue label interpretation**"; site_sentence ].
Proof. reflexivity. Qed.

(** * Further properties of the analyzers *)

Lemma detect_result_type_label (result : json) :
  In (detect_result_type result) result_types.
Proof.
  unfold detect_result_type.
  repeat match goal with
         | |- context [match ?x with _ => _ end] => destruct x
         end; simpl; auto 10.
Qed.

(** [pct] never divides by zero: on any two numbers (bool, float, or an
    integer that converts to a float) it returns, and a denominator that
    is zero ([0], [0.0], [-0.0], [False]) gives [0.0]. *)
Theorem pct_on_numbers (part whole : json) :
  float_like part = true -> float_like whole = true ->
  exists p, pct part whole = Returns p
            /\ (truthy whole = false -> p = 0%float).
Proof.
  intros Hp Hw. destruct (pct_returns part whole Hp Hw) as [p Hpct].
  exists p. split; [exact Hpct |].
  intros Hfalsy. unfold pct in Hpct. rewrite Hfalsy in Hpct. simpl in Hpct.
  now injection Hpct.
Qed.

Lemma pct_on_numbers_witness :
  exists p, pct (JInt 7) (JFloat 0) = Returns p
            /\ (truthy (JFloat 0) = false -> p = 0%float).
Proof.
  apply pct_on_numbers; reflexivity.
Defined.

(** Only the error report and the fallback quote the question: for a
    payload of any other category the answer is the same whatever the
    question was. *)
Theorem question_only_quoted_on_error_or_unknown
    (text : text_builtins) (set_order : list string -> list string)
    (question1 question2 : string) (result : json) :
  detect_result_type result <> "error" ->
  detect_result_type result <> "unknown" ->
  analyze_result text set_order question1 result
  = analyze_result text set_order question2 result.
Proof.
  intros Herr Hunk. unfold analyze_result.
  pose proof (detect_result_type_label result) as Hlabel.
  unfold result_types in Hlabel. simpl in Hlabel.
  destruct Hlabel as [H | [H | [H | [H | [H | [H | [H | []]]]]]]];
    rewrite <- H in *; try congruence; reflexivity.
Qed.

Lemma question_only_quoted_on_error_or_unknown_witness :
  let result :=
    JDict [ ("site", JStr "RUHSM173"); ("uniqueVehicles", JInt 40);
            ("alwaysDegraded", JInt 3) ] in
  detect_result_type result = "site_totals"
  /\ forall text set_order question1 question2,
       analyze_result text set_order question1 result
       = analyze_result text set_order question2 result.
Proof.
  split; [reflexivity |].
  intros text set_order question1 question2.
  apply question_only_quoted_on_error_or_unknown; discriminate.
Defined.

(** ** Trips *)

Lemma bind_Returns {A B : Type} (c : outcome A) (k : A -> outcome B) (b : B) :
  bind c k = Returns b -> exists a, c = Returns a /\ k a = Returns b.
Proof.
  destruct c as [a |]; simpl; [eauto | discriminate].
Qed.

Lemma collect_trips_non_mapping (trips : list json) :
  forall stats,
    (exists trip, In trip trips /\ as_dict trip = Raises) ->
    collect_trips stats trips = Raises.
Proof.
  induction trips as [| trip trips IH]; intros stats (bad & Hin & Hbad).
  - contradiction.
  - simpl. destruct Hin as [-> | Hin].
    + unfold collect_trip. now rewrite Hbad.
    + destruct (collect_trip stats trip) as [stats' |]; [| reflexivity].
      cbn [bind]. apply IH. eauto.
Qed.

(** A list is classified on its first element alone, but the trips
    analyzer calls [.get] on every element: a list that passes as trips
    and holds an element that is not a mapping makes [analyze_result]
    raise. *)
Theorem trips_with_non_mapping_raise
    (text : text_builtins) (set_order : list string -> list string)
    (question : string) (trips : list json) :
  detect_result_type (JList trips) = "trips" ->
  (exists trip, In trip trips /\ as_dict trip = Raises) ->
  analyze_result text set_order question (JList trips) = Raises.
Proof.
  intros Htype Hbad. unfold analyze_result. rewrite Htype. simpl String.eqb. cbv iota.
  unfold analyze_trips, trips_report_lines.
  destruct trips as [| first rest]; [destruct Hbad as (bad & [] & _) |].
  cbn [truthy negb]. now rewrite (collect_trips_non_mapping _ no_stats Hbad).
Qed.

Lemma trips_with_non_mapping_raise_witness :
  let trips :=
    [ JDict [ ("plate", JStr "ABC1234"); ("day", JStr "2025-08-16");
              ("window30", JStr "08:00") ];
      JStr "2025-08-17" ] in
  detect_result_type (JList trips) = "trips"
  /\ forall text set_order question,
       analyze_result text set_order question (JList trips) = Raises.
Proof.
  split; [reflexivity |].
  intros text set_order question.
  apply trips_with_non_mapping_raise; [reflexivity |].
  exists (JStr "2025-08-17"). split; [simpl; auto | reflexivity].
Defined.

Lemma trips_report_lines_parts
    (text : text_builtins) (set_order : list string -> list string)
    (trips : list json) (lines : list string) :
  trips_report_lines text set_order trips = Returns lines ->
  exists stats summary rows section,
    collect_trips no_stats trips = Returns stats
    /\ trips_summary text set_order trips stats = Returns summary
    /\ trip_lines text 1 trips = Returns rows
    /\ issue_section (issues_flags stats) = Returns section
    /\ lines = (summary ++ rows ++ section)%list.
Proof.
  unfold trips_report_lines. intros H.
  apply bind_Returns in H as (stats & Hstats & H).
  apply bind_Returns in H as (summary & Hsummary & H).
  apply bind_Returns in H as (rows & Hrows & H).
  apply bind_Returns in H as (section & Hsection & H).
  injection H as <-. now exists stats, summary, rows, section.
Qed.

Lemma trips_summary_length
    (text : text_builtins) (set_order : list string -> list string)
    (trips : list json) (stats : trip_stats) (summary : list string) :
  trips_summary text set_order trips stats = Returns summary ->
  List.length summary = 9%nat.
Proof.
  unfold trips_summary. intros H.
  repeat (apply bind_Returns in H as (? & _ & H)).
  now injection H as <-.
Qed.

Lemma trip_lines_nth (text : text_builtins) (trips : list json) :
  forall idx rows,
    trip_lines text idx trips = Returns rows ->
    List.length rows = List.length trips
    /\ forall k trip,
         nth_error trips k = Some trip ->
         exists row, trip_line text (idx + k) trip = Returns row
                     /\ nth_error rows k = Some row.
Proof.
  induction trips as [| first rest IH]; intros idx rows H; simpl in H.
  - injection H as <-. split; [reflexivity |]. intros [| k] trip Hk; discriminate Hk.
  - apply bind_Returns in H as (row & Hrow & H).
    apply bind_Returns in H as (rows' & Hrows' & H). injection H as <-.
    destruct (IH _ _ Hrows') as [Hlen Hnth]. split; [simpl; now rewrite Hlen |].
    intros [| k] trip Hk; simpl in Hk.
    + injection Hk as <-. exists row. now rewrite Nat.add_0_r.
    + destruct (Hnth k trip Hk) as (row' & Hline & Hrow').
      exists row'. split; [| exact Hrow'].
      now replace (idx + S k)%nat with (S idx + k)%nat by lia.
Qed.

(** The trip-by-trip view has one row per trip, in the order of the
    payload, numbered from 1: whenever the report is produced, its lines
    from the tenth on start with the row of trip [k + 1] at place [k],
    and that row begins ["- Trip <k + 1>: day "]. *)
Theorem trip_rows_follow_the_payload
    (text : text_builtins) (set_order : list string -> list string)
    (trips : list json) (lines : list string) (k : nat) (trip : json) :
  trips_report_lines text set_order trips = Returns lines ->
  nth_error trips k = Some trip ->
  exists row rest,
    trip_line text (S k) trip = Returns row
    /\ nth_error lines (9 + k) = Some row
    /\ row = "- Trip " ++ digits (Z.of_nat (S k)) ++ ": day " ++ rest.
Proof.
  intros Hlines Hk.
  apply trips_report_lines_parts in Hlines
    as (stats & summary & rows & section & _ & Hsummary & Hrows & _ & ->).
  apply trips_summary_length in Hsummary.
  destruct (trip_lines_nth text trips 1 rows Hrows) as [Hlen Hnth].
  destruct (Hnth k trip Hk) as (row & Hline & Hrow). simpl Nat.add in Hline.
  assert (Hshape : exists rest,
             row = "- Trip " ++ digits (Z.of_nat (S k)) ++ ": day " ++ rest).
  { unfold trip_line in Hline.
    repeat (apply bind_Returns in Hline as (? & _ & Hline)).
    injection Hline as <-. eexists. reflexivity. }
  destruct Hshape as [rest Hshape]. exists row, rest.
  split; [exact Hline | split; [| exact Hshape]].
  rewrite nth_error_app2 by lia.
  replace (9 + k - List.length summary)%nat with k by lia.
  rewrite nth_error_app1; [exact Hrow |].
  apply nth_error_Some. now rewrite Hrow.
Qed.

Lemma trip_rows_follow_the_payload_witness :
  let first :=
    JDict [ ("plate", JStr "ABC1234"); ("day", JStr "2025-08-16");
            ("window30", JStr "08:00"); ("minQuality", JFloat 0.4) ] in
  let second := JDict [ ("day", JStr "2025-08-17"); ("maxQuality", JInt 1) ] in
  forallb trip_ok [first; second] = true
  /\ forall text set_order,
       exists lines row rest,
         trips_report_lines text set_order [first; second] = Returns lines
         /\ trip_line text 2 second = Returns row
         /\ nth_error lines 10 = Some row
         /\ row = "- Trip 2: day " ++ rest.
Proof.
  split; [vm_compute; reflexivity |].
  intros text set_order.
  destruct (trips_report_lines_typed text set_order
              [ JDict [ ("plate", JStr "ABC1234"); ("day", JStr "2025-08-16");
                        ("window30", JStr "08:00"); ("minQuality", JFloat 0.4) ];
                JDict [ ("day", JStr "2025-08-17"); ("maxQuality", JInt 1) ] ])
    as (summary & rows & section & Hlines & _);
    [discriminate | vm_compute; reflexivity |].
  destruct (trip_rows_follow_the_payload text set_order _ _ 1
              (JDict [ ("day", JStr "2025-08-17"); ("maxQuality", JInt 1) ])
              Hlines eq_refl) as (row & rest & Hrow & Hnth & Hshape).
  exists (summary ++ rows ++ section)%list, row, rest. auto.
Defined.

(** ** The site-day report *)

Lemma Returns_inj {A : Type} (a b : A) : Returns a = Returns b -> a = b.
Proof. intros H. now injection H. Qed.

Lemma site_day_status_lines_parts (text : text_builtins) (d : dict) (lines : list string) :
  site_day_status_lines text (JDict d) = Returns lines ->
  exists rate label rate_text head paragraph,
    effective_rate d = Returns rate
    /\ (if eq_str (py_or (get_or "status" (JStr "") d) (JStr "unknown")) "unknown"
        then derived_label rate
        else Returns (py_or (get_or "status" (JStr "") d) (JStr "unknown")))
       = Returns label
    /\ format_fixed text 1 (if negb (is_none rate) then rate else JInt 0)
       = Returns rate_text
    /\ rate_paragraph rate = Returns paragraph
    /\ lines = (head ++ paragraph)%list
    /\ List.length head = 10%nat
    /\ nth_error head 5 = Some ("- Good rate: **" ++ rate_text ++ "%**")
    /\ nth_error head 9 = Some (overall_line (py_str text label)).
Proof.
  unfold site_day_status_lines. cbn [as_dict bind]. intros H.
  apply bind_Returns in H as (rate & Hrate & H).
  apply bind_Returns in H as (label & Hlabel & H).
  apply bind_Returns in H as (total_text & _ & H).
  apply bind_Returns in H as (good_text & _ & H).
  apply bind_Returns in H as (bad_text & _ & H).
  apply bind_Returns in H as (rate_text & Hrate_text & H).
  apply bind_Returns in H as (paragraph & Hparagraph & H).
  apply Returns_inj in H. subst lines.
  exists rate, label, rate_text. eexists. exists paragraph.
  split; [exact Hrate |]. split; [exact Hlabel |]. split; [exact Hrate_text |].
  split; [exact Hparagraph |]. split; [reflexivity |].
  split; [reflexivity |]. split; reflexivity.
Qed.

Lemma is_le_flip (c : option comparison) : is_le c = is_ge (option_map CompOpp c).
Proof. now destruct c as [[] |]. Qed.


Lemma SFcompare_flip (x y : spec_float) :
  SFcompare y x = option_map CompOpp (SFcompare x y).
Proof.
  destruct x as [sx | sx | | sx mx ex], y as [sy | sy | | sy my ey]; simpl;
    try reflexivity;
    try (destruct sx; reflexivity); try (destruct sy; reflexivity);
    try (destruct sx, sy; reflexivity).
  change (PosDef.Pos.compare_cont Eq my mx) with (Pos.compare my mx).
  change (PosDef.Pos.compare_cont Eq mx my) with (Pos.compare mx my).
  rewrite (Z.compare_antisym ex ey), (Pos.compare_antisym mx my).
  destruct sx, sy; simpl; try reflexivity;
    destruct (ex ?= ey)%Z; simpl; try reflexivity;
    destruct (mx ?= my)%positive; reflexivity.
Qed.

Lemma float_compare_spec (x y : float) :
  float_compare x y = SFcompare (Prim2SF x) (Prim2SF y).
Proof.
  unfold float_compare. rewrite FloatAxioms.compare_spec.
  now destruct (SFcompare (Prim2SF x) (Prim2SF y)) as [[] |].
Qed.






Lemma skipn_head {A : Type} (head tail : list A) (n : nat) :
  List.length head = n -> skipn n (head ++ tail) = tail.
Proof.
  intros <-. rewrite skipn_app, skipn_all, Nat.sub_diag. reflexivity.
Qed.

Lemma nth_error_head {A : Type} (head tail : list A) (k : nat) (a : A) :
  nth_error head k = Some a -> nth_error (head ++ tail) k = Some a.
Proof.
  intros H. rewrite nth_error_app1; [exact H |].
  apply nth_error_Some. now rewrite H.
Qed.



(** The status and color fields never change the good-rate line nor
    the interpretive paragraph of the site-day report: two payloads with
    the same detection totals and the same [goodRatePct] get the same
    rate line and the same lines after the tenth. *)
Theorem status_never_changes_paragraph
    (text : text_builtins) (d1 d2 : dict) (lines1 lines2 : list string) :
  get "detectionsTotal" d1 = get "detectionsTotal" d2 ->
  get "detectionsGood" d1 = get "detectionsGood" d2 ->
  get "goodRatePct" d1 = get "goodRatePct" d2 ->
  site_day_status_lines text (JDict d1) = Returns lines1 ->
  site_day_status_lines text (JDict d2) = Returns lines2 ->
  nth_error lines1 5 = nth_error lines2 5
  /\ skipn 10 lines1 = skipn 10 lines2.
Proof.
  intros Htotal Hgood Hrate H1 H2.
  apply site_day_status_lines_parts in H1
    as (rate1 & label1 & text1 & head1 & par1 & Hr1 & _ & Ht1 & Hp1 & -> & Hl1 & Hn1 & _).
  apply site_day_status_lines_parts in H2
    as (rate2 & label2 & text2 & head2 & par2 & Hr2 & _ & Ht2 & Hp2 & -> & Hl2 & Hn2 & _).
  assert (Hsame : effective_rate d1 = effective_rate d2)
    by (unfold effective_rate, get_or; now rewrite Htotal, Hgood, Hrate).
  rewrite Hsame, Hr2 in Hr1. apply Returns_inj in Hr1. subst rate2.
  rewrite Ht2 in Ht1. apply Returns_inj in Ht1. subst text2.
  rewrite Hp2 in Hp1. apply Returns_inj in Hp1. subst par2.
  split.
  - now rewrite (nth_error_head _ _ _ _ Hn1), (nth_error_head _ _ _ _ Hn2).
  - now rewrite !skipn_head.
Qed.

(** A [goodRatePct] field, when present and not null, overrides the
    detection counts: the rate line, the derived label and the
    paragraph are those of the field, whatever [detectionsGood] and
    [detectionsTotal] say. *)
Theorem explicit_rate_overrides_counts
    (text : text_builtins) (d : dict) (rate : json) (lines : list string) :
  get "goodRatePct" d = Some rate ->
  is_none rate = false ->
  site_day_status_lines text (JDict d) = Returns lines ->
  exists rate_text paragraph,
    format_fixed text 1 rate = Returns rate_text
    /\ rate_paragraph rate = Returns paragraph
    /\ nth_error lines 5 = Some ("- Good rate: **" ++ rate_text ++ "%**")
    /\ skipn 10 lines = paragraph.
Proof.
  intros Hget Hnone Hlines.
  apply site_day_status_lines_parts in Hlines
    as (rate' & label & rate_text & head & paragraph
        & Hrate & _ & Htext & Hpar & -> & Hlen & Hline & _).
  unfold effective_rate, get_or in Hrate. rewrite Hget, Hnone in Hrate.
  cbn [andb] in Hrate. apply Returns_inj in Hrate. subst rate'.
  rewrite Hnone in Htext. cbn [negb] in Htext.
  exists rate_text, paragraph.
  split; [exact Htext |]. split; [exact Hpar |].
  split; [now apply nth_error_head | now apply skipn_head].
Qed.

Lemma status_never_changes_paragraph_witness :
  let d1 := [ ("detectionsTotal", JInt 200); ("detectionsGood", JInt 150);
              ("detectionsBad", JInt 50); ("status", JStr "ok");
              ("color", JStr "green") ] in
  let d2 := [ ("status", JStr "alarm"); ("detectionsTotal", JInt 200);
              ("detectionsGood", JInt 150); ("detectionsBad", JInt 50) ] in
  (site_day_ok d1 = true /\ site_day_ok d2 = true)
  /\ forall text,
       exists lines1 lines2,
         site_day_status_lines text (JDict d1) = Returns lines1
         /\ site_day_status_lines text (JDict d2) = Returns lines2
         /\ nth_error lines1 5 = nth_error lines2 5
         /\ skipn 10 lines1 = skipn 10 lines2.
Proof.
  split; [split; vm_compute; reflexivity |].
  intros text.
  destruct (site_day_status_lines_returns text
              [ ("detectionsTotal", JInt 200); ("detectionsGood", JInt 150);
                ("detectionsBad", JInt 50); ("status", JStr "ok");
                ("color", JStr "green") ])
    as [lines1 H1]; [vm_compute; reflexivity |].
  destruct (site_day_status_lines_returns text
              [ ("status", JStr "alarm"); ("detectionsTotal", JInt 200);
                ("detectionsGood", JInt 150); ("detectionsBad", JInt 50) ])
    as [lines2 H2]; [vm_compute; reflexivity |].
  exists lines1, lines2. split; [exact H1 |]. split; [exact H2 |].
  exact (status_never_changes_paragraph text
           [ ("detectionsTotal", JInt 200); ("detectionsGood", JInt 150);
             ("detectionsBad", JInt 50); ("status", JStr "ok");
             ("color", JStr "green") ]
           [ ("status", JStr "alarm"); ("detectionsTotal", JInt 200);
             ("detectionsGood", JInt 150); ("detectionsBad", JInt 50) ]
           lines1 lines2 eq_refl eq_refl eq_refl H1 H2).
Defined.

Lemma explicit_rate_overrides_counts_witness :
  let d := [ ("detectionsTotal", JInt 1000); ("detectionsGood", JInt 990);
             ("detectionsBad", JInt 10); ("goodRatePct", JInt 10) ] in
  site_day_ok d = true
  /\ forall text,
       exists lines rate_text paragraph,
         site_day_status_lines text (JDict d) = Returns lines
         /\ format_fixed text 1 (JInt 10) = Returns rate_text
         /\ rate_paragraph (JInt 10) = Returns paragraph
         /\ nth_error lines 5 = Some ("- Good rate: **" ++ rate_text ++ "%**")
         /\ skipn 10 lines = paragraph.
Proof.
  split; [vm_compute; reflexivity |].
  intros text.
  destruct (site_day_status_lines_returns text
              [ ("detectionsTotal", JInt 1000); ("detectionsGood", JInt 990);
                ("detectionsBad", JInt 10); ("goodRatePct", JInt 10) ])
    as [lines Hlines]; [vm_compute; reflexivity |].
  destruct (explicit_rate_overrides_counts text
              [ ("detectionsTotal", JInt 1000); ("detectionsGood", JInt 990);
                ("detectionsBad", JInt 10); ("goodRatePct", JInt 10) ]
              (JInt 10) lines eq_refl eq_refl Hlines)
    as (rate_text & paragraph & H).
  exists lines, rate_text, paragraph. split; [exact Hlines | exact H].
Defined.

(** ** The sites of a trips report *)

Lemma all_strings_inv (items : list json) :
  forall strs, all_strings items = Returns strs -> items = map JStr strs.
Proof.
  induction items as [| v items IH]; intros strs H; simpl in H.
  - injection H as <-. reflexivity.
  - destruct v; try discriminate H.
    apply bind_Returns in H as (rest & Hrest & H). injection H as <-.
    simpl. now rewrite (IH _ Hrest).
Qed.

Lemma existsb_eq_str (s : string) (strs : list string) :
  existsb (fun m => eq_str m s) (map JStr strs) = true <-> In s strs.
Proof.
  rewrite existsb_exists. split.
  - intros (m & Hin & Heq). apply in_map_iff in Hin as (t & <- & Hin).
    simpl in Heq. apply String.eqb_eq in Heq. now subst.
  - intros Hin. exists (JStr s).
    split; [now apply in_map | simpl; apply String.eqb_refl].
Qed.

Lemma snoc_strings (seen : list json) (v : json) (strs' : list string) :
  (seen ++ [v])%list = map JStr strs' ->
  exists s strs, v = JStr s /\ seen = map JStr strs /\ strs' = (strs ++ [s])%list.
Proof.
  intros H. symmetry in H. apply map_eq_app in H as (l1 & l2 & -> & <- & H2).
  destruct l2 as [| s [| ? ?]]; try discriminate H2.
  injection H2 as <-. now exists s, l1.
Qed.

(** [seen.add(v)] on a set of strings: the member is there afterwards,
    nothing else is new, and nothing is there twice. *)
Lemma set_add_members (v : json) (seen seen' : list json) (strs' : list string) :
  set_add v seen = Returns seen' ->
  seen' = map JStr strs' ->
  exists s strs,
    v = JStr s /\ seen = map JStr strs
    /\ (forall x, In x strs' <-> In x strs \/ x = s)
    /\ (NoDup strs -> NoDup strs').
Proof.
  unfold set_add. intros Hadd ->.
  destruct (hashable v) eqn:Hhash; cbn [negb] in Hadd; [| discriminate Hadd].
  destruct v as [| b | z | f | s | l | d];
    try discriminate Hhash;
    try (apply Returns_inj in Hadd; apply snoc_strings in Hadd as (? & ? & Hv & _);
         discriminate Hv).
  apply Returns_inj in Hadd.
  destruct (existsb (fun m => eq_str m s) seen) eqn:Hmem.
  - subst seen. apply existsb_eq_str in Hmem.
    exists s, strs'. repeat split; auto.
    intros [Hx | ->]; assumption.
  - apply snoc_strings in Hadd as (s' & strs & Hs & -> & ->).
    injection Hs as <-. exists s, strs.
    split; [reflexivity |]. split; [reflexivity |]. split.
    + intros x. rewrite in_app_iff. simpl. intuition.
    + intros Hnd. apply (Permutation_NoDup (Permutation_cons_append strs s)).
      constructor; [| exact Hnd].
      intros Hin. apply existsb_eq_str in Hin. congruence.
Qed.

Lemma add_all_members (items : list json) :
  forall seen seen' strs',
    add_all items seen = Returns seen' ->
    seen' = map JStr strs' ->
    exists strs,
      seen = map JStr strs
      /\ (forall x, In x strs' <-> In x strs \/ In (JStr x) items)
      /\ (NoDup strs -> NoDup strs').
Proof.
  induction items as [| v rest IH]; intros seen seen' strs' Hadd Hseen'; simpl in Hadd.
  - apply Returns_inj in Hadd. subst seen'.
    exists strs'. split; [assumption |]. split; [| auto].
    intros x. simpl. intuition.
  - apply bind_Returns in Hadd as (seen1 & Hfirst & Hrest).
    destruct (IH _ _ _ Hrest Hseen') as (strs1 & Hseen1 & Hmem1 & Hnd1).
    destruct (set_add_members _ _ _ _ Hfirst Hseen1) as (s & strs & -> & -> & Hmem & Hnd).
    exists strs. split; [reflexivity |]. split; [| auto].
    intros x. rewrite Hmem1, Hmem. simpl. split.
    + intros [[Hx | ->] | Hx]; auto.
    + intros [Hx | [Hx | Hx]]; auto. injection Hx as ->. auto.
Qed.

Lemma visits_cons (trip : json) (rest : list json) (s : string) :
  visits (trip :: rest) s <-> visits [trip] s \/ visits rest s.
Proof.
  unfold visits. split.
  - intros (t & items & [Hin | Hin] & Hiter & Hs).
    + left. exists t, items. simpl. auto.
    + right. exists t, items. auto.
  - intros [(t & items & [Hin | []] & Hiter & Hs) | (t & items & Hin & Hiter & Hs)];
      exists t, items; simpl; auto.
Qed.

Lemma collect_trip_sites (stats stats' : trip_stats) (trip : json) (strs' : list string) :
  collect_trip stats trip = Returns stats' ->
  sites_seen stats' = map JStr strs' ->
  exists strs,
    sites_seen stats = map JStr strs
    /\ (forall x, In x strs' <-> In x strs \/ visits [trip] x)
    /\ (NoDup strs -> NoDup strs').
Proof.
  unfold collect_trip. intros H Hseen'.
  apply bind_Returns in H as (t & Ht & H).
  apply bind_Returns in H as (sites & Hsites & H).
  apply bind_Returns in H as (seen & Hadd & H).
  apply Returns_inj in H. subst stats'. cbn [sites_seen] in Hseen'.
  destruct trip as [| ? | ? | ? | ? | ? | d]; try discriminate Ht.
  apply Returns_inj in Ht. subst t.
  destruct (add_all_members _ _ _ _ Hadd Hseen') as (strs & Hstrs & Hmem & Hnd).
  exists strs. split; [exact Hstrs |]. split; [| exact Hnd].
  intros x. rewrite Hmem. unfold visits. split.
  - intros [Hx | Hx]; [now left | right]. eexists _, sites. simpl. eauto.
  - intros [Hx | (t' & items' & [Ht | []] & Hiter & Hx)]; [now left | right].
    injection Ht as <-. rewrite Hsites in Hiter. apply Returns_inj in Hiter. now subst.
Qed.

(** The first loop of [analyze_trips] leaves in [sites_seen] every site
    it met, once. *)
Lemma collect_trips_sites (trips : list json) :
  forall stats stats' strs',
    collect_trips stats trips = Returns stats' ->
    sites_seen stats' = map JStr strs' ->
    exists strs,
      sites_seen stats = map JStr strs
      /\ (forall x, In x strs' <-> In x strs \/ visits trips x)
      /\ (NoDup strs -> NoDup strs').
Proof.
  induction trips as [| trip rest IH]; intros stats stats' strs' H Hseen'; simpl in H.
  - apply Returns_inj in H. subst stats'. exists strs'.
    split; [exact Hseen' |]. split; [| auto].
    intros x. split; [auto |]. intros [Hx | (t & items & [] & _)]. exact Hx.
  - apply bind_Returns in H as (stats1 & Hfirst & Hrest).
    destruct (IH _ _ _ Hrest Hseen') as (strs1 & Hseen1 & Hmem1 & Hnd1).
    destruct (collect_trip_sites _ _ _ _ Hfirst Hseen1) as (strs & Hseen & Hmem & Hnd).
    exists strs. split; [exact Hseen |]. split; [| auto].
    intros x. rewrite (visits_cons trip rest), Hmem1, Hmem. tauto.
Qed.

(** *** [sorted] *)

Lemma insert_Permutation (x : string) (l : list string) :
  Permutation (insert x l) (x :: l).
Proof.
  induction l as [| y l IH]; simpl; [reflexivity |].
  destruct (String.leb x y); [reflexivity |].
  rewrite IH. apply perm_swap.
Qed.

Lemma py_sorted_members (l : list string) : Permutation (py_sorted l) l.
Proof.
  induction l as [| x l IH]; simpl; [reflexivity |].
  rewrite insert_Permutation. now constructor.
Qed.

Lemma insert_sorted (x : string) (l : list string) :
  StronglySorted (fun a b => String.leb a b = true) l ->
  StronglySorted (fun a b => String.leb a b = true) (insert x l).
Proof.
  induction 1 as [| y l Hsorted IH Hall]; simpl.
  - repeat constructor.
  - destruct (String.leb x y) eqn:Hxy.
    + constructor; [now constructor |].
      constructor; [exact Hxy |].
      rewrite Forall_forall in *. intros z Hz. eapply leb_trans; eauto.
    + constructor; [exact IH |].
      rewrite Forall_forall in *. intros z Hz.
      apply (Permutation_in _ (insert_Permutation x l)) in Hz as [<- | Hz].
      * now apply leb_false_flip.
      * now apply Hall.
Qed.

Lemma py_sorted_sorted (l : list string) :
  StronglySorted (fun a b => String.leb a b = true) (py_sorted l).
Proof.
  induction l as [| x l IH]; simpl; [constructor | now apply insert_sorted].
Qed.

Lemma leb_ltb (a b : string) : String.leb a b = true -> a <> b -> String.ltb a b = true.
Proof.
  unfold String.leb, String.ltb. intros Hle Hne.
  destruct (String.compare a b) eqn:Hc; try reflexivity; try discriminate Hle.
  apply String.compare_eq_iff in Hc. contradiction.
Qed.

Lemma sorted_NoDup_ascending (l : list string) :
  StronglySorted (fun a b => String.leb a b = true) l -> NoDup l -> ascending l.
Proof.
  unfold ascending. induction 1 as [| x l Hsorted IH Hall]; intros Hnd.
  - constructor.
  - inversion Hnd as [| ? ? Hx Hl]; subst. constructor; [now apply IH |].
    rewrite Forall_forall in *. intros z Hz.
    apply leb_ltb; [now apply Hall |]. intros ->. contradiction.
Qed.

Section SitesLine.

Variable text : text_builtins.
Variable set_order : list string -> list string.

Lemma trips_summary_sites (trips : list json) (stats : trip_stats) (summary : list string) :
  trips_summary text set_order trips stats = Returns summary ->
  exists strs,
    sites_seen stats = map JStr strs
    /\ nth_error summary 3
       = Some ("- Distinct sites visited: **"
               ++ digits (Z.of_nat (List.length (sites_seen stats)))
               ++ "** (" ++ String.concat ", " (py_sorted (set_order strs)) ++ ")").
Proof.
  unfold trips_summary. intros H.
  apply bind_Returns in H as (first & _ & H).
  apply bind_Returns in H as (global_min_q & _ & H).
  apply bind_Returns in H as (global_max_q & _ & H).
  apply bind_Returns in H as (ge7 & _ & H).
  apply bind_Returns in H as (qual_summary & _ & H).
  apply bind_Returns in H as (sites & Hsites & H).
  apply bind_Returns in H as (min_text & _ & H).
  apply bind_Returns in H as (max_text & _ & H).
  apply Returns_inj in H. subst summary.
  unfold sites_text in Hsites.
  apply bind_Returns in Hsites as (strs & Hstrs & Hsites).
  apply Returns_inj in Hsites. subst sites.
  exists strs. split; [now apply all_strings_inv | reflexivity].
Qed.

End SitesLine.

(** The summary of a trips report counts and lists every site met in
    the site lists of the trips exactly once, in strictly ascending
    order, whatever order the interpreter walks its set in. *)
Theorem distinct_sites_listed_once_in_order
    (text : text_builtins) (set_order : list string -> list string)
    (trips : list json) (lines : list string) :
  (forall strs, Permutation (set_order strs) strs) ->
  trips_report_lines text set_order trips = Returns lines ->
  exists names,
    ascending names
    /\ (forall s, In s names <-> visits trips s)
    /\ nth_error lines 3 = Some (distinct_sites_line names).
Proof.
  intros Horder Hlines.
  apply trips_report_lines_parts in Hlines
    as (stats & summary & rows & section & Hstats & Hsummary & _ & _ & ->).
  pose proof (trips_summary_length _ _ _ _ _ Hsummary) as Hlen.
  apply trips_summary_sites in Hsummary as (strs & Hseen & Hline).
  destruct (collect_trips_sites _ _ _ _ Hstats Hseen) as (none & Hnone & Hmem & Hnd).
  destruct none; [| discriminate Hnone].
  assert (Hperm : Permutation (py_sorted (set_order strs)) strs)
    by (rewrite py_sorted_members; apply Horder).
  exists (py_sorted (set_order strs)). split; [| split].
  - apply sorted_NoDup_ascending; [apply py_sorted_sorted |].
    apply (Permutation_NoDup (Permutation_sym Hperm)). apply Hnd. constructor.
  - intros s. split.
    + intros Hs. apply (Permutation_in _ Hperm), Hmem in Hs as [[] | Hs]. exact Hs.
    + intros Hs. apply (Permutation_in _ (Permutation_sym Hperm)), Hmem. now right.
  - rewrite nth_error_app1 by lia. rewrite Hline. unfold distinct_sites_line.
    now rewrite Hseen, length_map, (Permutation_length Hperm).
Qed.

Lemma distinct_sites_listed_once_in_order_witness :
  let trips :=
    [ JDict [ ("plate", JStr "ABC1234"); ("day", JStr "2025-08-16");
              ("window30", JStr "08:00");
              ("siteList", JList [ JStr "RUHSM201"; JStr "RUHSM173" ]) ];
      JDict [ ("siteList", JList [ JStr "RUHSM173"; JStr "RUHSM005" ]) ];
      JDict [ ("siteList", JNull) ] ] in
  (forall strs : list string, Permutation (rev strs) strs)
  /\ forall text,
       exists lines names,
         trips_report_lines text (@rev string) trips = Returns lines
         /\ ascending names
         /\ (forall s, In s names <-> visits trips s)
         /\ nth_error lines 3 = Some (distinct_sites_line names).
Proof.
  split; [intros strs; symmetry; apply Permutation_rev |].
  intros text.
  destruct (trips_report_lines_typed text (@rev string)
              [ JDict [ ("plate", JStr "ABC1234"); ("day", JStr "2025-08-16");
                        ("window30", JStr "08:00");
                        ("siteList", JList [ JStr "RUHSM201"; JStr "RUHSM173" ]) ];
                JDict [ ("siteList", JList [ JStr "RUHSM173"; JStr "RUHSM005" ]) ];
                JDict [ ("siteList", JNull) ] ])
    as (summary & rows & section & Hlines & _);
    [discriminate | vm_compute; reflexivity |].
  destruct (distinct_sites_listed_once_in_order text (@rev string) _ _
              (fun strs => Permutation_sym (Permutation_rev strs)) Hlines)
    as (names & H).
  exists (summary ++ rows ++ section)%list, names. split; [exact Hlines | exact H].
Defined.

(** ** The totals reports *)

Lemma below_2_below_5 (x : float) :
  (x <? 2)%float = true -> (x <? 5)%float = true.
Proof.
  rewrite !ltb_spec. unfold SFltb.
  replace (Prim2SF 2) with (S754_finite false 4503599627370496 (-51))
    by (vm_compute; reflexivity).
  replace (Prim2SF 5) with (S754_finite false 5629499534213120 (-50))
    by (vm_compute; reflexivity).
  destruct (Prim2SF x) as [s | s | | s m e]; cbn [SFcompare];
    try (intros H; exact H).
  destruct s; [intros H; exact H |].
  destruct (Z.compare_spec e (-51)) as [-> | Hlt | Hgt].
  - intros _. reflexivity.
  - intros _. destruct (Z.compare_spec e (-50)); first [lia | reflexivity].
  - intros H. discriminate H.
Qed.

Section TotalsReports.

Variable text : text_builtins.

(** What [site_totals_lines] returns, when it returns. *)
Lemma site_totals_lines_parts (result : json) (lines : list string) :
  site_totals_lines text result = Returns lines ->
  exists d always_pct not_always_pct always_text head tail,
    result = JDict d
    /\ pct (get_or "alwaysDegraded" (JInt 0) d) (get_or "uniqueVehicles" (JInt 0) d)
       = Returns always_pct
    /\ pct (get_or "notAlwaysDegraded" (JInt 0) d) (get_or "uniqueVehicles" (JInt 0) d)
       = Returns not_always_pct
    /\ format_comma text (get_or "alwaysDegraded" (JInt 0) d) = Returns always_text
    /\ lines = (head ++ tail)%list
    /\ List.length head = 8%nat
    /\ nth_error head 3
       = Some ("- Always degraded: **" ++ always_text ++ "** ("
               ++ float_repr text always_pct ++ "%)")
    /\ ((always_pct <? 2)%float = true
        /\ nth_error head 7 = Some (site_health_line "very healthy")
        /\ tail = site_reassurance
        \/ (always_pct <? 2)%float = false /\ (always_pct <? 5)%float = true
           /\ nth_error head 7 = Some (site_health_line "healthy")
           /\ tail = site_reassurance
        \/ (always_pct <? 5)%float = false /\ (always_pct <? 10)%float = true
           /\ nth_error head 7 = Some (site_health_line "borderline")
           /\ tail = site_warning
        \/ (always_pct <? 5)%float = false /\ (always_pct <? 10)%float = false
           /\ nth_error head 7 = Some (site_health_line "suspicious")
           /\ tail = site_warning).
Proof.
  unfold site_totals_lines. intros H.
  apply bind_Returns in H as (d & Hd & H).
  destruct result as [| ? | ? | ? | ? | ? | d']; try discriminate Hd.
  apply Returns_inj in Hd. subst d'.
  apply bind_Returns in H as (always_pct & Halways & H).
  apply bind_Returns in H as (not_always_pct & Hnot & H).
  apply bind_Returns in H as (unique_text & _ & H).
  apply bind_Returns in H as (always_text & Htext & H).
  apply bind_Returns in H as (not_text & _ & H).
  apply Returns_inj in H.
  exists d, always_pct, not_always_pct, always_text.
  destruct (always_pct <? 2)%float eqn:H2;
    [| destruct (always_pct <? 5)%float eqn:H5;
       [| destruct (always_pct <? 10)%float eqn:H10 ] ];
    cbv beta iota zeta in H; simpl String.eqb in H; cbn [orb] in H; cbv iota in H;
    subst lines; eexists _, _;
    (split; [reflexivity |]); (split; [exact Halways |]); (split; [exact Hnot |]);
    (split; [exact Htext |]); (split; [reflexivity |]); (split; [reflexivity |]);
    (split; [reflexivity |]).
  - left. repeat split.
  - right. left. repeat split.
  - right. right. left. repeat split.
  - right. right. right. repeat split.
Qed.

End TotalsReports.

(** The site totals report warns of a systematic problem at the site
    exactly when the share of always-degraded vehicles is not below 5
    percent (a share that is not a number included); below 5 percent it
    closes on the single reassuring line. *)
Theorem site_warning_threshold
    (text : text_builtins) (result : json) (lines : list string) :
  site_totals_lines text result = Returns lines ->
  exists d share,
    result = JDict d
    /\ pct (get_or "alwaysDegraded" (JInt 0) d) (get_or "uniqueVehicles" (JInt 0) d)
       = Returns share
    /\ skipn 8 lines = (if (share <? 5)%float then site_reassurance else site_warning).
Proof.
  intros H.
  apply site_totals_lines_parts in H
    as (d & share & other & always_text & head & tail
        & -> & Hshare & _ & _ & -> & Hlen & _ & Hcases).
  exists d, share. split; [reflexivity |]. split; [exact Hshare |].
  rewrite (skipn_head head tail 8 Hlen).
  destruct Hcases as [(H2 & _ & ->) | [(_ & H5 & _ & ->) | [(H5 & _ & _ & ->) | (H5 & _ & _ & ->)]]].
  - now rewrite (below_2_below_5 _ H2).
  - now rewrite H5.
  - now rewrite H5.
  - now rewrite H5.
Qed.

Lemma site_warning_threshold_witness :
  let result :=
    JDict [ ("day", JStr "2025-08-16"); ("site", JStr "RUHSM173");
            ("uniqueVehicles", JInt 200); ("alwaysDegraded", JInt 10);
            ("notAlwaysDegraded", JInt 30) ] in
  payload_ok result = true
  /\ forall text,
       exists lines,
         site_totals_lines text result = Returns lines
         /\ skipn 8 lines = site_warning.
Proof.
  split; [vm_compute; reflexivity |].
  intros text.
  destruct (analyze_site_totals_returns text EmptyString
              [ ("day", JStr "2025-08-16"); ("site", JStr "RUHSM173");
                ("uniqueVehicles", JInt 200); ("alwaysDegraded", JInt 10);
                ("notAlwaysDegraded", JInt 30) ]) as [report Hreport];
    [vm_compute; reflexivity |].
  unfold analyze_site_totals in Hreport.
  apply bind_Returns in Hreport as (lines & Hlines & _).
  exists lines. split; [exact Hlines |].
  destruct (site_warning_threshold text _ lines Hlines)
    as (d & share & Hd & Hshare & Htail).
  injection Hd as <-. vm_compute in Hshare.
  apply Returns_inj in Hshare. subst share. exact Htail.
Defined.

(** A site with no vehicles on the day is reported very healthy, with
    an always-degraded share of 0.0 percent: the percentage helper
    answers 0.0 for an empty denominator, whatever the numerator. *)
Theorem site_without_vehicles_reads_very_healthy
    (text : text_builtins) (d : dict) (lines : list string) :
  truthy (get_or "uniqueVehicles" (JInt 0) d) = false ->
  site_totals_lines text (JDict d) = Returns lines ->
  exists always_text,
    format_comma text (get_or "alwaysDegraded" (JInt 0) d) = Returns always_text
    /\ nth_error lines 3
       = Some ("- Always degraded: **" ++ always_text ++ "** ("
               ++ float_repr text 0 ++ "%)")
    /\ nth_error lines 7 = Some (site_health_line "very healthy")
    /\ skipn 8 lines = site_reassurance.
Proof.
  intros Hnone H.
  apply site_totals_lines_parts in H
    as (d' & share & other & always_text & head & tail
        & Hd & Hshare & _ & Htext & -> & Hlen & Hline & Hcases).
  injection Hd as <-.
  unfold pct in Hshare. rewrite Hnone in Hshare. cbn [negb] in Hshare.
  apply Returns_inj in Hshare. subst share.
  exists always_text. split; [exact Htext |].
  split; [now apply nth_error_head |].
  rewrite (skipn_head head tail 8 Hlen).
  destruct Hcases as [(_ & Hlabel & ->) | [(H2 & _) | [(H5 & _) | (H5 & _)]]];
    try discriminate.
  split; [now apply nth_error_head | reflexivity].
Qed.

Lemma site_without_vehicles_reads_very_healthy_witness :
  let d := [ ("day", JStr "2025-08-16"); ("site", JStr "RUHSM173");
             ("uniqueVehicles", JInt 0); ("alwaysDegraded", JInt 0);
             ("notAlwaysDegraded", JInt 0) ] in
  truthy (get_or "uniqueVehicles" (JInt 0) d) = false
  /\ forall text,
       exists lines,
         site_totals_lines text (JDict d) = Returns lines
         /\ nth_error lines 3
            = Some ("- Always degraded: **0** (" ++ float_repr text 0 ++ "%)")
         /\ nth_error lines 7 = Some (site_health_line "very healthy")
         /\ skipn 8 lines = site_reassurance.
Proof.
  split; [reflexivity |].
  intros text.
  destruct (analyze_site_totals_returns text EmptyString
              [ ("day", JStr "2025-08-16"); ("site", JStr "RUHSM173");
                ("uniqueVehicles", JInt 0); ("alwaysDegraded", JInt 0);
                ("notAlwaysDegraded", JInt 0) ]) as [report Hreport];
    [vm_compute; reflexivity |].
  unfold analyze_site_totals in Hreport.
  apply bind_Returns in Hreport as (lines & Hlines & _).
  exists lines. split; [exact Hlines |].
  destruct (site_without_vehicles_reads_very_healthy text
              [ ("day", JStr "2025-08-16"); ("site", JStr "RUHSM173");
                ("uniqueVehicles", JInt 0); ("alwaysDegraded", JInt 0);
                ("notAlwaysDegraded", JInt 0) ] lines eq_refl Hlines)
    as (always_text & Htext & H).
  vm_compute in Htext. apply Returns_inj in Htext. subst always_text. exact H.
Defined.

(** A city with no vehicles on the day is reported in excellent health,
    with both shares at 0.0 percent. *)
Theorem city_without_vehicles_reads_excellent
    (text : text_builtins) (question : string) (d : dict) (report : string) :
  truthy (get_or "uniqueVehicles" (JInt 0) d) = false ->
  analyze_city_totals text question (JDict d) = Returns report ->
  exists unique_veh always_deg not_always,
    format_comma text (get_or "uniqueVehicles" (JInt 0) d) = Returns unique_veh
    /\ format_comma text (get_or "alwaysDegraded" (JInt 0) d) = Returns always_deg
    /\ format_comma text (get_or "notAlwaysDegraded" (JInt 0) d) = Returns not_always
    /\ report
       = city_totals_report text (py_str text (get_or "day" (JStr "?") d))
           unique_veh always_deg not_always 0 0 "excellent".
Proof.
  intros Hnone H. unfold analyze_city_totals in H. cbn [as_dict bind] in H.
  unfold pct in H. rewrite Hnone in H. cbn [negb bind] in H.
  apply bind_Returns in H as (unique_veh & Hunique & H).
  apply bind_Returns in H as (always_deg & Halways & H).
  apply bind_Returns in H as (not_always & Hnot & H).
  apply Returns_inj in H. subst report.
  exists unique_veh, always_deg, not_always.
  repeat (split; [assumption |]). reflexivity.
Qed.

Lemma city_without_vehicles_reads_excellent_witness :
  let d := [ ("day", JStr "2025-08-16"); ("uniqueVehicles", JInt 0);
             ("alwaysDegraded", JInt 0); ("notAlwaysDegraded", JInt 0) ] in
  truthy (get_or "uniqueVehicles" (JInt 0) d) = false
  /\ forall text question,
       analyze_city_totals text question (JDict d)
       = Returns (city_totals_report text "2025-08-16" "0" "0" "0" 0 0 "excellent").
Proof.
  split; [reflexivity |].
  intros text question.
  destruct (analyze_city_totals_returns text question
              [ ("day", JStr "2025-08-16"); ("uniqueVehicles", JInt 0);
                ("alwaysDegraded", JInt 0); ("notAlwaysDegraded", JInt 0) ])
    as [report Hreport]; [vm_compute; reflexivity |].
  destruct (city_without_vehicles_reads_excellent text question
              [ ("day", JStr "2025-08-16"); ("uniqueVehicles", JInt 0);
                ("alwaysDegraded", JInt 0); ("notAlwaysDegraded", JInt 0) ]
              report eq_refl Hreport)
    as (unique_veh & always_deg & not_always & Hu & Ha & Hn & H).
  vm_compute in Hu, Ha, Hn.
  apply Returns_inj in Hu, Ha, Hn. subst unique_veh always_deg not_always.
  rewrite Hreport, H. reflexivity.
Defined.

(** * The agent loop *)

Lemma count_app (test : event -> bool) (log log' : list event) :
  count test (log ++ log') = (count test log + count test log')%nat.
Proof. unfold count. now rewrite filter_app, length_app. Qed.

Lemma count_cons (test : event -> bool) (e : event) (log : list event) :
  count test (e :: log) = ((if test e then 1 else 0) + count test log)%nat.
Proof. unfold count. simpl. now destruct (test e). Qed.

(** [no_get Hin]: a log of calls and prints holds no request. *)
Ltac no_get Hin :=
  repeat rewrite in_app_iff in Hin;
  cbn [In turn_head] in Hin;
  repeat match type of Hin with
         | _ \/ _ => destruct Hin as [Hin | Hin]
         end;
  try discriminate Hin; try contradiction.

Section AgentLoop.

Variable text : text_builtins.
Variable set_order : list string -> list string.
Variable w : world.

(** Each caller either fails on a parameter it cannot read, before any
    request, or sends one request to its own endpoint. *)
Lemma tool_function_cases
    (name : string) (tool_function : nat -> json -> io json)
    (turn : nat) (params : json) :
  assoc name (TOOL_MAP text w) = Some tool_function ->
  exists parameters,
    In (name, parameters) tool_parameters
    /\ ((exists k, In k parameters /\ py_getitem params k = Raises)
        /\ tool_function turn params = ([], Raises)
        \/ (forall k, In k parameters -> returns (py_getitem params k))
           /\ exists query,
                tool_function turn params
                = request w turn (BACKEND ++ "/" ++ name ++ "?" ++ query)).
Proof.
  unfold assoc, TOOL_MAP. cbn [find fst]. intros H.
  repeat match type of H with
         | context [String.eqb name ?s] =>
             destruct (String.eqb_spec name s) as [-> | _]
         end;
    cbn [option_map snd] in H; try discriminate H;
    injection H as <-; eexists; (split; [simpl; eauto 10 |]).
  - unfold getCityTotals.
    destruct (py_getitem params "day") as [day |] eqn:Hday; cbn [lift io_bind].
    + right. split; [intros k [<- | []]; now exists day |].
      exists ("day=" ++ py_str text day). reflexivity.
    + left. split; [exists "day"; simpl; auto | reflexivity].
  - unfold getSiteTotals.
    destruct (py_getitem params "day") as [day |] eqn:Hday; cbn [lift io_bind];
      [destruct (py_getitem params "site") as [site |] eqn:Hsite; cbn [lift io_bind] |].
    + right. split; [intros k [<- | [<- | []]]; (eexists; eassumption) |].
      exists ("day=" ++ py_str text day ++ "&site=" ++ py_str text site). reflexivity.
    + left. split; [exists "site"; simpl; auto | reflexivity].
    + left. split; [exists "day"; simpl; auto | reflexivity].
  - unfold getSiteDayStatus.
    destruct (py_getitem params "day") as [day |] eqn:Hday; cbn [lift io_bind];
      [destruct (py_getitem params "site") as [site |] eqn:Hsite; cbn [lift io_bind] |].
    + right. split; [intros k [<- | [<- | []]]; (eexists; eassumption) |].
      exists ("day=" ++ py_str text day ++ "&site=" ++ py_str text site). reflexivity.
    + left. split; [exists "site"; simpl; auto | reflexivity].
    + left. split; [exists "day"; simpl; auto | reflexivity].
  - unfold getVehicleDegradeStatus.
    destruct (py_getitem params "plate") as [plate |] eqn:Hplate; cbn [lift io_bind].
    + right. split; [intros k [<- | []]; now exists plate |].
      exists ("plate=" ++ py_str text plate). reflexivity.
    + left. split; [exists "plate"; simpl; auto | reflexivity].
  - unfold getTripsForDay.
    destruct (py_getitem params "plate") as [plate |] eqn:Hplate; cbn [lift io_bind];
      [destruct (py_getitem params "day") as [day |] eqn:Hday; cbn [lift io_bind] |].
    + right. split; [intros k [<- | [<- | []]]; (eexists; eassumption) |].
      exists ("plate=" ++ py_str text plate ++ "&day=" ++ py_str text day). reflexivity.
    + left. split; [exists "day"; simpl; auto | reflexivity].
    + left. split; [exists "plate"; simpl; auto | reflexivity].
  - unfold getTripsAllDays.
    destruct (py_getitem params "plate") as [plate |] eqn:Hplate; cbn [lift io_bind].
    + right. split; [intros k [<- | []]; now exists plate |].
      exists ("plate=" ++ py_str text plate). reflexivity.
    + left. split; [exists "plate"; simpl; auto | reflexivity].
Qed.

(** Every turn takes one of the ten paths. *)
Lemma agent_turn_path (turn : nat) (question : string) :
  turn_path text set_order w turn question (agent_turn text set_order w turn question).
Proof.
  unfold agent_turn, chat_with_llm.
  destruct (exit_word w question) eqn:Hexit; [now apply path_exit |].
  destruct (messages_create w turn (full_prompt question))
    as [output | message] eqn:Hreply;
    cbn [io_bind io_ret emit print lift app];
    [| now apply path_llm_failure].
  destruct (loads w output) as [tool_call |] eqn:Hloads;
    cbn [io_bind io_ret emit print lift app];
    [| now apply path_invalid_json].
  destruct tool_call as [| b | z | f | s | items | call];
    cbn [io_bind io_ret emit print lift app as_dict];
    try (now eapply path_not_an_object; eauto).
  destruct (eq_str (get_or "tool" JNull call) "none") eqn:Hnone;
    cbn [io_bind io_ret emit print lift app].
  { apply path_tool_none with (call := call); auto.
    unfold get_or in Hnone. destruct (get "tool" call) as [[| | | | s | |] |];
      try discriminate Hnone.
    simpl in Hnone. apply String.eqb_eq in Hnone. now subst. }
  unfold lookup_tool.
  destruct (hashable (get_or "tool" JNull call)) eqn:Hhash;
    cbn [negb io_bind io_ret emit print lift app].
  2:{ unfold get_or in Hhash. destruct (get "tool" call) as [tool |] eqn:Htool;
        [| discriminate Hhash].
      eapply path_unhashable_tool; eauto. }
  destruct (get_or "tool" JNull call) as [| b | z | f | name | items | d] eqn:Htool;
    try discriminate Hhash;
    try (match type of Htool with
         | _ = ?t =>
             now apply path_unknown_tool with (output := output) (call := call) (tool := t)
         end).
  destruct (assoc name (TOOL_MAP text w)) as [tool_function |] eqn:Hfound.
  2:{ apply path_unknown_tool with (output := output) (call := call) (tool := JStr name);
        auto.
      unfold lookup_tool. cbn [hashable negb]. now rewrite Hfound. }
  assert (Hget : get "tool" call = Some (JStr name)).
  { unfold get_or in Htool. destruct (get "tool" call); [now subst | discriminate]. }
  destruct (tool_function turn (get_or "params" (JDict []) call))
    as [tool_log [result |]] eqn:Hcall;
    cbn [io_bind io_ret emit print lift app].
  2:{ eapply path_tool_raises; eauto. }
  destruct (analyze_result text set_order question result) as [final |] eqn:Hfinal;
    cbn [io_bind io_ret emit print lift app].
  - eapply path_answer; eauto.
  - eapply path_analysis_raises; eauto.
Qed.


(** What a caller logs: nothing, or its one request. *)
Lemma tool_log_cases
    (name : string) (tool_function : nat -> json -> io json)
    (turn : nat) (params : json) (tool_log : list event) (result : outcome json) :
  assoc name (TOOL_MAP text w) = Some tool_function ->
  tool_function turn params = (tool_log, result) ->
  exists parameters,
    In (name, parameters) tool_parameters
    /\ ((exists k, In k parameters /\ py_getitem params k = Raises)
        /\ tool_log = [] /\ result = Raises
        \/ (forall k, In k parameters -> returns (py_getitem params k))
           /\ exists query,
                tool_log = [Get (BACKEND ++ "/" ++ name ++ "?" ++ query)]
                /\ result
                   = match requests_get w turn (BACKEND ++ "/" ++ name ++ "?" ++ query) with
                     | Some v => Returns v
                     | None => Raises
                     end).
Proof.
  intros Hfound Hcall.
  destruct (tool_function_cases name tool_function turn params Hfound)
    as (parameters & Hin & [[Hmissing Hf] | [Hgiven [query Hf]]]);
    rewrite Hf in Hcall; exists parameters; (split; [exact Hin |]).
  - injection Hcall as <- <-. left. auto.
  - unfold request in Hcall. injection Hcall as <- <-. right.
    split; [exact Hgiven |]. exists query. auto.
Qed.

Lemma agent_turn_counts (turn : nat) (question : string) :
  let log := log_of (agent_turn text set_order w turn question) in
  count is_ask log = 0%nat
  /\ (count is_get log <= count is_call log)%nat
  /\ (count is_call log <= 1)%nat.
Proof.
  destruct (agent_turn_path turn question)
    as [ | | | | | | | ? ? ? ? ? ? ? ? ? Hfound Hcall
         | ? ? ? ? ? ? ? ? ? ? Hfound Hcall ? | ? ? ? ? ? ? ? ? ? ? ? Hfound Hcall ? ];
    cbn [log_of fst];
    try (destruct (tool_log_cases _ _ _ _ _ _ Hfound Hcall)
           as (? & _ & [(_ & -> & _) | (_ & ? & -> & _)]));
    rewrite ?count_app;
    cbn [count filter is_ask is_get is_call turn_head List.length Nat.add];
    repeat split; lia.
Qed.

Lemma exit_word_breaks (turn : nat) (question : string) :
  exit_word w question = true ->
  agent_turn text set_order w turn question = ([], Returns Break).
Proof. intros H. unfold agent_turn. now rewrite H. Qed.

Lemma break_exit_word (turn : nat) (question : string) :
  result_of (agent_turn text set_order w turn question) = Returns Break ->
  exit_word w question = true.
Proof.
  destruct (agent_turn_path turn question); cbn [result_of snd];
    intros Hresult; try discriminate Hresult; assumption.
Qed.

Lemma continue_no_exit_word (turn : nat) (question : string) :
  result_of (agent_turn text set_order w turn question) = Returns Continue ->
  exit_word w question = false.
Proof.
  destruct (agent_turn_path turn question); cbn [result_of snd];
    intros Hresult; try discriminate Hresult; assumption.
Qed.

Lemma run_agent_from_cons (turn : nat) (question : string) (rest : list string) :
  run_agent_from text set_order w turn (question :: rest)
  = let (turn_log, next) := agent_turn text set_order w turn question in
    match next with
    | Returns Break => (Ask (nl ++ "Ask me anything: ") :: turn_log, Returns tt)
    | Returns Continue =>
        ((Ask (nl ++ "Ask me anything: ") :: turn_log
          ++ log_of (run_agent_from text set_order w (S turn) rest))%list,
         result_of (run_agent_from text set_order w (S turn) rest))
    | Raises => (Ask (nl ++ "Ask me anything: ") :: turn_log, Raises)
    end.
Proof.
  cbn [run_agent_from].
  destruct (agent_turn text set_order w turn question) as [turn_log [[|] |]];
    cbn [io_bind emit io_ret app]; rewrite ?app_nil_r; try reflexivity.
  destruct (run_agent_from text set_order w (S turn) rest) as [log result].
  reflexivity.
Qed.

Lemma analyze_result_error (question : string) (d : dict) :
  has_key "error" d = true ->
  analyze_result text set_order question (JDict d)
  = Returns (error_report question
               (py_str text (get_or "error" (JStr "Unknown backend error.") d))).
Proof.
  intros Hkey. unfold analyze_result. cbn [detect_result_type].
  rewrite Hkey. reflexivity.
Qed.

End AgentLoop.

(** The backend is asked only when the model's reply decodes to an
    object that names one of the six tools and gives every parameter
    the tool reads; the request then goes to the endpoint of that tool. *)
Theorem backend_asked_only_for_a_listed_tool
    (text : text_builtins) (set_order : list string -> list string) (w : world)
    (turn : nat) (question url : string) :
  In (Get url) (log_of (agent_turn text set_order w turn question)) ->
  exists output call name parameters query,
    messages_create w turn (full_prompt question) = Reply output
    /\ loads w output = Some (JDict call)
    /\ get "tool" call = Some (JStr name)
    /\ In (name, parameters) tool_parameters
    /\ (forall k, In k parameters ->
                  returns (py_getitem (get_or "params" (JDict []) call) k))
    /\ url = BACKEND ++ "/" ++ name ++ "?" ++ query.
Proof.
  destruct (agent_turn_path text set_order w turn question)
    as [ | | | | | | | output call name f tool_log ? Hreply Hloads Hget Hfound Hcall
         | output call name f tool_log result ? Hreply Hloads Hget Hfound Hcall ?
         | output call name f tool_log result final ? Hreply Hloads Hget Hfound Hcall ? ];
    cbn [log_of fst]; intros Hin;
    try (no_get Hin; fail);
    destruct (tool_log_cases _ _ _ _ _ _ _ _ Hfound Hcall)
      as (parameters & Htable & [(_ & -> & _) | (Hgiven & query & -> & _)]);
    no_get Hin;
    exists output, call, name, parameters, query;
    repeat (split; [assumption |]); congruence.
Qed.

Lemma backend_asked_only_for_a_listed_tool_witness :
  let w :=
    scripted_world (Reply "{}")
      (Some (JDict [ ("tool", JStr "getCityTotals");
                     ("params", JDict [ ("day", JStr "2025-08-16") ]) ]))
      (Some (JDict [ ("error", JStr "no data for that day") ])) in
  (forall (text : text_builtins) (set_order : list string -> list string),
     In (Get "http://localhost:8080/getCityTotals?day=2025-08-16")
        (log_of (agent_turn text set_order w 0 "How was the city on 2025-08-16?")))
  /\ forall (text : text_builtins) (set_order : list string -> list string),
       exists output call name parameters query,
         messages_create w 0 (full_prompt "How was the city on 2025-08-16?") = Reply output
         /\ loads w output = Some (JDict call)
         /\ get "tool" call = Some (JStr name)
         /\ In (name, parameters) tool_parameters
         /\ (forall k, In k parameters ->
                       returns (py_getitem (get_or "params" (JDict []) call) k))
         /\ "http://localhost:8080/getCityTotals?day=2025-08-16"
            = BACKEND ++ "/" ++ name ++ "?" ++ query.
Proof.
  intros w.
  assert (Hin : forall (text : text_builtins) (set_order : list string -> list string),
             In (Get "http://localhost:8080/getCityTotals?day=2025-08-16")
                (log_of (agent_turn text set_order w 0
                           "How was the city on 2025-08-16?"))).
  { intros text set_order. vm_compute. auto 10. }
  split; [exact Hin |].
  intros text set_order.
  exact (backend_asked_only_for_a_listed_tool text set_order w 0 _ _ (Hin text set_order)).
Defined.

(** Over a whole run the agent calls the model at most once per
    question typed and asks the backend at most once per call of the
    model; it prompts at most once more than there are questions. *)
Theorem one_call_and_one_request_per_question
    (text : text_builtins) (set_order : list string -> list string) (w : world)
    (questions : list string) :
  forall turn,
    let log := log_of (run_agent_from text set_order w turn questions) in
    (count is_get log <= count is_call log)%nat
    /\ (count is_call log <= List.length questions)%nat
    /\ (count is_ask log <= S (List.length questions))%nat.
Proof.
  induction questions as [| question rest IH]; intros turn.
  - cbn. repeat split; lia.
  - cbv zeta. rewrite run_agent_from_cons.
    pose proof (agent_turn_counts text set_order w turn question) as Hturn.
    cbv zeta in Hturn.
    destruct (agent_turn text set_order w turn question) as [turn_log [[|] |]];
      cbn [log_of fst] in Hturn |- *; destruct Hturn as (Hask & Hget & Hcall);
      rewrite ?count_cons, ?count_app;
      cbn [is_ask is_get is_call List.length];
      try (repeat split; lia).
    specialize (IH (S turn)). cbv zeta in IH. destruct IH as (IHget & IHcall & IHask).
    repeat split; lia.
Qed.

(** The loop returns only when an exit word is typed: the questions
    before it were not exit words, and nothing typed after it is read. *)
Theorem loop_ends_only_on_an_exit_word
    (text : text_builtins) (set_order : list string -> list string) (w : world)
    (questions : list string) :
  forall turn,
    result_of (run_agent_from text set_order w turn questions) = Returns tt ->
    exists before word after,
      questions = (before ++ word :: after)%list
      /\ exit_word w word = true
      /\ Forall (fun q => exit_word w q = false) before
      /\ count is_ask (log_of (run_agent_from text set_order w turn questions))
         = S (List.length before).
Proof.
  induction questions as [| question rest IH]; intros turn Hend.
  - discriminate Hend.
  - rewrite run_agent_from_cons in Hend |- *.
    pose proof (agent_turn_counts text set_order w turn question) as (Hask & _).
    pose proof (break_exit_word text set_order w turn question) as Hbreak.
    pose proof (continue_no_exit_word text set_order w turn question) as Hcontinue.
    destruct (agent_turn text set_order w turn question) as [turn_log [[|] |]];
      cbn [log_of result_of fst snd] in *; try discriminate Hend.
    + exists [], question, rest.
      split; [reflexivity |]. split; [now apply Hbreak |]. split; [constructor |].
      rewrite count_cons, Hask. reflexivity.
    + destruct (IH (S turn) Hend)
        as (before & word & after & Hsplit & Hword & Hbefore & Hcount).
      exists (question :: before), word, after.
      split; [now rewrite Hsplit |]. split; [exact Hword |].
      split; [constructor; [now apply Hcontinue | exact Hbefore] |].
      rewrite count_cons, count_app, Hask, Hcount. reflexivity.
Qed.

Lemma loop_ends_only_on_an_exit_word_witness :
  let w := scripted_world (Failure "connection refused") None None in
  let questions := [ "How healthy was RUHSM173 yesterday?"; "Quit"; "one more" ] in
  (forall (text : text_builtins) (set_order : list string -> list string),
     result_of (run_agent_from text set_order w 0 questions) = Returns tt)
  /\ forall (text : text_builtins) (set_order : list string -> list string),
       exists before word after,
         questions = (before ++ word :: after)%list
         /\ exit_word w word = true
         /\ Forall (fun q => exit_word w q = false) before
         /\ count is_ask (log_of (run_agent_from text set_order w 0 questions))
            = S (List.length before).
Proof.
  intros w questions.
  assert (Hend : forall (text : text_builtins) (set_order : list string -> list string),
             result_of (run_agent_from text set_order w 0 questions) = Returns tt).
  { intros text set_order. vm_compute. reflexivity. }
  split; [exact Hend |].
  intros text set_order.
  exact (loop_ends_only_on_an_exit_word text set_order w questions 0
           (Hend text set_order)).
Defined.

(** A reply of the model that is valid JSON but not an object is not
    caught by the guard around the decoding: the lookup of the tool
    raises, the exception leaves [run_agent], and no further question
    is read. *)
Theorem reply_that_is_not_an_object_ends_the_loop
    (text : text_builtins) (set_order : list string -> list string) (w : world)
    (turn : nat) (question output : string) (tool_call : json) (rest : list string) :
  exit_word w question = false ->
  messages_create w turn (full_prompt question) = Reply output ->
  loads w output = Some tool_call ->
  as_dict tool_call = Raises ->
  run_agent_from text set_order w turn (question :: rest)
  = (Ask (nl ++ "Ask me anything: ") :: turn_head question output, Raises).
Proof.
  intros Hexit Hreply Hloads Hobject.
  rewrite run_agent_from_cons. unfold agent_turn, chat_with_llm.
  rewrite Hexit, Hreply. cbn [io_bind io_ret emit print lift app].
  rewrite Hloads. cbn [io_bind io_ret emit print lift app].
  rewrite Hobject. reflexivity.
Qed.

Lemma reply_that_is_not_an_object_ends_the_loop_witness :
  let w := scripted_world (Reply "[]") (Some (JList [])) None in
  let question := "How healthy was RUHSM173 yesterday?" in
  (exit_word w question = false
   /\ messages_create w 0 (full_prompt question) = Reply "[]"
   /\ loads w "[]" = Some (JList [])
   /\ as_dict (JList []) = @Raises dict)
  /\ forall (text : text_builtins) (set_order : list string -> list string),
       run_agent_from text set_order w 0 [ question; "exit" ]
       = (Ask (nl ++ "Ask me anything: ") :: turn_head question "[]", Raises).
Proof.
  intros w question.
  split; [repeat split |].
  intros text set_order.
  apply (reply_that_is_not_an_object_ends_the_loop text set_order w 0 question "[]"
           (JList []) [ "exit" ]); reflexivity.
Defined.

(** The table of parameters has one row per tool. *)
Lemma tool_parameters_functional (name : string) (parameters parameters' : list string) :
  In (name, parameters) tool_parameters ->
  In (name, parameters') tool_parameters ->
  parameters' = parameters.
Proof.
  simpl. intros H H'.
  repeat match type of H with
         | _ \/ _ => destruct H as [H | H]
         end;
    try contradiction; injection H as <- <-;
    repeat match type of H' with
           | _ \/ _ => destruct H' as [H' | H']
           end;
    try contradiction; try discriminate H'; now injection H' as <-.
Qed.

Lemma listed_tool_is_found
    (text : text_builtins) (w : world) (name : string) (parameters : list string) :
  In (name, parameters) tool_parameters ->
  name <> "none" /\ exists tool_function, assoc name (TOOL_MAP text w) = Some tool_function.
Proof.
  simpl. intros H.
  repeat match type of H with
         | _ \/ _ => destruct H as [H | H]
         end;
    try contradiction; injection H as <- <-;
    (split; [discriminate | eexists; reflexivity]).
Qed.

(** A tool named without one of the parameters its caller reads (no
    [params] at all, [params] that is not an object, or a missing key)
    makes the turn raise before any request is sent. *)
Theorem missing_parameter_raises_before_any_request
    (text : text_builtins) (set_order : list string -> list string) (w : world)
    (turn : nat) (question output : string) (call : dict)
    (name : string) (parameters : list string) (k : string) :
  exit_word w question = false ->
  messages_create w turn (full_prompt question) = Reply output ->
  loads w output = Some (JDict call) ->
  get "tool" call = Some (JStr name) ->
  In (name, parameters) tool_parameters ->
  In k parameters ->
  py_getitem (get_or "params" (JDict []) call) k = Raises ->
  agent_turn text set_order w turn question = (turn_head question output, Raises).
Proof.
  intros Hexit Hreply Hloads Hget Htable Hk Hmissing.
  destruct (listed_tool_is_found text w name parameters Htable)
    as (Hnone & tool_function & Hfound).
  destruct (tool_function turn (get_or "params" (JDict []) call))
    as [tool_log result] eqn:Hcall.
  destruct (tool_log_cases text w _ _ _ _ _ _ Hfound Hcall)
    as (parameters' & Htable' & [(_ & Hlog & Hresult) | (Hgiven & _)]).
  2:{ rewrite (tool_parameters_functional _ _ _ Htable Htable') in Hgiven.
      destruct (Hgiven k Hk) as [v Hv]. congruence. }
  subst tool_log result.
  unfold agent_turn, chat_with_llm.
  rewrite Hexit, Hreply. cbn [io_bind io_ret emit print lift app].
  rewrite Hloads. cbn [io_bind io_ret emit print lift app as_dict].
  unfold get_or at 1 2. rewrite Hget.
  assert (Heq : eq_str (JStr name) "none" = false)
    by (simpl; now apply String.eqb_neq).
  rewrite Heq. unfold lookup_tool. cbn [hashable negb io_bind lift app].
  rewrite Hfound. cbn [io_bind]. rewrite Hcall. reflexivity.
Qed.

Lemma missing_parameter_raises_before_any_request_witness :
  let call := [ ("tool", JStr "getSiteTotals");
                ("params", JDict [ ("day", JStr "2025-08-16") ]) ] in
  let w := scripted_world (Reply "{}") (Some (JDict call)) None in
  let question := "How many degraded vehicles were at RUHSM173?" in
  (exit_word w question = false
   /\ In ("getSiteTotals", [ "day"; "site" ]) tool_parameters
   /\ py_getitem (get_or "params" (JDict []) call) "site" = Raises)
  /\ forall (text : text_builtins) (set_order : list string -> list string),
       agent_turn text set_order w 0 question = (turn_head question "{}", Raises).
Proof.
  intros call w question.
  split; [repeat split; simpl; auto |].
  intros text set_order.
  apply (missing_parameter_raises_before_any_request text set_order w 0 question "{}"
           call "getSiteTotals" [ "day"; "site" ] "site");
    try reflexivity; simpl; auto.
Defined.

(** When the backend answers a request with an object that has an
    [error] key, the turn does not raise: it goes on to the next
    question after printing the error report, which quotes the question
    as it was typed. *)
Theorem backend_error_is_reported
    (text : text_builtins) (set_order : list string -> list string) (w : world)
    (turn : nat) (question url : string) (d : dict) :
  In (Get url) (log_of (agent_turn text set_order w turn question)) ->
  requests_get w turn url = Some (JDict d) ->
  has_key "error" d = true ->
  exists before,
    agent_turn text set_order w turn question
    = ((before
        ++ [ Print (nl ++ "🤖 FINAL ANSWER:");
             Print (error_report question
                      (py_str text (get_or "error" (JStr "Unknown backend error.") d))) ])%list,
       Returns Continue).
Proof.
  intros Hin Hanswer Hkey.
  pose proof (analyze_result_error text set_order question d Hkey) as Herror.
  destruct (agent_turn_path text set_order w turn question)
    as [ | | | | | |
         | output call name f tool_log ? Hreply Hloads Hget Hfound Hcall
         | output call name f tool_log result ? Hreply Hloads Hget Hfound Hcall Hfinal
         | output call name f tool_log result final ? Hreply Hloads Hget Hfound Hcall
             Hfinal ];
    cbn [log_of fst] in Hin;
    try (no_get Hin; fail);
    destruct (tool_log_cases text w _ _ _ _ _ _ Hfound Hcall)
      as (parameters & _ & [(_ & -> & _) | (_ & query & -> & Hresult)]);
    no_get Hin;
    match type of Hin with
    | Get ?sent = Get _ => assert (Hurl : sent = url) by congruence
    end;
    rewrite Hurl, Hanswer in Hresult;
    try discriminate Hresult;
    injection Hresult as ->; rewrite Herror in Hfinal;
    try discriminate Hfinal.
  injection Hfinal as <-.
  exists (turn_head question output
          ++ [ Get url; Print (nl ++ "🔍 RAW RESULT:"); Print (dumps w (JDict d)) ])%list.
  rewrite Hurl. reflexivity.
Qed.

Lemma backend_error_is_reported_witness :
  let d := [ ("error", JStr "no data for that day") ] in
  let w :=
    scripted_world (Reply "{}")
      (Some (JDict [ ("tool", JStr "getCityTotals");
                     ("params", JDict [ ("day", JStr "2025-08-16") ]) ]))
      (Some (JDict d)) in
  let question := "How was the city on 2025-08-16?" in
  let url := "http://localhost:8080/getCityTotals?day=2025-08-16" in
  ((forall (text : text_builtins) (set_order : list string -> list string),
      In (Get url) (log_of (agent_turn text set_order w 0 question)))
   /\ requests_get w 0 url = Some (JDict d)
   /\ has_key "error" d = true)
  /\ forall (text : text_builtins) (set_order : list string -> list string),
       exists before,
         agent_turn text set_order w 0 question
         = ((before
             ++ [ Print (nl ++ "🤖 FINAL ANSWER:");
                  Print (error_report question "no data for that day") ])%list,
            Returns Continue).
Proof.
  intros d w question url.
  assert (Hin : forall (text : text_builtins) (set_order : list string -> list string),
             In (Get url) (log_of (agent_turn text set_order w 0 question))).
  { intros text set_order. vm_compute. auto 10. }
  split; [split; [exact Hin | split; reflexivity] |].
  intros text set_order.
  exact (backend_error_is_reported text set_order w 0 question url d
           (Hin text set_order) eq_refl eq_refl).
Defined.

(** When the model gives no reply that decodes (the call fails, or the
    text is not JSON), the turn neither raises nor reaches the backend:
    the loop goes on to the next question. *)
Theorem undecodable_reply_is_harmless
    (text : text_builtins) (set_order : list string -> list string) (w : world)
    (turn : nat) (question : string) :
  exit_word w question = false ->
  (forall output,
     messages_create w turn (full_prompt question) = Reply output ->
     loads w output = None) ->
  result_of (agent_turn text set_order w turn question) = Returns Continue
  /\ count is_get (log_of (agent_turn text set_order w turn question)) = 0%nat.
Proof.
  intros Hexit Hnone.
  destruct (agent_turn_path text set_order w turn question)
    as [ Hexit'
       | message _ Hreply
       | output _ Hreply Hloads
       | output tool_call _ Hreply Hloads _
       | output call _ Hreply Hloads _
       | output call tool _ Hreply Hloads _ _
       | output call tool _ Hreply Hloads _ _ _
       | output call name f tool_log _ Hreply Hloads _ _ _
       | output call name f tool_log result _ Hreply Hloads _ _ _ _
       | output call name f tool_log result final _ Hreply Hloads _ _ _ _ ];
    try congruence;
    try (rewrite (Hnone output Hreply) in Hloads; discriminate Hloads);
    split; reflexivity.
Qed.

Lemma undecodable_reply_is_harmless_witness :
  let w := scripted_world (Reply "Sorry, I cannot choose a tool.") None None in
  let question := "What is the weather?" in
  (exit_word w question = false
   /\ forall output,
        messages_create w 3 (full_prompt question) = Reply output ->
        loads w output = None)
  /\ forall (text : text_builtins) (set_order : list string -> list string),
       result_of (agent_turn text set_order w 3 question) = Returns Continue
       /\ count is_get (log_of (agent_turn text set_order w 3 question)) = 0%nat.
Proof.
  intros w question.
  split; [split; [reflexivity | intros output _; reflexivity] |].
  intros text set_order.
  apply (undecodable_reply_is_harmless text set_order w 3 question);
    [reflexivity | intros output _; reflexivity].
Defined.

(** ** The overall quality range of a trips report *)

Lemma SFcompare_refl (x : spec_float) :
  x <> S754_nan -> SFcompare x x = Some Eq.
Proof.
  destruct x as [s | s | | s m e]; cbn [SFcompare]; intros Hx;
    try reflexivity; try contradiction.
  - now destruct s.
  - change (PosDef.Pos.compare_cont Eq m m) with (Pos.compare m m).
    rewrite Z.compare_refl, Pos.compare_refl. now destruct s.
Qed.

Lemma SFcompare_total (x y : spec_float) :
  x <> S754_nan -> y <> S754_nan -> exists c, SFcompare x y = Some c.
Proof.
  destruct x as [sx | sx | | sx mx ex], y as [sy | sy | | sy my ey];
    cbn [SFcompare]; intros Hx Hy; try contradiction; eauto.
Qed.

Lemma SFleb_refl (x : spec_float) : x <> S754_nan -> SFleb x x = true.
Proof. intros Hx. unfold SFleb. now rewrite SFcompare_refl. Qed.

Lemma SFltb_SFleb (x y : spec_float) : SFltb x y = true -> SFleb x y = true.
Proof.
  unfold SFltb, SFleb. now destruct (SFcompare x y) as [[] |].
Qed.

Lemma SFltb_false_SFleb (x y : spec_float) :
  x <> S754_nan -> y <> S754_nan -> SFltb x y = false -> SFleb y x = true.
Proof.
  intros Hx Hy. unfold SFltb, SFleb. rewrite (SFcompare_flip x y).
  destruct (SFcompare_total x y Hx Hy) as [c ->]. now destruct c.
Qed.

Lemma SFleb_trans (x y z : spec_float) :
  SFleb x y = true -> SFleb y z = true -> SFleb x z = true.
Proof.
  unfold SFleb.
  destruct x as [sx | sx | | sx mx ex], y as [sy | sy | | sy my ey],
           z as [sz | sz | | sz mz ez];
    try destruct sx; try destruct sy; try destruct sz;
    cbn [SFcompare];
    try (intros Hxy Hyz; first [reflexivity | discriminate Hxy | discriminate Hyz]);
    change (PosDef.Pos.compare_cont Eq mx my) with (Pos.compare mx my);
    change (PosDef.Pos.compare_cont Eq my mz) with (Pos.compare my mz);
    change (PosDef.Pos.compare_cont Eq mx mz) with (Pos.compare mx mz);
    destruct (Z.compare_spec ex ey), (Z.compare_spec ey ez), (Z.compare_spec ex ez);
    try lia; cbn [CompOpp];
    try (intros Hxy Hyz; first [reflexivity | discriminate Hxy | discriminate Hyz]);
    destruct (Pos.compare_spec mx my), (Pos.compare_spec my mz),
             (Pos.compare_spec mx mz);
    try lia; cbn [CompOpp];
    intros Hxy Hyz; first [reflexivity | discriminate Hxy | discriminate Hyz].
Qed.

Lemma not_nan_Prim2SF (f : float) :
  PrimFloat.is_nan f = false -> Prim2SF f <> S754_nan.
Proof.
  unfold PrimFloat.is_nan. rewrite FloatAxioms.eqb_spec. intros H Hnan.
  rewrite Hnan in H. discriminate H.
Qed.

Lemma leb_refl (a : float) : PrimFloat.is_nan a = false -> (a <=? a)%float = true.
Proof. intros Ha. rewrite leb_spec. now apply SFleb_refl, not_nan_Prim2SF. Qed.

Lemma leb_trans_float (a b c : float) :
  (a <=? b)%float = true -> (b <=? c)%float = true -> (a <=? c)%float = true.
Proof. rewrite !leb_spec. apply SFleb_trans. Qed.

Lemma py_lt_floats (a b : float) :
  py_lt (JFloat a) (JFloat b) = Returns (a <? b)%float.
Proof.
  unfold py_lt. cbn [py_compare as_number bind number_compare].
  now rewrite float_compare_spec, ltb_spec.
Qed.

Lemma py_gt_floats (a b : float) :
  py_gt (JFloat a) (JFloat b) = Returns (b <? a)%float.
Proof.
  unfold py_gt. cbn [py_compare as_number bind number_compare].
  rewrite float_compare_spec, ltb_spec. unfold SFltb.
  rewrite (SFcompare_flip (Prim2SF a) (Prim2SF b)).
  now destruct (SFcompare (Prim2SF a) (Prim2SF b)) as [[] |].
Qed.

Lemma ltb_leb (a b : float) : (a <? b)%float = true -> (a <=? b)%float = true.
Proof. rewrite ltb_spec, leb_spec. apply SFltb_SFleb. Qed.

Lemma ltb_false_leb (a b : float) :
  PrimFloat.is_nan a = false -> PrimFloat.is_nan b = false ->
  (a <? b)%float = false -> (b <=? a)%float = true.
Proof.
  intros Ha Hb. rewrite ltb_spec, leb_spec.
  apply SFltb_false_SFleb; now apply not_nan_Prim2SF.
Qed.

(** [min] of floats that are not NaN is a member and a lower bound. *)
Lemma min_from_least (rest : list float) :
  forall best m,
    PrimFloat.is_nan best = false ->
    Forall (fun v => PrimFloat.is_nan v = false) rest ->
    min_from (JFloat best) (map JFloat rest) = Returns m ->
    exists lo,
      m = JFloat lo /\ In lo (best :: rest)
      /\ forall v, In v (best :: rest) -> (lo <=? v)%float = true.
Proof.
  induction rest as [| item rest IH]; intros best m Hbest Hrest H; cbn [map min_from] in H.
  - apply Returns_inj in H. subst m. exists best.
    split; [reflexivity |]. split; [now left |].
    intros v [<- | []]. now apply leb_refl.
  - inversion Hrest as [| ? ? Hitem Hrest']; subst.
    rewrite py_lt_floats in H. cbn [bind] in H.
    destruct (item <? best)%float eqn:Hlt.
    + destruct (IH item m Hitem Hrest' H) as (lo & -> & Hin & Hleast).
      exists lo. split; [reflexivity |].
      split; [right; exact Hin |].
      intros v [<- | Hv]; [| now apply Hleast].
      apply leb_trans_float with item; [apply Hleast; now left | now apply ltb_leb].
    + destruct (IH best m Hbest Hrest' H) as (lo & -> & Hin & Hleast).
      exists lo. split; [reflexivity |].
      split; [destruct Hin as [<- | Hin]; [now left | right; now right] |].
      intros v [<- | [<- | Hv]].
      * apply Hleast. now left.
      * apply leb_trans_float with best; [apply Hleast; now left |].
        now apply ltb_false_leb.
      * apply Hleast. now right.
Qed.

(** [max] of floats that are not NaN is a member and an upper bound. *)
Lemma max_from_greatest (rest : list float) :
  forall best m,
    PrimFloat.is_nan best = false ->
    Forall (fun v => PrimFloat.is_nan v = false) rest ->
    max_from (JFloat best) (map JFloat rest) = Returns m ->
    exists hi,
      m = JFloat hi /\ In hi (best :: rest)
      /\ forall v, In v (best :: rest) -> (v <=? hi)%float = true.
Proof.
  induction rest as [| item rest IH]; intros best m Hbest Hrest H; cbn [map max_from] in H.
  - apply Returns_inj in H. subst m. exists best.
    split; [reflexivity |]. split; [now left |].
    intros v [<- | []]. now apply leb_refl.
  - inversion Hrest as [| ? ? Hitem Hrest']; subst.
    rewrite py_gt_floats in H. cbn [bind] in H.
    destruct (best <? item)%float eqn:Hlt.
    + destruct (IH item m Hitem Hrest' H) as (hi & -> & Hin & Hgreatest).
      exists hi. split; [reflexivity |].
      split; [right; exact Hin |].
      intros v [<- | Hv]; [| now apply Hgreatest].
      apply leb_trans_float with item; [now apply ltb_leb | apply Hgreatest; now left].
    + destruct (IH best m Hbest Hrest' H) as (hi & -> & Hin & Hgreatest).
      exists hi. split; [reflexivity |].
      split; [destruct Hin as [<- | Hin]; [now left | right; now right] |].
      intros v [<- | [<- | Hv]].
      * apply Hgreatest. now left.
      * apply leb_trans_float with best; [| apply Hgreatest; now left].
        now apply ltb_false_leb.
      * apply Hgreatest. now right.
Qed.

Lemma ordered_floats (values : list json) :
  forallb ordered_float values = true ->
  exists fs, values = map JFloat fs /\ Forall (fun v => PrimFloat.is_nan v = false) fs.
Proof.
  induction values as [| v values IH]; cbn [forallb].
  - intros _. exists []. split; [reflexivity | constructor].
  - rewrite andb_true_iff. intros [Hv Hrest].
    destruct (IH Hrest) as (fs & -> & Hfs).
    destruct v as [| | | f | | |]; try discriminate Hv.
    exists (f :: fs). split; [reflexivity |].
    constructor; [| exact Hfs]. cbn in Hv. now apply negb_true_iff in Hv.
Qed.

Lemma collect_trips_qualities (trips : list json) :
  forall stats stats',
    collect_trips stats trips = Returns stats' ->
    min_q_values stats'
    = (min_q_values stats ++ map (trip_quality "minQuality") trips)%list
    /\ max_q_values stats'
       = (max_q_values stats ++ map (trip_quality "maxQuality") trips)%list.
Proof.
  induction trips as [| trip rest IH]; intros stats stats' H; cbn [collect_trips] in H.
  - apply Returns_inj in H. subst stats'. now rewrite !app_nil_r.
  - apply bind_Returns in H as (stats1 & Hfirst & Hrest).
    destruct (IH _ _ Hrest) as [Hmin Hmax]. rewrite Hmin, Hmax.
    unfold collect_trip in Hfirst.
    apply bind_Returns in Hfirst as (t & Ht & Hfirst).
    apply bind_Returns in Hfirst as (sites & _ & Hfirst).
    apply bind_Returns in Hfirst as (seen & _ & Hfirst).
    apply Returns_inj in Hfirst. subst stats1.
    destruct trip as [| ? | ? | ? | ? | ? | d]; try discriminate Ht.
    apply Returns_inj in Ht. subst t.
    cbn [min_q_values max_q_values map trip_quality].
    now rewrite <- !app_assoc.
Qed.

Lemma trips_summary_range
    (text : text_builtins) (set_order : list string -> list string)
    (trips : list json) (stats : trip_stats) (summary : list string) :
  trips_summary text set_order trips stats = Returns summary ->
  exists global_min_q global_max_q min_text max_text,
    py_min (min_q_values stats) = Returns global_min_q
    /\ py_max (max_q_values stats) = Returns global_max_q
    /\ format_fixed text 3 global_min_q = Returns min_text
    /\ format_fixed text 3 global_max_q = Returns max_text
    /\ nth_error summary 4
       = Some ("- Overall min quality across trips: **" ++ min_text ++ "**")
    /\ nth_error summary 5
       = Some ("- Overall max quality across trips: **" ++ max_text ++ "**").
Proof.
  unfold trips_summary. intros H.
  apply bind_Returns in H as (first & _ & H).
  apply bind_Returns in H as (global_min_q & Hmin & H).
  apply bind_Returns in H as (global_max_q & Hmax & H).
  apply bind_Returns in H as (ge7 & _ & H).
  apply bind_Returns in H as (qual_summary & _ & H).
  apply bind_Returns in H as (sites & _ & H).
  apply bind_Returns in H as (min_text & Hmin_text & H).
  apply bind_Returns in H as (max_text & Hmax_text & H).
  apply Returns_inj in H. subst summary.
  exists global_min_q, global_max_q, min_text, max_text. repeat split; assumption.
Qed.

(** When the qualities of the trips are floats and none is NaN, the
    overall minimum shown in the trips report is the least of the
    trips' [minQuality] and the overall maximum the greatest of their
    [maxQuality], a missing quality counting as 0.0. *)
Theorem overall_qualities_are_the_extremes
    (text : text_builtins) (set_order : list string -> list string)
    (trips : list json) (lines : list string) :
  ordered_qualities trips = true ->
  trips_report_lines text set_order trips = Returns lines ->
  exists lo hi,
    In (JFloat lo) (map (trip_quality "minQuality") trips)
    /\ (forall v, In (JFloat v) (map (trip_quality "minQuality") trips) ->
                  (lo <=? v)%float = true)
    /\ In (JFloat hi) (map (trip_quality "maxQuality") trips)
    /\ (forall v, In (JFloat v) (map (trip_quality "maxQuality") trips) ->
                  (v <=? hi)%float = true)
    /\ nth_error lines 4
       = Some ("- Overall min quality across trips: **" ++ float_fixed text 3 lo ++ "**")
    /\ nth_error lines 5
       = Some ("- Overall max quality across trips: **" ++ float_fixed text 3 hi ++ "**").
Proof.
  intros Hordered Hlines.
  apply trips_report_lines_parts in Hlines
    as (stats & summary & rows & section & Hstats & Hsummary & _ & _ & ->).
  pose proof (trips_summary_length _ _ _ _ _ Hsummary) as Hlen.
  apply trips_summary_range in Hsummary
    as (gmin & gmax & min_text & max_text & Hmin & Hmax & Hmin_text & Hmax_text
        & Hline4 & Hline5).
  apply collect_trips_qualities in Hstats as [Hmins Hmaxs].
  cbn [no_stats min_q_values max_q_values app] in Hmins, Hmaxs.
  rewrite Hmins in Hmin. rewrite Hmaxs in Hmax.
  assert (Hmin_ok : forallb ordered_float (map (trip_quality "minQuality") trips) = true).
  { unfold ordered_qualities in Hordered. rewrite forallb_forall in Hordered |- *.
    intros v Hv. apply in_map_iff in Hv as (trip & <- & Htrip).
    now apply Hordered, andb_true_iff in Htrip. }
  assert (Hmax_ok : forallb ordered_float (map (trip_quality "maxQuality") trips) = true).
  { unfold ordered_qualities in Hordered. rewrite forallb_forall in Hordered |- *.
    intros v Hv. apply in_map_iff in Hv as (trip & <- & Htrip).
    now apply Hordered, andb_true_iff in Htrip. }
  destruct (ordered_floats _ Hmin_ok) as (mins & Hmins_eq & Hmins_ok).
  destruct (ordered_floats _ Hmax_ok) as (maxs & Hmaxs_eq & Hmaxs_ok).
  rewrite Hmins_eq in Hmin |- *. rewrite Hmaxs_eq in Hmax |- *.
  destruct mins as [| min0 mins]; [discriminate Hmin |].
  destruct maxs as [| max0 maxs]; [discriminate Hmax |].
  cbn [map py_min py_max] in Hmin, Hmax.
  inversion Hmins_ok as [| ? ? Hmin0 Hmins']; subst.
  inversion Hmaxs_ok as [| ? ? Hmax0 Hmaxs']; subst.
  destruct (min_from_least _ _ _ Hmin0 Hmins' Hmin) as (lo & -> & Hlo_in & Hlo).
  destruct (max_from_greatest _ _ _ Hmax0 Hmaxs' Hmax) as (hi & -> & Hhi_in & Hhi).
  cbn [format_fixed as_number to_float bind] in Hmin_text, Hmax_text.
  apply Returns_inj in Hmin_text, Hmax_text. subst min_text max_text.
  assert (Hinj : forall v fs, In (JFloat v) (map JFloat fs) -> In v fs).
  { intros v fs Hv. apply in_map_iff in Hv as (v' & Heq & Hv').
    injection Heq as ->. exact Hv'. }
  exists lo, hi.
  split; [now apply (in_map JFloat) in Hlo_in |].
  split; [intros v Hv; now apply Hlo, Hinj |].
  split; [now apply (in_map JFloat) in Hhi_in |].
  split; [intros v Hv; now apply Hhi, Hinj |].
  split; (rewrite nth_error_app1 by lia; assumption).
Qed.

Lemma overall_qualities_are_the_extremes_witness :
  let trips :=
    [ JDict [ ("plate", JStr "ABC1234"); ("day", JStr "2025-08-16");
              ("window30", JStr "08:00");
              ("minQuality", JFloat 0.4); ("maxQuality", JFloat 0.9) ];
      JDict [ ("minQuality", JFloat 0.25) ];
      JDict [ ("minQuality", JFloat 0.5); ("maxQuality", JFloat 0.75) ] ] in
  ordered_qualities trips = true
  /\ forall (text : text_builtins) (set_order : list string -> list string),
       exists lines lo hi,
         trips_report_lines text set_order trips = Returns lines
         /\ In (JFloat lo) (map (trip_quality "minQuality") trips)
         /\ (forall v, In (JFloat v) (map (trip_quality "minQuality") trips) ->
                       (lo <=? v)%float = true)
         /\ In (JFloat hi) (map (trip_quality "maxQuality") trips)
         /\ (forall v, In (JFloat v) (map (trip_quality "maxQuality") trips) ->
                       (v <=? hi)%float = true)
         /\ nth_error lines 4
            = Some ("- Overall min quality across trips: **"
                    ++ float_fixed text 3 lo ++ "**")
         /\ nth_error lines 5
            = Some ("- Overall max quality across trips: **"
                    ++ float_fixed text 3 hi ++ "**").
Proof.
  intros trips.
  split; [vm_compute; reflexivity |].
  intros text set_order.
  destruct (trips_report_lines_typed text set_order trips)
    as (summary & rows & section & Hlines & _);
    [discriminate | vm_compute; reflexivity |].
  destruct (overall_qualities_are_the_extremes text set_order trips _
              ltac:(vm_compute; reflexivity) Hlines) as (lo & hi & H).
  exists (summary ++ rows ++ section)%list, lo, hi. split; [exact Hlines | exact H].
Defined.

Lemma py_ge_floats (a b : float) :
  py_ge (JFloat a) (JFloat b) = Returns (b <=? a)%float.
Proof.
  unfold py_ge. cbn [py_compare as_number bind number_compare].
  rewrite float_compare_spec, leb_spec. unfold SFleb.
  rewrite (SFcompare_flip (Prim2SF a) (Prim2SF b)).
  now destruct (SFcompare (Prim2SF a) (Prim2SF b)) as [[] |].
Qed.

Lemma trips_summary_band
    (text : text_builtins) (set_order : list string -> list string)
    (trips : list json) (stats : trip_stats) (summary : list string) :
  trips_summary text set_order trips stats = Returns summary ->
  exists global_min_q ge7 band,
    py_min (min_q_values stats) = Returns global_min_q
    /\ py_ge global_min_q (JFloat 0.7) = Returns ge7
    /\ nth_error summary 6 = Some ("- Quality summary: **" ++ band ++ "**")
    /\ (ge7 = true <-> band = "consistently good quality across trips").
Proof.
  unfold trips_summary. intros H.
  apply bind_Returns in H as (first & _ & H).
  apply bind_Returns in H as (global_min_q & Hmin & H).
  apply bind_Returns in H as (global_max_q & _ & H).
  apply bind_Returns in H as (ge7 & Hge7 & H).
  apply bind_Returns in H as (band & Hband & H).
  apply bind_Returns in H as (sites & _ & H).
  apply bind_Returns in H as (min_text & _ & H).
  apply bind_Returns in H as (max_text & _ & H).
  apply Returns_inj in H. subst summary.
  exists global_min_q, ge7, band.
  split; [exact Hmin |]. split; [exact Hge7 |]. split; [reflexivity |].
  destruct ge7.
  - apply Returns_inj in Hband. subst band. now split.
  - apply bind_Returns in Hband as (ge5 & _ & Hband).
    destruct ge5.
    + apply Returns_inj in Hband. subst band. split; discriminate.
    + apply bind_Returns in Hband as (ge3 & _ & Hband).
      destruct ge3; apply Returns_inj in Hband; subst band; split; discriminate.
Qed.

(** When the qualities of the trips are floats and none is NaN, the
    trips report reads "consistently good quality across trips" exactly
    when the [minQuality] of every trip is at least 0.7, a missing
    quality counting as 0.0. *)
Theorem consistently_good_means_every_trip
    (text : text_builtins) (set_order : list string -> list string)
    (trips : list json) (lines : list string) :
  ordered_qualities trips = true ->
  trips_report_lines text set_order trips = Returns lines ->
  exists band,
    nth_error lines 6 = Some ("- Quality summary: **" ++ band ++ "**")
    /\ (band = "consistently good quality across trips"
        <-> forall v, In (JFloat v) (map (trip_quality "minQuality") trips) ->
                      (0.7 <=? v)%float = true).
Proof.
  intros Hordered Hlines.
  apply trips_report_lines_parts in Hlines
    as (stats & summary & rows & section & Hstats & Hsummary & _ & _ & ->).
  pose proof (trips_summary_length _ _ _ _ _ Hsummary) as Hlen.
  apply trips_summary_band in Hsummary
    as (gmin & ge7 & band & Hmin & Hge7 & Hline & Hband).
  apply collect_trips_qualities in Hstats as [Hmins _].
  cbn [no_stats min_q_values app] in Hmins. rewrite Hmins in Hmin.
  assert (Hmin_ok : forallb ordered_float (map (trip_quality "minQuality") trips) = true).
  { unfold ordered_qualities in Hordered. rewrite forallb_forall in Hordered |- *.
    intros v Hv. apply in_map_iff in Hv as (trip & <- & Htrip).
    now apply Hordered, andb_true_iff in Htrip. }
  destruct (ordered_floats _ Hmin_ok) as (mins & Hmins_eq & Hmins_ok).
  rewrite Hmins_eq in Hmin |- *.
  destruct mins as [| min0 mins]; [discriminate Hmin |].
  cbn [map py_min] in Hmin.
  inversion Hmins_ok as [| ? ? Hmin0 Hmins']; subst.
  destruct (min_from_least _ _ _ Hmin0 Hmins' Hmin) as (lo & -> & Hlo_in & Hlo).
  rewrite py_ge_floats in Hge7. apply Returns_inj in Hge7.
  exists band. split; [rewrite nth_error_app1 by lia; exact Hline |].
  rewrite <- Hband, <- Hge7. split.
  - intros Hfloor v Hv. apply in_map_iff in Hv as (v' & Heq & Hv').
    injection Heq as ->. apply leb_trans_float with lo; [exact Hfloor | now apply Hlo].
  - intros Hall. apply Hall. now apply (in_map JFloat) in Hlo_in.
Qed.

Lemma consistently_good_means_every_trip_witness :
  let trips :=
    [ JDict [ ("plate", JStr "ABC1234"); ("day", JStr "2025-08-16");
              ("window30", JStr "08:00");
              ("minQuality", JFloat 0.8); ("maxQuality", JFloat 0.9) ];
      JDict [ ("minQuality", JFloat 0.75) ] ] in
  ordered_qualities trips = true
  /\ forall (text : text_builtins) (set_order : list string -> list string),
       exists lines band,
         trips_report_lines text set_order trips = Returns lines
         /\ nth_error lines 6 = Some ("- Quality summary: **" ++ band ++ "**")
         /\ (band = "consistently good quality across trips"
             <-> forall v, In (JFloat v) (map (trip_quality "minQuality") trips) ->
                           (0.7 <=? v)%float = true).
Proof.
  intros trips.
  split; [vm_compute; reflexivity |].
  intros text set_order.
  destruct (trips_report_lines_typed text set_order trips)
    as (summary & rows & section & Hlines & _);
    [discriminate | vm_compute; reflexivity |].
  destruct (consistently_good_means_every_trip text set_order trips _
              ltac:(vm_compute; reflexivity) Hlines) as (band & H).
  exists (summary ++ rows ++ section)%list, band. split; [exact Hlines | exact H].
Defined.
